(** * train_x_formers.py: the training driver, embedded and verified

    The development follows the Python file top to bottom.

    - [Py]: the few Python built-ins the script relies on ([str], [int],
      [str.split], [sorted], [os.path.join], [range], [%]).
    - [Config], [Env]: the module-level constants of the script and what it
      reads from its surroundings (script directory, entries of the [run]
      directory, time stamp of the log directory).
    - module level: [num_classes], [run_id], [save_dir], [saveName].
    - [Section Driver]: [train_model], written in a state-and-exception monad
      over a [world] (checkpoint files on disk and the log of calls made to
      the tensor runtime, the metrics writer and the data loaders).

    The tensor runtime (model, criterion, optimizer, scheduler, softmax), the
    dataset and floating-point rounding are collaborators of the script: they
    are parameters of [Section Driver].  Finite floating-point values are
    rationals, so floats are carried as [Q]; every arithmetic operation of the
    script is the exact operation followed by the rounding of its format
    ([rnd] for Python floats and float64 tensors, [rnd32] for float32
    tensors).  Infinities and NaN are outside the model.  Progress text on
    standard output, wall-clock timing and device placement are not
    modelled. *)

From Stdlib Require Import ZArith QArith Qabs Qround Lia Lqa List String Ascii.
From Stdlib Require Import DecimalString DecimalZ DecimalPos Permutation Sorted.
From stdpp Require Import base gmap strings list.
Import ListNotations.

Local Open Scope Z_scope.
Local Open Scope string_scope.

(** ** Exceptions and results *)

(** The Python exceptions the script can end with. *)
Inductive exn : Type :=
| NotImplementedError
| ValueError
| IndexError
| ZeroDivisionError
| FileNotFoundError
| AttributeError.

Inductive result (A : Type) : Type :=
| Ok (a : A)
| Raise (e : exn).
Arguments Ok {A} a.
Arguments Raise {A} e.

Definition result_bind {A B} (r : result A) (k : A -> result B) : result B :=
  match r with
  | Ok a => k a
  | Raise e => Raise e
  end.

(** ** Python built-ins *)

Module Py.

(** [str(n)] for an [int]. *)
Definition str (n : Z) : string := NilZero.string_of_int (Z.to_int n).

(** [a % b] on [int]: the result has the sign of the divisor, as
    [Z.modulo]; a zero divisor raises. *)
Definition mod_ (a b : Z) : result Z :=
  if Z.eqb b 0 then Raise ZeroDivisionError else Ok (Z.modulo a b).

(** [range(a, b)]. *)
Definition range (a b : Z) : list Z :=
  List.map (fun i => a + Z.of_nat i) (List.seq 0 (Z.to_nat (b - a))).

(** [s.split(sep)] for a one-character separator: never empty. *)
Fixpoint split (sep : ascii) (s : string) : list string :=
  match s with
  | EmptyString => [EmptyString]
  | String c s' =>
      if Ascii.eqb c sep then EmptyString :: split sep s'
      else match split sep s' with
           | [] => [String c EmptyString]
           | p :: ps => String c p :: ps
           end
  end.

(** [l[-1]]. *)
Definition last_item {A} (l : list A) : result A :=
  match List.rev l with
  | [] => Raise IndexError
  | x :: _ => Ok x
  end.

(** Characters [int()] strips from an ASCII string: tab to carriage return
    and the space.  ([str.isspace] also holds of the separators 28 to 31;
    [int] leaves them in place and fails on them.) *)
Definition isspace (c : ascii) : bool :=
  let n := N_of_ascii c in
  ((9 <=? n)%N && (n <=? 13)%N) || (n =? 32)%N.

Fixpoint lstrip (s : string) : string :=
  match s with
  | String c s' => if isspace c then lstrip s' else s
  | EmptyString => EmptyString
  end.

Definition strip (s : string) : string :=
  String.rev (lstrip (String.rev (lstrip s))).

Definition digit_val (c : ascii) : option Z :=
  let n := N_of_ascii c in
  if ((48 <=? n)%N && (n <=? 57)%N)%bool then Some (Z.of_N n - 48) else None.

Fixpoint int_digits (acc : Z) (s : string) : option Z :=
  match s with
  | EmptyString => Some acc
  | String c s' =>
      match digit_val c with
      | Some d => int_digits (10 * acc + d) s'
      | None => None
      end
  end.

(** [int(s)] on an ASCII string: surrounding white space, an optional
    sign, at least one decimal digit; anything else is a [ValueError].
    (Digit grouping by underscores is left out: the one call of the script
    passes a piece of [split('_')].  Strings here are ASCII: decimal digits
    of other scripts, which [int] also reads, are outside this definition,
    and the statements about [int] are about names made of ASCII digits and
    letters.) *)
Definition int (s : string) : result Z :=
  let t := strip s in
  let '(neg, body) :=
    match t with
    | String "-"%char r => (true, r)
    | String "+"%char r => (false, r)
    | _ => (false, t)
    end in
  match body with
  | EmptyString => Raise ValueError
  | _ => match int_digits 0 body with
         | Some n => Ok (if neg then - n else n)
         | None => Raise ValueError
         end
  end.

Definition startswith (p s : string) : bool := String.prefix p s.

Definition endswith_slash (s : string) : bool :=
  match String.rev s with
  | String "/"%char _ => true
  | _ => false
  end.

(** [os.path.join(a, b)] on POSIX. *)
Definition join2 (a b : string) : string :=
  if startswith "/" b then b
  else if (String.eqb a "" || endswith_slash a)%bool then a ++ b
  else a ++ "/" ++ b.

(** [os.path.join(a, *p)]. *)
Definition join (a : string) (p : list string) : string :=
  List.fold_left join2 p a.

(** [sorted(l)] on strings: code-point order.  The order is total, so the
    stable sort of Python and insertion sort return the same list. *)
Fixpoint insert_sorted (x : string) (l : list string) : list string :=
  match l with
  | [] => [x]
  | y :: l' => if String.leb x y then x :: l else y :: insert_sorted x l'
  end.

Definition sorted (l : list string) : list string :=
  List.fold_right insert_sorted [] l.

(** [glob.glob(os.path.join(d, 'run_*'))] given the entries of [d]: the
    entries whose name starts with [run_], each joined to [d].  ([d] is
    taken free of glob metacharacters.) *)
Definition glob_run (d : string) (entries : list string) : list string :=
  List.map (fun name => join2 d name)
           (List.filter (startswith "run_") entries).

End Py.

(** ** Module-level constants and surroundings *)

(** Lines 21-29 and 50. *)
Record Config : Type := {
  nEpochs : Z;
  resume_epoch : Z;
  useTest : bool;
  nTestInterval : Z;
  snapshot : Z;
  lr : Q;
  batch_size : positive;
  dataset : string;
  modelName : string
}.

(** The values the script ships with. *)
Definition shipped : Config := {|
  nEpochs := 20;
  resume_epoch := 0;
  useTest := true;
  nTestInterval := 20;
  snapshot := 50;
  lr := 1 # 1000;
  batch_size := 32;
  dataset := "ucf101";
  modelName := "simple_vit_3d"
|}.

(** What the script reads from its surroundings at start-up. *)
Record Env : Type := {
  (** [os.path.dirname(os.path.abspath(__file__))] *)
  save_dir_root : string;
  (** the names found in [<save_dir_root>/run] (none when it is missing) *)
  run_entries : list string;
  (** [datetime.now().strftime(...) + '_' + socket.gethostname()] *)
  stamp : string
}.

(** Lines 31-37. *)
Definition num_classes (cfg : Config) : result Z :=
  if String.eqb (dataset cfg) "hmdb51" then Ok 51
  else if String.eqb (dataset cfg) "ucf101" then Ok 101
  else Raise NotImplementedError.

(** Lines 43 and 46. *)
Definition runs (env : Env) : list string :=
  Py.sorted (Py.glob_run (Py.join (save_dir_root env) ["run"]) (run_entries env)).

(** [int(runs[-1].split('_')[-1])] *)
Definition last_run_number (rs : list string) : result Z :=
  result_bind (Py.last_item rs) (fun r =>
  result_bind (Py.last_item (Py.split "_" r)) Py.int).

(** Lines 42-47. *)
Definition run_id (cfg : Config) (env : Env) : result Z :=
  if negb (Z.eqb (resume_epoch cfg) 0) then
    match runs env with
    | [] => Ok 0
    | rs => last_run_number rs
    end
  else
    match runs env with
    | [] => Ok 0
    | rs => result_bind (last_run_number rs) (fun n => Ok (n + 1))
    end.

(** Line 49. *)
Definition save_dir_of (env : Env) (id : Z) : string :=
  Py.join (save_dir_root env) ["run"; "run_" ++ Py.str id].

(** Line 51. *)
Definition saveName (cfg : Config) : string :=
  modelName cfg ++ "-" ++ dataset cfg.

(** The names bound at module level that [train_model] reads. *)
Record Globals : Type := {
  g_num_classes : Z;
  g_run_id : Z;
  g_save_dir : string
}.

(** Lines 31-51, in order. *)
Definition module_level (cfg : Config) (env : Env) : result Globals :=
  result_bind (num_classes cfg) (fun nc =>
  result_bind (run_id cfg env) (fun id =>
  Ok {| g_num_classes := nc; g_run_id := id; g_save_dir := save_dir_of env id |})).

Definition env125 : Env := {|
  save_dir_root := "/home/u/proj";
  run_entries := ["run_2"; "notes.txt"; "run_5"; "run_1"];
  stamp := "Jan01_00-00-00_host"
|}.

Definition resumed (cfg : Config) (e : Z) : Config := {|
  nEpochs := nEpochs cfg;
  resume_epoch := e;
  useTest := useTest cfg;
  nTestInterval := nTestInterval cfg;
  snapshot := snapshot cfg;
  lr := lr cfg;
  batch_size := batch_size cfg;
  dataset := dataset cfg;
  modelName := modelName cfg
|}.

(** ** The state-and-exception monad of the script

    A statement maps a state to the state it leaves and either a value or the
    exception it raised; the state reached at a raise is kept, so that what
    happened before the raise remains visible. *)

Definition M (S A : Type) : Type := S -> S * result A.

Definition ret {S A} (a : A) : M S A := fun s => (s, Ok a).

Definition bind {S A B} (m : M S A) (k : A -> M S B) : M S B :=
  fun s => match m s with
           | (s', Ok a) => k a s'
           | (s', Raise e) => (s', Raise e)
           end.

Definition raise {S A} (e : exn) : M S A := fun s => (s, Raise e).

Definition gets {S A} (f : S -> A) : M S A := fun s => (s, Ok (f s)).

Definition modify {S} (f : S -> S) : M S unit := fun s => (f s, Ok tt).

Definition lift {S A} (r : result A) : M S A := fun s => (s, r).

Declare Scope py_scope.
Delimit Scope py_scope with py.
Notation "x <- m ;; k" := (bind m (fun x => k))
  (at level 100, m at next level, right associativity) : py_scope.
Notation "m ;; k" := (bind m (fun _ => k))
  (at level 100, right associativity) : py_scope.

(** [for x in l: body(x)] *)
Fixpoint for_each {S A} (l : list A) (body : A -> M S unit) : M S unit :=
  match l with
  | [] => ret tt
  | x :: l' => bind (body x) (fun _ => for_each l' body)
  end.

(** A statement relates every state to the state it leaves, whether it
    returns or raises. *)
Definition steps {S A} (Rel : S -> S -> Prop) (m : M S A) : Prop :=
  forall s, Rel s (fst (m s)).

(** ** Data the script handles *)

(** The four architectures [train_model] can build. *)
Inductive arch : Type := CCT | SimpleViT | ViT | ViViT.

(** The two phases of an epoch (line 184), and the three data loaders. *)
Inductive phase : Type := train | val.

Inductive loader_name : Type :=
| train_dataloader
| val_dataloader
| test_dataloader.

(** [running_corrects] starts as the Python float [0.0] and becomes a
    float32 tensor at the first [+=] of a tensor. *)
Inductive number : Type :=
| PyFloat (q : Q)
| Tensor32 (q : Q).

(** [torch.max(row)[1]]: the index of the first maximal entry. *)
Fixpoint argmax_from (best_i : nat) (best : Q) (i : nat) (row : list Q) : nat :=
  match row with
  | [] => best_i
  | x :: r =>
      if Qle_bool x best then argmax_from best_i best (S i) r
      else argmax_from i x (S i) r
  end.

Definition argmax (row : list Q) : Z :=
  match row with
  | [] => 0
  | x :: r => Z.of_nat (argmax_from 0 x 1 r)
  end.

(** [torch.sum(preds == labels)] *)
Definition count_equal (preds labels : list Z) : Z :=
  Z.of_nat (List.length (List.filter (fun pl => Z.eqb (fst pl) (snd pl))
                                     (List.combine preds labels))).

(** The batches of a [DataLoader] (no [drop_last]): the examples, [n] at a
    time, the last batch possibly shorter. *)
Fixpoint chunks_fuel {A} (fuel n : nat) (l : list A) : list (list A) :=
  match fuel with
  | O => []
  | S fuel' =>
      match l with
      | [] => []
      | _ => List.firstn n l :: chunks_fuel fuel' n (List.skipn n l)
      end
  end.

Definition chunks {A} (n : nat) (l : list A) : list (list A) :=
  chunks_fuel (List.length l) n l.

(** [running_loss / size] on a Python float: a zero divisor raises. *)
Definition float_div (rnd : Q -> Q) (a : Q) (n : Z) : result Q :=
  if Z.eqb n 0 then Raise ZeroDivisionError else Ok (rnd (a / inject_Z n)%Q).

(** [running_corrects.double() / size]: a Python float has no [double]; a
    tensor is converted exactly and divided in float64.  (A tensor divided by
    zero gives an infinity or NaN; the script divides [running_loss] by the
    same [size] just before, so this line is reached with [size] non-zero
    only.) *)
Definition double_div (rnd : Q -> Q) (c : number) (n : Z) : result Q :=
  match c with
  | PyFloat _ => Raise AttributeError
  | Tensor32 q => Ok (rnd (q / inject_Z n)%Q)
  end.

(** [running_corrects += count], the result a float32 tensor. *)
Definition add_count (rnd32 : Q -> Q) (c : number) (k : Z) : number :=
  match c with
  | PyFloat q => Tensor32 (rnd32 (q + inject_Z k)%Q)
  | Tensor32 q => Tensor32 (rnd32 (q + inject_Z k)%Q)
  end.

(** ** The collaborators of [train_model]

    [Params] is what [model.state_dict()] returns and [OptState] what
    [optimizer.state_dict()] returns.  A forward pass reads the parameters
    and returns one row of class scores per input; it is a function of the
    mode ([true] after [model.train()], [false] after [model.eval()]), the
    parameters and the inputs. *)

Class Runtime (Params OptState Grads SchedState Input : Type) : Type := {
  (** the constructor of each architecture, given [num_classes] *)
  new_model : arch -> Z -> Params;
  (** [model(inputs)] *)
  forward : bool -> Params -> list Input -> list (list Q);
  (** [nn.Softmax(dim=1)], on one row *)
  Softmax : list Q -> list Q;
  (** [criterion(outputs, labels).item()] *)
  criterion : list (list Q) -> list Z -> Q;
  (** the gradients of a model just built, [optimizer.zero_grad()] and
      [loss.backward()] *)
  grads0 : Grads;
  zero_grad : Grads -> Grads;
  backward : bool -> Params -> list Input -> list Z -> Grads -> Grads;
  (** [optim.Adam(train_params, lr=lr)] and [optimizer.step()] *)
  adam : Params -> Q -> OptState;
  optimizer_step : OptState -> Grads -> Params -> Params * OptState;
  (** [optim.lr_scheduler.StepLR(optimizer, step_size=10, gamma=0.1)] and
      [scheduler.step()]; both write the learning rate of the optimizer *)
  step_lr : OptState -> SchedState * OptState;
  scheduler_step : SchedState -> OptState -> SchedState * OptState;
  (** rounding to float64 and to float32 *)
  rnd : Q -> Q;
  rnd32 : Q -> Q;
  (** [VideoDataset(dataset=..., split=..., clip_len=16, preprocess=False)]:
      its examples, each a clip and its label *)
  VideoDataset : string -> string -> list (Input * Z);
  (** the order in which a shuffling loader visits its examples in the pass
      of a given epoch *)
  shuffled : Z -> list (Input * Z) -> list (Input * Z)
}.

(** ** [train_model] *)

Section Driver.

Context {Params OptState Grads SchedState Input : Type}.
Context {R : Runtime Params OptState Grads SchedState Input}.

(** The dictionary [torch.save] writes at line 238. *)
Record checkpoint : Type := {
  ck_epoch : Z;
  ck_state_dict : Params;
  ck_opt_dict : OptState
}.

(** Objects [train_model] constructs. *)
Inductive resource : Type :=
| RModel (a : arch)
| RCriterion
| ROptimizer
| RScheduler
| RWriter (log_dir : string)
| RLoader (l : loader_name).

(** Calls the script makes on its collaborators, as they are logged. *)
Inductive event : Type :=
| EvNew (r : resource)
| EvLoad (path : string)
| EvSchedulerStep
| EvTrain
| EvEval
| EvIter (l : loader_name)
| EvZeroGrad
| EvForward (grad_enabled : bool)
| EvBackward
| EvOptimizerStep
| EvScalar (tag : string) (value : Q) (step : Z)
| EvSave (path : string) (ck : checkpoint)
| EvClose.

(** Outside [train_model]: the checkpoint files on disk and the log. *)
Record world : Type := {
  w_files : gmap string checkpoint;
  w_log : list event
}.

(** [DataLoader(dataset, batch_size=..., shuffle=...)] *)
Record DataLoader : Type := {
  dl_dataset : list (Input * Z);
  dl_batch_size : positive;
  dl_shuffle : bool
}.

(** [len(loader.dataset)] *)
Definition dataset_len (dl : DataLoader) : Z :=
  Z.of_nat (List.length (dl_dataset dl)).

(** The batches of one pass over a loader. *)
Definition batches (epoch : Z) (dl : DataLoader) : list (list (Input * Z)) :=
  chunks (Pos.to_nat (dl_batch_size dl))
         (if dl_shuffle dl then shuffled epoch (dl_dataset dl) else dl_dataset dl).

(** The state [train_model] works on once model and optimizer exist: the
    world, the objects and the two accumulators. *)
Record frame : Type := {
  files : gmap string checkpoint;
  log : list event;
  model : Params;
  grads : Grads;
  optimizer : OptState;
  scheduler : SchedState;
  training : bool;
  running_loss : Q;
  running_corrects : number
}.

Definition set_files (v : gmap string checkpoint) (fr : frame) : frame :=
  {| files := v; log := log fr; model := model fr; grads := grads fr;
     optimizer := optimizer fr; scheduler := scheduler fr; training := training fr;
     running_loss := running_loss fr; running_corrects := running_corrects fr |}.

Definition set_log (v : list event) (fr : frame) : frame :=
  {| files := files fr; log := v; model := model fr; grads := grads fr;
     optimizer := optimizer fr; scheduler := scheduler fr; training := training fr;
     running_loss := running_loss fr; running_corrects := running_corrects fr |}.

Definition set_model (v : Params) (fr : frame) : frame :=
  {| files := files fr; log := log fr; model := v; grads := grads fr;
     optimizer := optimizer fr; scheduler := scheduler fr; training := training fr;
     running_loss := running_loss fr; running_corrects := running_corrects fr |}.

Definition set_grads (v : Grads) (fr : frame) : frame :=
  {| files := files fr; log := log fr; model := model fr; grads := v;
     optimizer := optimizer fr; scheduler := scheduler fr; training := training fr;
     running_loss := running_loss fr; running_corrects := running_corrects fr |}.

Definition set_optimizer (v : OptState) (fr : frame) : frame :=
  {| files := files fr; log := log fr; model := model fr; grads := grads fr;
     optimizer := v; scheduler := scheduler fr; training := training fr;
     running_loss := running_loss fr; running_corrects := running_corrects fr |}.

Definition set_scheduler (v : SchedState) (fr : frame) : frame :=
  {| files := files fr; log := log fr; model := model fr; grads := grads fr;
     optimizer := optimizer fr; scheduler := v; training := training fr;
     running_loss := running_loss fr; running_corrects := running_corrects fr |}.

Definition set_training (v : bool) (fr : frame) : frame :=
  {| files := files fr; log := log fr; model := model fr; grads := grads fr;
     optimizer := optimizer fr; scheduler := scheduler fr; training := v;
     running_loss := running_loss fr; running_corrects := running_corrects fr |}.

Definition set_running_loss (v : Q) (fr : frame) : frame :=
  {| files := files fr; log := log fr; model := model fr; grads := grads fr;
     optimizer := optimizer fr; scheduler := scheduler fr; training := training fr;
     running_loss := v; running_corrects := running_corrects fr |}.

Definition set_running_corrects (v : number) (fr : frame) : frame :=
  {| files := files fr; log := log fr; model := model fr; grads := grads fr;
     optimizer := optimizer fr; scheduler := scheduler fr; training := training fr;
     running_loss := running_loss fr; running_corrects := v |}.

Definition world_of (fr : frame) : world :=
  {| w_files := files fr; w_log := log fr |}.

(** A call on a collaborator is appended to the log. *)
Definition emit (e : event) : M frame unit :=
  modify (fun fr => set_log (log fr ++ [e]) fr).

(** *** The calls of the loop *)

Local Open Scope py_scope.

(** [scheduler.step()] *)
Definition scheduler_step_ : M frame unit :=
  emit EvSchedulerStep ;;
  modify (fun fr =>
    let so := scheduler_step (scheduler fr) (optimizer fr) in
    set_scheduler (fst so) (set_optimizer (snd so) fr)).

(** [model.train()] and [model.eval()] *)
Definition model_train : M frame unit :=
  emit EvTrain ;; modify (set_training true).

Definition model_eval : M frame unit :=
  emit EvEval ;; modify (set_training false).

(** [optimizer.zero_grad()] *)
Definition optimizer_zero_grad : M frame unit :=
  emit EvZeroGrad ;; modify (fun fr => set_grads (zero_grad (grads fr)) fr).

(** [model(inputs)], with gradient tracking on or inside [torch.no_grad()] *)
Definition model_call (grad_enabled : bool) (inputs : list Input)
  : M frame (list (list Q)) :=
  emit (EvForward grad_enabled) ;;
  gets (fun fr => forward (training fr) (model fr) inputs).

(** [loss.backward()] *)
Definition loss_backward (inputs : list Input) (labels : list Z) : M frame unit :=
  emit EvBackward ;;
  modify (fun fr =>
    set_grads (backward (training fr) (model fr) inputs labels (grads fr)) fr).

(** [optimizer.step()] *)
Definition optimizer_step_ : M frame unit :=
  emit EvOptimizerStep ;;
  modify (fun fr =>
    let mo := optimizer_step (optimizer fr) (grads fr) (model fr) in
    set_model (fst mo) (set_optimizer (snd mo) fr)).

(** Lines 220-221 and 262-263. *)
Definition accumulate (loss : Q) (inputs : list Input) (preds labels : list Z)
  : M frame unit :=
  modify (fun fr =>
    set_running_loss
      (rnd (running_loss fr + rnd (loss * inject_Z (Z.of_nat (List.length inputs))))%Q)
      fr) ;;
  modify (fun fr =>
    set_running_corrects
      (add_count rnd32 (running_corrects fr) (count_equal preds labels)) fr).

(** Lines 212-213: the predicted class of each row. *)
Definition predictions (outputs : list (list Q)) : list Z :=
  let probs := List.map Softmax outputs in
  List.map argmax probs.

(** Lines 200-221: the body of the loop over a train or val loader. *)
Definition trainval_batch (ph : phase) (b : list (Input * Z)) : M frame unit :=
  let inputs := List.map fst b in
  let labels := List.map snd b in
  optimizer_zero_grad ;;
  outputs <- match ph with
             | train => model_call true inputs
             | val => model_call false inputs
             end ;;
  let preds := predictions outputs in
  let loss := criterion outputs labels in
  match ph with
  | train => loss_backward inputs labels ;; optimizer_step_
  | val => ret tt
  end ;;
  accumulate loss inputs preds labels.

(** Lines 252-263: the body of the loop over the test loader. *)
Definition test_batch (b : list (Input * Z)) : M frame unit :=
  let inputs := List.map fst b in
  let labels := List.map snd b in
  outputs <- model_call false inputs ;;
  let preds := predictions outputs in
  let loss := criterion outputs labels in
  accumulate loss inputs preds labels.

(** Lines 188-189 and 249-250. *)
Definition reset_running : M frame unit :=
  modify (set_running_loss 0%Q) ;;
  modify (set_running_corrects (PyFloat 0%Q)).

(** Lines 223-224 and 265-266: average loss and accuracy of the pass. *)
Definition epoch_metrics (size : Z) : M frame (Q * Q) :=
  rl <- gets running_loss ;;
  epoch_loss <- lift (float_div rnd rl size) ;;
  rc <- gets running_corrects ;;
  epoch_acc <- lift (double_div rnd rc size) ;;
  ret (epoch_loss, epoch_acc).

(** The loaders and sizes of lines 171-180. *)
Record Loaders : Type := {
  ld_train : DataLoader;
  ld_val : DataLoader;
  ld_test : DataLoader
}.

Definition trainval_loaders (ld : Loaders) (ph : phase) : DataLoader :=
  match ph with
  | train => ld_train ld
  | val => ld_val ld
  end.

Definition trainval_sizes (ld : Loaders) (ph : phase) : Z :=
  dataset_len (trainval_loaders ld ph).

Definition test_size (ld : Loaders) : Z := dataset_len (ld_test ld).

Definition loader_of (ph : phase) : loader_name :=
  match ph with
  | train => train_dataloader
  | val => val_dataloader
  end.

(** Lines 185-235: one phase of an epoch. *)
Definition run_phase (ld : Loaders) (epoch : Z) (ph : phase) : M frame unit :=
  reset_running ;;
  match ph with
  | train => scheduler_step_ ;; model_train
  | val => model_eval
  end ;;
  emit (EvIter (loader_of ph)) ;;
  for_each (batches epoch (trainval_loaders ld ph)) (trainval_batch ph) ;;
  m <- epoch_metrics (trainval_sizes ld ph) ;;
  match ph with
  | train =>
      emit (EvScalar "data/train_loss_epoch" (fst m) epoch) ;;
      emit (EvScalar "data/train_acc_epoch" (snd m) epoch)
  | val =>
      emit (EvScalar "data/val_loss_epoch" (fst m) epoch) ;;
      emit (EvScalar "data/val_acc_epoch" (snd m) epoch)
  end.

(** The path of the checkpoint of an epoch (lines 155 and 242). *)
Definition checkpoint_path (save_dir save_name : string) (epoch : Z) : string :=
  Py.join save_dir ["models"; save_name ++ "_epoch-" ++ Py.str epoch ++ ".pth.tar"].

(** Lines 238-242: [torch.save]; a file of that name is replaced. *)
Definition save_checkpoint (save_dir save_name : string) (epoch : Z) : M frame unit :=
  m <- gets model ;;
  o <- gets optimizer ;;
  let ck := {| ck_epoch := epoch + 1; ck_state_dict := m; ck_opt_dict := o |} in
  let path := checkpoint_path save_dir save_name epoch in
  emit (EvSave path ck) ;;
  modify (fun fr => set_files (<[path := ck]> (files fr)) fr).

(** Lines 246-273: the pass over the test loader. *)
Definition test_pass (ld : Loaders) (epoch : Z) : M frame unit :=
  model_eval ;;
  reset_running ;;
  emit (EvIter test_dataloader) ;;
  for_each (batches epoch (ld_test ld)) test_batch ;;
  m <- epoch_metrics (test_size ld) ;;
  emit (EvScalar "data/test_loss_epoch" (fst m) epoch) ;;
  emit (EvScalar "data/test_acc_epoch" (snd m) epoch).

(** Lines 237-243. *)
Definition checkpoint_decision (save_dir save_name : string) (save_epoch epoch : Z)
  : M frame unit :=
  r <- lift (Py.mod_ epoch save_epoch) ;;
  if Z.eqb r (save_epoch - 1) then save_checkpoint save_dir save_name epoch
  else ret tt.

(** Lines 245-273; [and] does not evaluate its right operand when [useTest]
    is false. *)
Definition test_decision (ld : Loaders) (use_test : bool) (test_interval epoch : Z)
  : M frame unit :=
  if use_test then
    r <- lift (Py.mod_ epoch test_interval) ;;
    if Z.eqb r (test_interval - 1) then test_pass ld epoch else ret tt
  else ret tt.

(** Lines 183-273: the body of the loop over the epochs. *)
Definition epoch_body (ld : Loaders) (save_dir save_name : string)
  (save_epoch : Z) (use_test : bool) (test_interval : Z) (epoch : Z) : M frame unit :=
  for_each [train; val] (run_phase ld epoch) ;;
  checkpoint_decision save_dir save_name save_epoch epoch ;;
  test_decision ld use_test test_interval epoch.

(** *** [train_model] and the script *)

(** The architecture the chain of comparisons at lines 61-144 selects. *)
Definition model_of (name : string) : option arch :=
  if String.eqb name "cct_3d" then Some CCT
  else if String.eqb name "simple_vit_3d" then Some SimpleViT
  else if String.eqb name "vit_3d" then Some ViT
  else if String.eqb name "vivit" then Some ViViT
  else None.

(** Lines 155-160: [torch.load], then the two [load_state_dict]. *)
Definition load_checkpoint (path : string) : M frame unit :=
  emit (EvLoad path) ;;
  fs <- gets files ;;
  match fs !! path with
  | None => raise FileNotFoundError
  | Some ck =>
      modify (set_model (ck_state_dict ck)) ;;
      modify (set_optimizer (ck_opt_dict ck))
  end.

(** The constructor [DataLoader(dataset, batch_size=..., shuffle=...)].  With
    [shuffle=True] it builds a [RandomSampler], whose constructor raises
    [ValueError] on a dataset without examples; without shuffling an empty
    dataset is accepted. *)
Definition new_DataLoader (ds : list (Input * Z)) (bs : positive) (shuffle : bool)
  : result DataLoader :=
  if shuffle && match ds with [] => true | _ => false end
  then Raise ValueError
  else Ok {| dl_dataset := ds; dl_batch_size := bs; dl_shuffle := shuffle |}.

(** The three loaders of lines 171-176, once they are built. *)
Definition loaders_of (cfg : Config) (dataset_arg : string) : Loaders :=
  {| ld_train := {| dl_dataset := VideoDataset dataset_arg "train";
                    dl_batch_size := batch_size cfg; dl_shuffle := true |};
     ld_val := {| dl_dataset := VideoDataset dataset_arg "val";
                  dl_batch_size := batch_size cfg; dl_shuffle := false |};
     ld_test := {| dl_dataset := VideoDataset dataset_arg "test";
                   dl_batch_size := batch_size cfg; dl_shuffle := false |} |}.

(** Lines 171-176: the loaders are built one after the other, the training
    loader with [shuffle=True]. *)
Definition make_loaders (cfg : Config) (dataset_arg : string) : M frame Loaders :=
  tr <- lift (new_DataLoader (VideoDataset dataset_arg "train") (batch_size cfg) true) ;;
  emit (EvNew (RLoader train_dataloader)) ;;
  va <- lift (new_DataLoader (VideoDataset dataset_arg "val") (batch_size cfg) false) ;;
  emit (EvNew (RLoader val_dataloader)) ;;
  te <- lift (new_DataLoader (VideoDataset dataset_arg "test") (batch_size cfg) false) ;;
  emit (EvNew (RLoader test_dataloader)) ;;
  ret {| ld_train := tr; ld_val := va; ld_test := te |}.

(** Lines 152-275, once model, criterion, optimizer and scheduler exist. *)
Definition train_loop (cfg : Config) (env : Env) (dataset_arg save_dir : string)
  (num_epochs save_epoch : Z) (use_test : bool) (test_interval : Z) : M frame unit :=
  (if Z.eqb (resume_epoch cfg) 0 then ret tt
   else load_checkpoint (checkpoint_path save_dir (saveName cfg) (resume_epoch cfg - 1))) ;;
  emit (EvNew (RWriter (Py.join save_dir ["models"; stamp env]))) ;;
  ld <- make_loaders cfg dataset_arg ;;
  for_each (Py.range (resume_epoch cfg) num_epochs)
           (epoch_body ld save_dir (saveName cfg) save_epoch use_test test_interval) ;;
  emit EvClose.

(** The frame after lines 61-150.  A module is built in training mode; the
    accumulators are unbound at this point and assigned before they are
    read, so their value here is never seen. *)
Definition initial_frame (w : world) (a : arch) (n_classes : Z) (lr_arg : Q) : frame :=
  let m := new_model a n_classes in
  let so := step_lr (adam m lr_arg) in
  {| files := w_files w;
     log := w_log w ++ [EvNew (RModel a); EvNew RCriterion; EvNew ROptimizer;
                        EvNew RScheduler];
     model := m; grads := grads0; optimizer := snd so; scheduler := fst so;
     training := true; running_loss := 0%Q; running_corrects := PyFloat 0%Q |}.

(** Lines 53-275. *)
Definition train_model (cfg : Config) (env : Env) (dataset_arg save_dir : string)
  (n_classes : Z) (lr_arg : Q) (num_epochs save_epoch : Z) (use_test : bool)
  (test_interval : Z) : M world unit :=
  fun w =>
    match model_of (modelName cfg) with
    | None => (w, Raise NotImplementedError)
    | Some a =>
        let out :=
          train_loop cfg env dataset_arg save_dir num_epochs save_epoch use_test
                     test_interval (initial_frame w a n_classes lr_arg) in
        (world_of (fst out), snd out)
    end.

(** The script: the module level, then [train_model()] with its defaults. *)
Definition main (cfg : Config) (env : Env) : M world unit :=
  fun w =>
    match module_level cfg env with
    | Raise e => (w, Raise e)
    | Ok g =>
        train_model cfg env (dataset cfg) (g_save_dir g) (g_num_classes g) (lr cfg)
                    (nEpochs cfg) (snapshot cfg) (useTest cfg) (nTestInterval cfg) w
    end.

End Driver.

Arguments checkpoint : clear implicits.
Arguments event : clear implicits.
Arguments world : clear implicits.
Arguments frame : clear implicits.
Arguments DataLoader : clear implicits.
Arguments Loaders : clear implicits.

(** ** A small runtime to run the script on

    One integer weight, two classes: the scores of input [x] are [x] for
    class 0 and the weight for class 1.  An optimizer step adds the gradient
    to the weight; rounding is exact.  The dataset [ucf101] has three
    training, two validation and two test examples, the dataset [train_only]
    one training example, any other dataset has none. *)

Definition toy_forward (mode : bool) (p : Z) (inputs : list Z) : list (list Q) :=
  List.map (fun x => [inject_Z x; inject_Z p]) inputs.

Definition toy_softmax (row : list Q) : list Q :=
  List.map (fun x => (x - 1)%Q) row.

Definition toy_criterion (outputs : list (list Q)) (labels : list Z) : Q :=
  (inject_Z (Z.of_nat (List.length labels)) / 4)%Q.

Definition toy_dataset (name split_arg : string) : list (Z * Z) :=
  if String.eqb name "ucf101" then
    if String.eqb split_arg "train" then [(1, 0); (-1, 1); (2, 1)]
    else if String.eqb split_arg "val" then [(3, 0); (-2, 0)]
    else [(0, 1); (5, 0)]
  else if String.eqb name "train_only" then
    if String.eqb split_arg "train" then [(1, 0)] else []
  else [].

#[local] Instance toy : Runtime Z Z Z Z Z := {|
  new_model := fun _ _ => 0;
  forward := toy_forward;
  Softmax := toy_softmax;
  criterion := toy_criterion;
  grads0 := 0;
  zero_grad := fun _ => 0;
  backward := fun _ _ _ _ g => g + 1;
  adam := fun _ _ => 0;
  optimizer_step := fun o g p => (p + g, o + 1);
  step_lr := fun o => (0, o);
  scheduler_step := fun s o => (s + 1, o);
  rnd := fun q => Qred q;
  rnd32 := fun q => Qred q;
  VideoDataset := toy_dataset;
  shuffled := fun _ l => List.rev l
|}.

(** The scenario of the specification: three epochs, a checkpoint every
    second epoch, a test pass every third, batches of two. *)
Definition scenario : Config := {|
  nEpochs := 3;
  resume_epoch := 0;
  useTest := true;
  nTestInterval := 3;
  snapshot := 2;
  lr := 1 # 1000;
  batch_size := 2;
  dataset := "ucf101";
  modelName := "simple_vit_3d"
|}.

Definition empty_env : Env := {|
  save_dir_root := "/home/u/proj";
  run_entries := [];
  stamp := "Jan01_00-00-00_host"
|}.

Definition empty_world : world Z Z :=
  {| w_files := ∅; w_log := [] |}.

(** The loaders of the scenario, loaders over a dataset without examples,
    and a frame as [train_model] has it when the loop begins. *)
Definition toy_loaders : Loaders Z := loaders_of (R := toy) scenario "ucf101".

Definition empty_loaders : Loaders Z := loaders_of (R := toy) scenario "hmdb51".

Definition toy_frame : frame Z Z Z Z :=
  initial_frame (R := toy) empty_world SimpleViT 101 (lr scenario).

(** A frame with the checkpoint of epoch 1 on disk. *)
Definition toy_checkpoint : checkpoint Z Z :=
  {| ck_epoch := 2; ck_state_dict := 4; ck_opt_dict := 4 |}.

Definition toy_frame_resuming : frame Z Z Z Z :=
  set_files (<[checkpoint_path "/run" (saveName scenario) 1 := toy_checkpoint]> ∅)
            toy_frame.

(** What the module level resolves to for the scenario in a directory
    without runs, and the surroundings a second run finds afterwards. *)
Definition toy_globals : Globals :=
  {| g_num_classes := 101; g_run_id := 0; g_save_dir := "/home/u/proj/run/run_0" |}.

Definition env_after_run_0 : Env := {|
  save_dir_root := "/home/u/proj";
  run_entries := ["run_0"];
  stamp := "Jan02_00-00-00_host"
|}.



(** ** A runtime whose softmax computes in float32

    [nn.Softmax] on a float32 tensor: each score minus the largest score of
    its row, the exponential of that, the sum of the exponentials, and each
    exponential divided by the sum, every step rounded to float32. *)















(** ** The run identifier as the specification words it

    The entries named [run_<integer>], sorted, the integer of the last one;
    reused when resuming, incremented otherwise, 0 when there is none. *)








(** ** Vocabulary of the statements about [train_model] *)

Section Vocabulary.

Local Open Scope list_scope.
Local Open Scope Z_scope.

Context {Params OptState Grads SchedState Input : Type}.
Context {R : Runtime Params OptState Grads SchedState Input}.

#[local] Abbreviation frame := (frame Params OptState Grads SchedState).
#[local] Abbreviation event := (event Params OptState).

(** The log grew by events that all satisfy [P]. *)
Definition logged (P : event -> Prop) (fr fr' : frame) : Prop :=
  exists evs, log fr' = log fr ++ evs /\ Forall P evs.

(** A component of the frame is the same. *)
Definition same {X} (f : frame -> X) (fr fr' : frame) : Prop := f fr' = f fr.

(** What an evaluation pass may call: mode switch to evaluation, iteration,
    clearing of gradients, forward passes without gradient tracking, and the
    metrics writer. *)
Definition eval_event (e : event) : Prop :=
  match e with
  | EvEval | EvIter _ | EvZeroGrad | EvForward false | EvScalar _ _ _ => True
  | _ => False
  end.

(** An evaluation-only pass: parameters, optimizer state and checkpoint
    files are the same and only [eval_event]s were logged. *)
Definition evaluation_only (fr fr' : frame) : Prop :=
  same model fr fr' /\ same optimizer fr fr' /\ same files fr fr'
  /\ logged eval_event fr fr'.

Definition not_save (e : event) : Prop :=
  match e with
  | EvSave _ _ => False
  | _ => True
  end.

Definition is_test_tag (tag : string) : bool :=
  String.eqb tag "data/test_loss_epoch" || String.eqb tag "data/test_acc_epoch".

(** Events of the test phase: iterating the test loader and writing a test
    metric. *)
Definition test_event (e : event) : Prop :=
  match e with
  | EvIter test_dataloader => True
  | EvScalar tag _ _ => is_test_tag tag = true
  | _ => False
  end.

Definition not_scalar (e : event) : Prop :=
  match e with
  | EvScalar _ _ _ => False
  | _ => True
  end.

(** The calls of one batch, and of what precedes the batches of a phase. *)
Definition batch_events (ph : phase) : list event :=
  match ph with
  | train => [EvZeroGrad; EvForward true; EvBackward; EvOptimizerStep]
  | val => [EvZeroGrad; EvForward false]
  end.

Definition prelude_events (ph : phase) : list event :=
  match ph with
  | train => [EvSchedulerStep; EvTrain; EvIter train_dataloader]
  | val => [EvEval; EvIter val_dataloader]
  end.

Definition loss_tag (ph : phase) : string :=
  match ph with
  | train => "data/train_loss_epoch"
  | val => "data/val_loss_epoch"
  end.

Definition acc_tag (ph : phase) : string :=
  match ph with
  | train => "data/train_acc_epoch"
  | val => "data/val_acc_epoch"
  end.

(** The frame in which the loop over the batches of a phase starts, and the
    same for the test pass. *)
Definition loop_start (ph : phase) (fr : frame) : frame :=
  fst (bind reset_running (fun _ =>
       bind match ph with
            | train => bind scheduler_step_ (fun _ => model_train)
            | val => model_eval
            end (fun _ =>
       emit (EvIter (loader_of ph)))) fr).

Definition test_start (fr : frame) : frame :=
  fst (bind model_eval (fun _ =>
       bind reset_running (fun _ =>
       emit (EvIter test_dataloader))) fr).

(** What a batch contributes when the loop reaches it in frame [fr]:
    [loss.item()] and the number of predictions equal to the label. *)
Definition batch_outputs (fr : frame) (b : list (Input * Z)) : list (list Q) :=
  forward (training fr) (model fr) (List.map fst b).

Definition batch_loss (fr : frame) (b : list (Input * Z)) : Q :=
  criterion (batch_outputs fr b) (List.map snd b).

Definition batch_correct (fr : frame) (b : list (Input * Z)) : Z :=
  count_equal (predictions (batch_outputs fr b)) (List.map snd b).

(** The two sums of a pass as the specification words them: from [L] and
    [C], each batch adds its loss times its size, and its count of correct
    predictions; [body] is the loop body, which moves the frame on. *)
Fixpoint spec_totals (body : list (Input * Z) -> M frame unit)
  (bs : list (list (Input * Z))) (fr : frame) (L C : Q) : Q * Q :=
  match bs with
  | [] => (L, C)
  | b :: bs' =>
      spec_totals body bs' (fst (body b fr))
        (rnd (L + rnd (batch_loss fr b * inject_Z (Z.of_nat (List.length b)))))%Q
        (rnd32 (C + inject_Z (batch_correct fr b)))%Q
  end.

(** The number an accumulator holds. *)
Definition number_value (n : number) : Q :=
  match n with
  | PyFloat q => q
  | Tensor32 q => q
  end.

(** Average loss and accuracy of a phase started in frame [fr], as the
    specification words them: the two sums from zero, each divided by the
    number of examples of the dataset. *)
Definition phase_metrics (ld : Loaders Input) (epoch : Z) (ph : phase) (fr : frame)
  : Q * Q :=
  let tot := spec_totals (trainval_batch ph) (batches epoch (trainval_loaders ld ph))
                         (loop_start ph fr) 0%Q 0%Q in
  let n := inject_Z (trainval_sizes ld ph) in
  (rnd (fst tot / n)%Q, rnd (snd tot / n)%Q).

Definition test_metrics (ld : Loaders Input) (epoch : Z) (fr : frame) : Q * Q :=
  let tot := spec_totals test_batch (batches epoch (ld_test ld))
                         (test_start fr) 0%Q 0%Q in
  let n := inject_Z (test_size ld) in
  (rnd (fst tot / n)%Q, rnd (snd tot / n)%Q).

(** The log of a phase over [n] batches that reports the metrics [m], and
    of a test pass. *)
Definition phase_events (ph : phase) (n : nat) (m : Q * Q) (epoch : Z) : list event :=
  prelude_events ph
  ++ List.concat (List.repeat (batch_events ph) n)
  ++ [EvScalar (loss_tag ph) (fst m) epoch; EvScalar (acc_tag ph) (snd m) epoch].

Definition test_events (n : nat) (m : Q * Q) (epoch : Z) : list event :=
  [EvEval; EvIter test_dataloader]
  ++ List.concat (List.repeat [EvForward false] n)
  ++ [EvScalar "data/test_loss_epoch" (fst m) epoch;
      EvScalar "data/test_acc_epoch" (snd m) epoch].

(** A pass of the Phase Runner: a training or validation phase, or the
    pass over the test loader. *)
Inductive pass : Type :=
| PhasePass (ph : phase)
| TestPass.

Definition run_pass (ld : Loaders Input) (epoch : Z) (p : pass) : M frame unit :=
  match p with
  | PhasePass ph => run_phase ld epoch ph
  | TestPass => test_pass ld epoch
  end.

Definition pass_loader (ld : Loaders Input) (p : pass) : DataLoader Input :=
  match p with
  | PhasePass ph => trainval_loaders ld ph
  | TestPass => ld_test ld
  end.

Definition pass_body (p : pass) : list (Input * Z) -> M frame unit :=
  match p with
  | PhasePass ph => trainval_batch ph
  | TestPass => test_batch
  end.

Definition pass_start (p : pass) (fr : frame) : frame :=
  match p with
  | PhasePass ph => loop_start ph fr
  | TestPass => test_start fr
  end.

Definition pass_events (p : pass) (n : nat) (m : Q * Q) (epoch : Z) : list event :=
  match p with
  | PhasePass ph => phase_events ph n m epoch
  | TestPass => test_events n m epoch
  end.

(** The checkpoint written when frame [fr] is current at the end of
    [epoch]. *)
Definition checkpoint_of (epoch : Z) (fr : frame) : checkpoint Params OptState :=
  {| ck_epoch := epoch + 1; ck_state_dict := model fr; ck_opt_dict := optimizer fr |}.

(** The two decisions at the end of an epoch. *)
Definition save_due (save_epoch epoch : Z) : bool :=
  Z.eqb (Z.modulo epoch save_epoch) (save_epoch - 1).

Definition test_due (use_test : bool) (test_interval epoch : Z) : bool :=
  use_test && Z.eqb (Z.modulo epoch test_interval) (test_interval - 1).

(** The epochs recorded in a log: the steps at which a training loss was
    written. *)
Fixpoint train_epochs (evs : list event) : list Z :=
  match evs with
  | [] => []
  | EvScalar tag _ step :: evs' =>
      if String.eqb tag "data/train_loss_epoch" then step :: train_epochs evs'
      else train_epochs evs'
  | _ :: evs' => train_epochs evs'
  end.

(** What [train_model] constructs between the optional restore and the
    loop over the epochs, and that loop followed by the closing of the
    writer. *)
Definition setup_events (env : Env) (save_dir : string) : list event :=
  [EvNew (RWriter (Py.join save_dir ["models"; stamp env]));
   EvNew (RLoader train_dataloader);
   EvNew (RLoader val_dataloader);
   EvNew (RLoader test_dataloader)].

Definition epochs_loop (cfg : Config) (dataset_arg save_dir : string)
  (num_epochs save_epoch : Z) (use_test : bool) (test_interval : Z) : M frame unit :=
  for_each (Py.range (resume_epoch cfg) num_epochs)
           (epoch_body (loaders_of cfg dataset_arg) save_dir (saveName cfg)
                       save_epoch use_test test_interval).

(** A frame with the model and the optimizer restored from a checkpoint. *)
Definition restored (ck : checkpoint Params OptState) (fr : frame) : frame :=
  set_optimizer (ck_opt_dict ck) (set_model (ck_state_dict ck) fr).

(** The contract of a shuffling sampler. *)
Definition shuffle_permutes : Prop :=
  forall (e : Z) (l : list (Input * Z)), Permutation l (shuffled e l).

(** Rounding is monotone, and exact on the integers from 0 to [n]. *)
Definition monotone (f : Q -> Q) : Prop :=
  forall x y : Q, (x <= y)%Q -> (f x <= f y)%Q.

Definition exact_upto (f : Q -> Q) (n : Z) : Prop :=
  forall k : Z, 0 <= k <= n -> (f (inject_Z k) == inject_Z k)%Q.

(** Two rows agree on every comparison of an entry with a later one. *)
Fixpoint same_order (l1 l2 : list Q) : Prop :=
  match l1, l2 with
  | [], [] => True
  | x :: r1, y :: r2 =>
      Forall2 (fun a b => (x < a)%Q <-> (y < b)%Q) r1 r2 /\ same_order r1 r2
  | _, _ => False
  end.





(** The runtime with the softmax step left out. *)
Definition without_softmax : Runtime Params OptState Grads SchedState Input := {|
  new_model := new_model;
  forward := forward;
  Softmax := fun row => row;
  criterion := criterion;
  grads0 := grads0;
  zero_grad := zero_grad;
  backward := backward;
  adam := adam;
  optimizer_step := optimizer_step;
  step_lr := step_lr;
  scheduler_step := scheduler_step;
  rnd := rnd;
  rnd32 := rnd32;
  VideoDataset := VideoDataset;
  shuffled := shuffled
|}.

(** Softmax is strictly monotone within a row: it keeps the order of any
    two entries. *)
Definition softmax_strictly_monotone : Prop :=
  forall (row : list Q),
    List.length (Softmax row) = List.length row /\
    forall i j : nat,
      (i < List.length row)%nat -> (j < List.length row)%nat ->
      ((List.nth i row 0 < List.nth j row 0)%Q
       <-> (List.nth i (Softmax row) 0 < List.nth j (Softmax row) 0)%Q).

End Vocabulary.

(** ** Vocabulary of the further properties *)




Section FurtherVocabulary.

Context {Params OptState Grads SchedState Input : Type}.
Context {R : Runtime Params OptState Grads SchedState Input}.

#[local] Abbreviation frame := (frame Params OptState Grads SchedState).
#[local] Abbreviation event := (event Params OptState).

Local Open Scope list_scope.
Local Open Scope Z_scope.

(** The two sums of an evaluation of the parameters [p] on the batches
    [bs]: forward passes in evaluation mode, nothing else. *)
Fixpoint eval_totals (p : Params) (bs : list (list (Input * Z))) (L C : Q) : Q * Q :=
  match bs with
  | [] => (L, C)
  | b :: bs' =>
      let outputs := forward false p (List.map fst b) in
      let labels := List.map snd b in
      eval_totals p bs'
        (rnd (L + rnd (criterion outputs labels
                       * inject_Z (Z.of_nat (List.length b)))))%Q
        (rnd32 (C + inject_Z (count_equal (predictions outputs) labels)))%Q
  end.

(** Average loss and accuracy of the parameters [p] on a loader. *)
Definition evaluate (p : Params) (epoch : Z) (dl : DataLoader Input) : Q * Q :=
  let tot := eval_totals p (batches epoch dl) 0%Q 0%Q in
  let n := inject_Z (dataset_len dl) in
  (rnd (fst tot / n)%Q, rnd (snd tot / n)%Q).

(** The kinds of calls counted in a log. *)
Inductive call : Type :=
| SchedulerStepCall
| OptimizerStepCall
| BackwardCall
| ZeroGradCall
| GradForwardCall
| NoGradForwardCall.

Definition is_call (c : call) (e : event) : bool :=
  match c, e with
  | SchedulerStepCall, EvSchedulerStep => true
  | OptimizerStepCall, EvOptimizerStep => true
  | BackwardCall, EvBackward => true
  | ZeroGradCall, EvZeroGrad => true
  | GradForwardCall, EvForward true => true
  | NoGradForwardCall, EvForward false => true
  | _, _ => false
  end.

Definition calls (c : call) (evs : list event) : nat :=
  List.length (List.filter (is_call c) evs).

Definition not_close (e : event) : Prop :=
  match e with
  | EvClose => False
  | _ => True
  end.

(** Every checkpoint written holds a multiple of [save_epoch] and lies at
    the path of the epoch before the one it holds. *)
Definition save_well_formed (save_dir save_name : string) (save_epoch : Z)
  (e : event) : Prop :=
  match e with
  | EvSave path ck =>
      Z.modulo (ck_epoch ck) save_epoch = 0
      /\ path = checkpoint_path save_dir save_name (ck_epoch ck - 1)
  | _ => True
  end.

(** Nothing was written to disk and no checkpoint was logged. *)
Definition no_checkpoint (fr fr' : frame) : Prop :=
  files fr' = files fr /\ logged not_save fr fr'.

(** What [writer.close()] at line 275 logs after a run with result [r]:
    the line is reached when the run returns, and only then. *)
Definition close_events (r : result unit) : list event :=
  match r with
  | Ok _ => [EvClose]
  | Raise _ => []
  end.

End FurtherVocabulary.

(** * Properties *)

(** ** Python built-ins *)

Lemma append_cons (c : ascii) (s t : string) :
  String c s ++ t = String c (s ++ t).
Proof. reflexivity. Qed.

Lemma append_nil_l (t : string) : "" ++ t = t.
Proof. reflexivity. Qed.





Lemma sorted_cons (x : string) (l : list string) :
  Py.sorted (x :: l) = Py.insert_sorted x (Py.sorted l).
Proof. reflexivity. Qed.






Lemma insert_sorted_perm (x : string) (l : list string) :
  Permutation (x :: l) (Py.insert_sorted x l).
Proof.
  induction l as [|y l IH]; simpl; [reflexivity|].
  destruct (String.leb x y); [reflexivity|].
  rewrite perm_swap. constructor. exact IH.
Qed.

Lemma sorted_perm (l : list string) : Permutation l (Py.sorted l).
Proof.
  induction l as [|x l IH]; [constructor|].
  rewrite sorted_cons, <- insert_sorted_perm. constructor. exact IH.
Qed.















(** ** The run identifier *)












Example save_dir_fresh_125 :
  result_bind (module_level shipped env125) (fun g => Ok (g_save_dir g))
  = Ok "/home/u/proj/run/run_6".
Proof. vm_compute. reflexivity. Qed.

Example save_dir_resume_125 :
  result_bind (module_level (resumed shipped 3) env125) (fun g => Ok (g_save_dir g))
  = Ok "/home/u/proj/run/run_5".
Proof. vm_compute. reflexivity. Qed.

(** Lexical order is not numeric order: with [run_9] and [run_10] the last
    entry is [run_9]. *)
Example run_id_lexical :
  run_id shipped {| save_dir_root := "/p"; run_entries := ["run_9"; "run_10"];
                    stamp := "" |} = Ok 10.
Proof. vm_compute. reflexivity. Qed.

(** ** The monad *)

Section MonadFacts.

Context {S : Type}.

Lemma for_each_ok {A} (body : A -> M S unit) (l : list A) (s : S) :
  (forall x s', snd (body x s') = Ok tt) ->
  for_each l body s = (List.fold_left (fun s' x => fst (body x s')) l s, Ok tt).
Proof.
  intros Hok. revert s. induction l as [|x l IH]; intros s; [reflexivity|].
  simpl. unfold bind. specialize (Hok x s).
  destruct (body x s) as [s' r]. simpl in *. subst r. apply IH.
Qed.

Lemma for_each_ext {A} (body body' : A -> M S unit) (l : list A) (s : S) :
  (forall x s', body x s' = body' x s') ->
  for_each l body s = for_each l body' s.
Proof.
  intros Hext. revert s. induction l as [|x l IH]; intros s; [reflexivity|].
  simpl. unfold bind. rewrite Hext.
  destruct (body' x s) as [s' [[]|e]]; [apply IH|reflexivity].
Qed.

Lemma bind_ext {A B} (m : M S A) (k k' : A -> M S B) (s : S) :
  (forall a s', k a s' = k' a s') -> bind m k s = bind m k' s.
Proof.
  intros Hext. unfold bind. destruct (m s) as [s' [a|e]]; [apply Hext|reflexivity].
Qed.

Variable Rel : S -> S -> Prop.
Context {Rel_pre : PreOrder Rel}.

Lemma steps_ret {A} (a : A) : steps Rel (ret a).
Proof. intros s. simpl. reflexivity. Qed.

Lemma steps_raise {A} (e : exn) : steps Rel (@raise S A e).
Proof. intros s. simpl. reflexivity. Qed.

Lemma steps_gets {A} (f : S -> A) : steps Rel (gets f).
Proof. intros s. simpl. reflexivity. Qed.

Lemma steps_lift {A} (r : result A) : steps Rel (@lift S A r).
Proof. intros s. simpl. reflexivity. Qed.

Lemma steps_modify (f : S -> S) : (forall s, Rel s (f s)) -> steps Rel (modify f).
Proof. intros H s. simpl. apply H. Qed.

Lemma steps_bind {A B} (m : M S A) (k : A -> M S B) :
  steps Rel m -> (forall a, steps Rel (k a)) -> steps Rel (bind m k).
Proof.
  intros Hm Hk s. unfold bind. specialize (Hm s).
  destruct (m s) as [s' [a|e]]; simpl in *; [|exact Hm].
  transitivity s'; [exact Hm|apply Hk].
Qed.

Lemma steps_for_each {A} (body : A -> M S unit) (l : list A) :
  (forall x, steps Rel (body x)) -> steps Rel (for_each l body).
Proof.
  intros Hb. induction l as [|x l IH]; simpl.
  - apply steps_ret.
  - apply steps_bind; [apply Hb|intros _; exact IH].
Qed.

End MonadFacts.

(** ** Frames and logs *)

Section DriverFacts.

Context {Params OptState Grads SchedState Input : Type}.
Context {R : Runtime Params OptState Grads SchedState Input}.

#[local] Abbreviation frame := (frame Params OptState Grads SchedState).
#[local] Abbreviation event := (event Params OptState).
#[local] Abbreviation logged := (@logged Params OptState Grads SchedState).
#[local] Abbreviation evaluation_only :=
  (@evaluation_only Params OptState Grads SchedState).
#[local] Abbreviation not_save := (@not_save Params OptState).
#[local] Abbreviation not_scalar := (@not_scalar Params OptState).
#[local] Abbreviation test_event := (@test_event Params OptState).
#[local] Abbreviation prelude_events := (@prelude_events Params OptState).
#[local] Abbreviation batch_events := (@batch_events Params OptState).
#[local] Abbreviation phase_events := (@phase_events Params OptState).
#[local] Abbreviation test_events := (@test_events Params OptState).
#[local] Abbreviation train_epochs := (@train_epochs Params OptState).
#[local] Abbreviation pass_events := (@pass_events Params OptState).
#[local] Abbreviation setup_events := (@setup_events Params OptState).

Local Open Scope list_scope.
Local Open Scope Z_scope.

#[local] Instance logged_pre (P : event -> Prop) : PreOrder (logged P).
Proof.
  split.
  - intros fr. exists []. rewrite app_nil_r. split; [reflexivity|constructor].
  - intros a b c (e1 & H1 & F1) (e2 & H2 & F2). exists (e1 ++ e2).
    split; [rewrite H2, H1, app_assoc; reflexivity|].
    apply Forall_app. split; assumption.
Qed.

#[local] Instance same_pre {X} (f : frame -> X) : PreOrder (same f).
Proof.
  split.
  - intros fr. reflexivity.
  - intros a b c H1 H2. unfold same in *. congruence.
Qed.

#[local] Instance evaluation_only_pre : PreOrder evaluation_only.
Proof.
  split.
  - intros fr. repeat split; reflexivity.
  - intros a b c (M1 & O1 & F1 & L1) (M2 & O2 & F2 & L2).
    repeat split; transitivity b; assumption.
Qed.

Lemma logged_emit (P : event -> Prop) (e : event) :
  P e -> steps (logged P) (emit e).
Proof.
  intros HP fr. exists [e]. split; [reflexivity|].
  constructor; [exact HP|constructor].
Qed.

(** A statement that leaves the log alone logs nothing. *)
Lemma logged_quiet (P : event -> Prop) (f : frame -> frame) :
  (forall fr, log (f fr) = log fr) -> steps (logged P) (modify f).
Proof.
  intros H fr. exists []. simpl. rewrite H, app_nil_r.
  split; [reflexivity|constructor].
Qed.

Lemma evaluation_only_emit (e : event) :
  eval_event e -> steps evaluation_only (emit e).
Proof.
  intros He fr. repeat split. apply (logged_emit eval_event e He).
Qed.

Lemma evaluation_only_quiet (f : frame -> frame) :
  (forall fr, model (f fr) = model fr) ->
  (forall fr, optimizer (f fr) = optimizer fr) ->
  (forall fr, files (f fr) = files fr) ->
  (forall fr, log (f fr) = log fr) ->
  steps evaluation_only (modify f).
Proof.
  intros Hm Ho Hf Hl fr. split; [|split; [|split]].
  - apply Hm.
  - apply Ho.
  - apply Hf.
  - apply (logged_quiet eval_event f Hl).
Qed.

(** Composite statements are taken apart; what remains is one goal per
    call on a collaborator and per assignment. *)
Ltac steps_split :=
  repeat match goal with
         | |- PreOrder _ => typeclasses eauto
         | |- forall _, steps _ _ => intros ?
         | |- steps _ (bind _ _) => apply steps_bind
         | |- steps _ (for_each _ _) => apply steps_for_each
         | |- steps _ (ret _) => apply steps_ret
         | |- steps _ (gets _) => apply steps_gets
         | |- steps _ (lift _) => apply steps_lift
         | |- steps _ (raise _) => apply steps_raise
         | |- steps _ (match ?x with _ => _ end) => destruct x
         end.

Lemma accumulate_evaluation_only loss inputs preds labels :
  steps evaluation_only (accumulate loss inputs preds labels).
Proof.
  unfold accumulate. steps_split;
    apply evaluation_only_quiet; intros fr; reflexivity.
Qed.

Lemma reset_running_evaluation_only : steps evaluation_only reset_running.
Proof.
  unfold reset_running. steps_split;
    apply evaluation_only_quiet; intros fr; reflexivity.
Qed.

Lemma epoch_metrics_evaluation_only size :
  steps evaluation_only (epoch_metrics size).
Proof. unfold epoch_metrics. steps_split. Qed.

Lemma model_eval_evaluation_only : steps evaluation_only model_eval.
Proof.
  unfold model_eval. steps_split.
  - apply evaluation_only_emit. exact I.
  - apply evaluation_only_quiet; intros fr; reflexivity.
Qed.

Lemma model_call_evaluation_only inputs :
  steps evaluation_only (model_call false inputs).
Proof.
  unfold model_call. steps_split. apply evaluation_only_emit. exact I.
Qed.

Lemma val_batch_evaluation_only b :
  steps evaluation_only (trainval_batch val b).
Proof.
  unfold trainval_batch. steps_split.
  - unfold optimizer_zero_grad. steps_split.
    + apply evaluation_only_emit. exact I.
    + apply evaluation_only_quiet; intros fr; reflexivity.
  - apply model_call_evaluation_only.
  - apply accumulate_evaluation_only.
Qed.

Lemma test_batch_evaluation_only b :
  steps evaluation_only (test_batch b).
Proof.
  unfold test_batch. steps_split.
  - apply model_call_evaluation_only.
  - apply accumulate_evaluation_only.
Qed.

Lemma val_phase_evaluation_only ld epoch :
  steps evaluation_only (run_phase ld epoch val).
Proof.
  unfold run_phase. steps_split.
  - apply reset_running_evaluation_only.
  - apply model_eval_evaluation_only.
  - apply evaluation_only_emit. exact I.
  - apply val_batch_evaluation_only.
  - apply epoch_metrics_evaluation_only.
  - apply evaluation_only_emit. exact I.
  - apply evaluation_only_emit. exact I.
Qed.

Lemma test_pass_evaluation_only ld epoch :
  steps evaluation_only (test_pass ld epoch).
Proof.
  unfold test_pass. steps_split.
  - apply model_eval_evaluation_only.
  - apply reset_running_evaluation_only.
  - apply evaluation_only_emit. exact I.
  - apply test_batch_evaluation_only.
  - apply epoch_metrics_evaluation_only.
  - apply evaluation_only_emit. exact I.
  - apply evaluation_only_emit. exact I.
Qed.

(** C6. A validation pass and a test pass leave the parameters of the model
    (and the state of the optimizer, and the checkpoint files) as they found
    them, and call nothing but the mode switch to evaluation, the loader, the
    clearing of gradients, forward passes without gradient tracking and the
    metrics writer: no backward pass, no optimizer step.  This holds from
    every frame, whether the pass returns or raises. *)
Theorem evaluation_pass_keeps_parameters
  (ld : Loaders Input) (epoch : Z) (fr : frame) :
  evaluation_only fr (fst (run_phase ld epoch val fr))
  /\ evaluation_only fr (fst (test_pass ld epoch fr)).
Proof.
  split.
  - apply val_phase_evaluation_only.
  - apply test_pass_evaluation_only.
Qed.

(** ** One batch, and the loop over the batches *)

Lemma trainval_batch_ok ph b (fr : frame) : snd (trainval_batch ph b fr) = Ok tt.
Proof. destruct ph; reflexivity. Qed.

Lemma test_batch_ok b (fr : frame) : snd (test_batch b fr) = Ok tt.
Proof. reflexivity. Qed.

Lemma trainval_batch_log ph b (fr : frame) :
  log (fst (trainval_batch ph b fr)) = log fr ++ batch_events ph.
Proof. destruct ph; simpl; rewrite <- !app_assoc; reflexivity. Qed.

Lemma test_batch_log b (fr : frame) :
  log (fst (test_batch b fr)) = log fr ++ [EvForward false].
Proof. reflexivity. Qed.

Lemma trainval_batch_loss ph b (fr : frame) :
  running_loss (fst (trainval_batch ph b fr))
  = rnd (running_loss fr
         + rnd (batch_loss fr b * inject_Z (Z.of_nat (List.length b))))%Q.
Proof.
  destruct ph; simpl; unfold batch_loss, batch_outputs; simpl;
    rewrite length_map; reflexivity.
Qed.

Lemma test_batch_loss b (fr : frame) :
  running_loss (fst (test_batch b fr))
  = rnd (running_loss fr
         + rnd (batch_loss fr b * inject_Z (Z.of_nat (List.length b))))%Q.
Proof.
  simpl; unfold batch_loss, batch_outputs; simpl; rewrite length_map; reflexivity.
Qed.

Lemma trainval_batch_corrects ph b (fr : frame) :
  running_corrects (fst (trainval_batch ph b fr))
  = Tensor32 (rnd32 (number_value (running_corrects fr)
                     + inject_Z (batch_correct fr b)))%Q.
Proof.
  destruct ph; simpl; unfold batch_correct, batch_outputs; simpl;
    destruct (running_corrects fr); reflexivity.
Qed.

Lemma test_batch_corrects b (fr : frame) :
  running_corrects (fst (test_batch b fr))
  = Tensor32 (rnd32 (number_value (running_corrects fr)
                     + inject_Z (batch_correct fr b)))%Q.
Proof.
  simpl; unfold batch_correct, batch_outputs; simpl;
    destruct (running_corrects fr); reflexivity.
Qed.

(** The loop over the batches, for any body that behaves on the log and on
    the accumulators as the two bodies of the script do. *)
Section Loop.

Variable body : list (Input * Z) -> M frame unit.
Variable evs : list event.
Hypothesis body_ok : forall b fr, snd (body b fr) = Ok tt.
Hypothesis body_log : forall b fr, log (fst (body b fr)) = log fr ++ evs.
Hypothesis body_loss : forall b fr,
  running_loss (fst (body b fr))
  = rnd (running_loss fr
         + rnd (batch_loss fr b * inject_Z (Z.of_nat (List.length b))))%Q.
Hypothesis body_corrects : forall b fr,
  running_corrects (fst (body b fr))
  = Tensor32 (rnd32 (number_value (running_corrects fr)
                     + inject_Z (batch_correct fr b)))%Q.

Lemma loop_ok bs (fr : frame) : snd (for_each bs body fr) = Ok tt.
Proof. rewrite (for_each_ok body bs fr body_ok). reflexivity. Qed.

Lemma loop_log bs (fr : frame) :
  log (fst (for_each bs body fr)) = log fr ++ List.concat (List.map (fun _ => evs) bs).
Proof.
  rewrite (for_each_ok body bs fr body_ok). simpl.
  revert fr. induction bs as [|b bs IH]; intros fr; simpl.
  - rewrite app_nil_r. reflexivity.
  - rewrite IH, body_log, app_assoc. reflexivity.
Qed.

Lemma loop_loss bs (fr : frame) (C : Q) :
  running_loss (fst (for_each bs body fr))
  = fst (spec_totals body bs fr (running_loss fr) C).
Proof.
  rewrite (for_each_ok body bs fr body_ok). simpl.
  revert fr C. induction bs as [|b bs IH]; intros fr C; simpl; [reflexivity|].
  rewrite (IH _ (rnd32 (C + inject_Z (batch_correct fr b)))%Q), body_loss.
  reflexivity.
Qed.

Lemma loop_corrects bs (fr : frame) (L : Q) :
  bs <> [] ->
  running_corrects (fst (for_each bs body fr))
  = Tensor32 (snd (spec_totals body bs fr L (number_value (running_corrects fr)))).
Proof.
  rewrite (for_each_ok body bs fr body_ok). simpl.
  revert fr L. induction bs as [|b bs IH]; intros fr L Hne; [congruence|].
  simpl. destruct bs as [|b' bs].
  - simpl. apply body_corrects.
  - rewrite (IH (fst (body b fr))
               (rnd (L + rnd (batch_loss fr b * inject_Z (Z.of_nat (List.length b)))))%Q)
      by discriminate.
    rewrite body_corrects. reflexivity.
Qed.

End Loop.

(** ** A phase *)

Lemma epoch_metrics_run size (fr : frame) q :
  size <> 0 -> running_corrects fr = Tensor32 q ->
  epoch_metrics size fr
  = (fr, Ok (rnd (running_loss fr / inject_Z size)%Q, rnd (q / inject_Z size)%Q)).
Proof.
  intros Hsize Hrc. unfold epoch_metrics, bind, gets, lift, float_div. simpl.
  apply Z.eqb_neq in Hsize. rewrite Hsize, Hrc. reflexivity.
Qed.

Lemma loop_start_log ph (fr : frame) :
  log (loop_start ph fr) = log fr ++ prelude_events ph.
Proof. destruct ph; simpl; rewrite <- !app_assoc; reflexivity. Qed.

Lemma loop_start_running_loss ph (fr : frame) :
  running_loss (loop_start ph fr) = 0%Q.
Proof. destruct ph; reflexivity. Qed.

Lemma loop_start_running_corrects ph (fr : frame) :
  running_corrects (loop_start ph fr) = PyFloat 0%Q.
Proof. destruct ph; reflexivity. Qed.

Lemma test_start_log (fr : frame) :
  log (test_start fr) = log fr ++ [EvEval; EvIter test_dataloader].
Proof. simpl; rewrite <- !app_assoc; reflexivity. Qed.

(** What follows the prelude of a pass: the loop, the two averages, the two
    metrics. *)
Lemma pass_tail_run (body : list (Input * Z) -> M frame unit) (evs : list event)
  bs size tag_loss tag_acc epoch (fr0 : frame) :
  (forall b fr, snd (body b fr) = Ok tt) ->
  (forall b fr, log (fst (body b fr)) = log fr ++ evs) ->
  (forall b fr,
     running_loss (fst (body b fr))
     = rnd (running_loss fr
            + rnd (batch_loss fr b * inject_Z (Z.of_nat (List.length b))))%Q) ->
  (forall b fr,
     running_corrects (fst (body b fr))
     = Tensor32 (rnd32 (number_value (running_corrects fr)
                        + inject_Z (batch_correct fr b)))%Q) ->
  size <> 0 -> bs <> [] ->
  let tot := spec_totals body bs fr0 (running_loss fr0)
                         (number_value (running_corrects fr0)) in
  exists fr',
    bind (for_each bs body) (fun _ =>
    bind (epoch_metrics size) (fun m =>
    bind (emit (EvScalar tag_loss (fst m) epoch)) (fun _ =>
          emit (EvScalar tag_acc (snd m) epoch)))) fr0
    = (fr', Ok tt)
    /\ log fr' = log fr0 ++ List.concat (List.map (fun _ => evs) bs)
                 ++ [EvScalar tag_loss (rnd (fst tot / inject_Z size)%Q) epoch;
                     EvScalar tag_acc (rnd (snd tot / inject_Z size)%Q) epoch]
    /\ fr' = set_log (log fr') (fst (for_each bs body fr0)).
Proof.
  intros Hok Hlog Hloss Hcor Hsize Hbs tot.
  pose proof (loop_ok body Hok bs fr0) as Hr.
  pose proof (loop_log body evs Hok Hlog bs fr0) as Hl.
  pose proof (loop_loss body Hok Hloss bs fr0 (number_value (running_corrects fr0))) as HL.
  pose proof (loop_corrects body Hok Hcor bs fr0 (running_loss fr0) Hbs) as HC.
  fold tot in HL, HC.
  unfold bind at 1. destruct (for_each bs body fr0) as [fr1 r]. simpl in Hr, Hl, HL, HC.
  subst r. unfold bind at 1. rewrite (epoch_metrics_run size fr1 _ Hsize HC).
  eexists. split; [reflexivity|]. simpl. split; [|reflexivity].
  rewrite Hl, HL, <- !app_assoc. reflexivity.
Qed.

Lemma run_phase_run ld epoch ph (fr : frame) :
  trainval_sizes ld ph <> 0 ->
  batches epoch (trainval_loaders ld ph) <> [] ->
  let bs := batches epoch (trainval_loaders ld ph) in
  exists fr',
    run_phase ld epoch ph fr = (fr', Ok tt)
    /\ log fr' = log fr ++ phase_events ph (List.length bs)
                                        (phase_metrics ld epoch ph fr) epoch
    /\ fr' = set_log (log fr')
                     (fst (for_each bs (trainval_batch ph) (loop_start ph fr))).
Proof.
  intros Hsize Hbs bs.
  destruct (pass_tail_run (trainval_batch ph) (batch_events ph) bs
              (trainval_sizes ld ph) (loss_tag ph) (acc_tag ph) epoch
              (loop_start ph fr)
              (trainval_batch_ok ph) (trainval_batch_log ph)
              (trainval_batch_loss ph) (trainval_batch_corrects ph) Hsize Hbs)
    as (fr' & Hrun & Hlog & Hfr).
  rewrite loop_start_running_loss, loop_start_running_corrects in Hlog.
  rewrite loop_start_log, <- app_assoc, map_const in Hlog.
  exists fr'. split; [|split; [exact Hlog|exact Hfr]].
  rewrite <- Hrun. destruct ph; reflexivity.
Qed.

Lemma test_pass_run ld epoch (fr : frame) :
  test_size ld <> 0 ->
  batches epoch (ld_test ld) <> [] ->
  let bs := batches epoch (ld_test ld) in
  exists fr',
    test_pass ld epoch fr = (fr', Ok tt)
    /\ log fr' = log fr ++ test_events (List.length bs) (test_metrics ld epoch fr) epoch
    /\ fr' = set_log (log fr') (fst (for_each bs test_batch (test_start fr))).
Proof.
  intros Hsize Hbs bs.
  destruct (pass_tail_run test_batch [EvForward false] bs
              (test_size ld) "data/test_loss_epoch" "data/test_acc_epoch" epoch
              (test_start fr)
              test_batch_ok test_batch_log test_batch_loss test_batch_corrects
              Hsize Hbs)
    as (fr' & Hrun & Hlog & Hfr).
  rewrite test_start_log, <- app_assoc, map_const in Hlog.
  exists fr'. split; [|split; [exact Hlog|exact Hfr]].
  rewrite <- Hrun. reflexivity.
Qed.

(** A loader over a non-empty dataset yields at least one batch. *)
Lemma chunks_nonempty {A} (n : nat) (l : list A) : l <> [] -> chunks n l <> [].
Proof. destruct l as [|x l]; [congruence|]. intros _. discriminate. Qed.

Lemma batches_nonempty epoch (dl : DataLoader Input) :
  shuffle_permutes -> dl_dataset dl <> [] -> batches epoch dl <> [].
Proof.
  intros Hperm Hne. unfold batches. apply chunks_nonempty.
  destruct (dl_shuffle dl); [|exact Hne].
  intros Hnil. specialize (Hperm epoch (dl_dataset dl)). rewrite Hnil in Hperm.
  apply Permutation_nil_r in Hperm. congruence.
Qed.

Lemma dataset_len_nonzero (dl : DataLoader Input) :
  dl_dataset dl <> [] -> dataset_len dl <> 0.
Proof.
  unfold dataset_len. destruct (dl_dataset dl); [congruence|].
  intros _. simpl. lia.
Qed.

(** ** The end of an epoch *)

Ltac same_steps :=
  unfold epoch_body, test_decision, checkpoint_decision, test_pass, save_checkpoint,
    run_phase, epoch_metrics, reset_running, test_batch, trainval_batch, accumulate,
    optimizer_step_, loss_backward, model_call, optimizer_zero_grad, model_eval,
    model_train, scheduler_step_, emit;
  repeat match goal with
         | |- PreOrder _ => typeclasses eauto
         | |- forall _, steps _ _ => intros ?
         | |- steps _ (bind _ _) => apply steps_bind
         | |- steps _ (for_each _ _) => apply steps_for_each
         | |- steps _ (ret _) => apply steps_ret
         | |- steps _ (gets _) => apply steps_gets
         | |- steps _ (lift _) => apply steps_lift
         | |- steps _ (raise _) => apply steps_raise
         | |- steps _ (match ?x with _ => _ end) => destruct x
         | |- steps (same _) (modify _) => apply steps_modify; intros ?; reflexivity
         end.

Lemma run_phase_keeps_files ld epoch ph : steps (same files) (run_phase ld epoch ph).
Proof. same_steps. Qed.

Lemma test_decision_evaluation_only ld use_test test_interval epoch :
  steps evaluation_only (test_decision ld use_test test_interval epoch).
Proof.
  unfold test_decision. steps_split. apply test_pass_evaluation_only.
Qed.

Lemma checkpoint_decision_run save_dir save_name save_epoch epoch (fr : frame) :
  save_epoch <> 0 ->
  checkpoint_decision save_dir save_name save_epoch epoch fr
  = (if save_due save_epoch epoch then
       let path := checkpoint_path save_dir save_name epoch in
       let ck := checkpoint_of epoch fr in
       set_files (<[path := ck]> (files fr)) (set_log (log fr ++ [EvSave path ck]) fr)
     else fr,
     Ok tt).
Proof.
  intros Hse. unfold checkpoint_decision, Py.mod_, save_due, bind, lift.
  apply Z.eqb_neq in Hse. rewrite Hse.
  destruct (epoch mod save_epoch =? save_epoch - 1); reflexivity.
Qed.

Lemma test_decision_run ld use_test test_interval epoch (fr : frame) :
  shuffle_permutes ->
  (use_test = true -> test_interval <> 0 /\ dl_dataset (ld_test ld) <> []) ->
  exists fr',
    test_decision ld use_test test_interval epoch fr = (fr', Ok tt)
    /\ log fr' = log fr
                 ++ (if test_due use_test test_interval epoch
                     then test_events (List.length (batches epoch (ld_test ld)))
                                      (test_metrics ld epoch fr) epoch
                     else []).
Proof.
  intros Hperm Htest. unfold test_decision, test_due.
  destruct use_test; simpl.
  - destruct (Htest eq_refl) as [Hti Hne].
    unfold Py.mod_, bind, lift. apply Z.eqb_neq in Hti. rewrite Hti.
    destruct (epoch mod test_interval =? test_interval - 1).
    + destruct (test_pass_run ld epoch fr (dataset_len_nonzero _ Hne)
                  (batches_nonempty epoch _ Hperm Hne)) as (fr' & Hrun & Hlog & _).
      exists fr'. split; assumption.
    + exists fr. rewrite app_nil_r. split; reflexivity.
  - exists fr. rewrite app_nil_r. split; reflexivity.
Qed.

(** One epoch that runs to its end, with all that it logs. *)
Lemma epoch_body_run ld save_dir save_name save_epoch use_test test_interval epoch
  (fr : frame) :
  shuffle_permutes ->
  dl_dataset (ld_train ld) <> [] -> dl_dataset (ld_val ld) <> [] ->
  save_epoch <> 0 ->
  (use_test = true -> test_interval <> 0 /\ dl_dataset (ld_test ld) <> []) ->
  let fr1 := fst (run_phase ld epoch train fr) in
  let fr2 := fst (run_phase ld epoch val fr1) in
  let path := checkpoint_path save_dir save_name epoch in
  exists fr' m,
    epoch_body ld save_dir save_name save_epoch use_test test_interval epoch fr
    = (fr', Ok tt)
    /\ log fr' = log fr
         ++ phase_events train (List.length (batches epoch (ld_train ld)))
                         (phase_metrics ld epoch train fr) epoch
         ++ phase_events val (List.length (batches epoch (ld_val ld)))
                         (phase_metrics ld epoch val fr1) epoch
         ++ (if save_due save_epoch epoch
             then [EvSave path (checkpoint_of epoch fr2)] else [])
         ++ (if test_due use_test test_interval epoch
             then test_events (List.length (batches epoch (ld_test ld))) m epoch
             else [])
    /\ files fr' = (if save_due save_epoch epoch
                    then <[path := checkpoint_of epoch fr2]> (files fr)
                    else files fr)
    /\ model fr' = model fr2 /\ optimizer fr' = optimizer fr2.
Proof.
  intros Hperm Htrain Hval Hse Htest fr1 fr2 path.
  destruct (run_phase_run ld epoch train fr (dataset_len_nonzero _ Htrain)
              (batches_nonempty epoch _ Hperm Htrain)) as (f1 & H1 & L1 & _).
  assert (E1 : fr1 = f1) by (unfold fr1; rewrite H1; reflexivity).
  destruct (run_phase_run ld epoch val f1 (dataset_len_nonzero _ Hval)
              (batches_nonempty epoch _ Hperm Hval)) as (f2 & H2 & L2 & _).
  assert (E2 : fr2 = f2) by (unfold fr2; rewrite E1, H2; reflexivity).
  pose proof (run_phase_keeps_files ld epoch train fr) as F1.
  pose proof (run_phase_keeps_files ld epoch val f1) as F2.
  unfold same in F1, F2. rewrite H1 in F1. rewrite H2 in F2. simpl in F1, F2.
  pose proof (checkpoint_decision_run save_dir save_name save_epoch epoch f2 Hse) as H3.
  set (f3 := if save_due save_epoch epoch
             then set_files (<[path := checkpoint_of epoch f2]> (files f2))
                    (set_log (log f2 ++ [EvSave path (checkpoint_of epoch f2)]) f2)
             else f2) in *.
  destruct (test_decision_run ld use_test test_interval epoch f3 Hperm Htest)
    as (f4 & H4 & L4).
  destruct (test_decision_evaluation_only ld use_test test_interval epoch f3)
    as (M4 & O4 & F4 & _).
  unfold same in M4, O4, F4. rewrite H4 in M4, O4, F4. simpl in M4, O4, F4.
  assert (L3 : log f3 = log f2 ++ (if save_due save_epoch epoch
                                   then [EvSave path (checkpoint_of epoch f2)]
                                   else [])).
  { unfold f3. destruct (save_due save_epoch epoch); simpl;
      [reflexivity|rewrite app_nil_r; reflexivity]. }
  assert (F3 : files f3 = (if save_due save_epoch epoch
                           then <[path := checkpoint_of epoch f2]> (files f2)
                           else files f2)).
  { unfold f3. destruct (save_due save_epoch epoch); reflexivity. }
  assert (M3 : model f3 = model f2 /\ optimizer f3 = optimizer f2).
  { unfold f3. destruct (save_due save_epoch epoch); split; reflexivity. }
  destruct M3 as [M3 O3].
  exists f4, (test_metrics ld epoch f3).
  rewrite E1, E2.
  split; [|split; [|split; [|split]]].
  - unfold epoch_body. simpl. unfold bind at 1. unfold bind at 1. rewrite H1.
    unfold bind at 1. rewrite H2. unfold ret. unfold bind at 1.
    fold path. rewrite H3. exact H4.
  - rewrite L4, L3, L2, L1, <- !app_assoc. reflexivity.
  - rewrite F4, F3, F2, F1. reflexivity.
  - rewrite M4, M3. reflexivity.
  - rewrite O4, O3. reflexivity.
Qed.

Lemma Forall_concat_repeat {A} (P : A -> Prop) (l : list A) (n : nat) :
  Forall P l -> Forall P (List.concat (List.repeat l n)).
Proof.
  intros Hl. induction n as [|n IH]; simpl; [constructor|].
  apply Forall_app. split; assumption.
Qed.

Lemma concat_repeat_singleton {A} (x : A) (n : nat) :
  List.concat (List.repeat [x] n) = List.repeat x n.
Proof. induction n as [|n IH]; [reflexivity|simpl; rewrite IH; reflexivity]. Qed.

Lemma Forall_phase_events (P : event -> Prop) ph n m epoch :
  Forall P (prelude_events ph) -> Forall P (batch_events ph) ->
  P (EvScalar (loss_tag ph) (fst m) epoch) ->
  P (EvScalar (acc_tag ph) (snd m) epoch) ->
  Forall P (phase_events ph n m epoch).
Proof.
  intros Hpre Hb H1 H2. unfold phase_events.
  repeat (apply Forall_app; split); [exact Hpre|apply Forall_concat_repeat; exact Hb|].
  repeat constructor; assumption.
Qed.

Lemma phase_events_not_save ph n m epoch :
  Forall not_save (phase_events ph n m epoch).
Proof.
  apply Forall_phase_events; try exact I; destruct ph; repeat constructor.
Qed.

Lemma test_events_not_save n m epoch : Forall not_save (test_events n m epoch).
Proof.
  unfold test_events. repeat (apply Forall_app; split).
  - repeat constructor.
  - apply Forall_concat_repeat. repeat constructor.
  - repeat constructor.
Qed.

Lemma phase_events_not_test ph n m epoch :
  Forall (fun e => ~ test_event e) (phase_events ph n m epoch).
Proof.
  apply Forall_phase_events; destruct ph; simpl;
    first [ intros H; vm_compute in H; discriminate H
          | repeat (apply List.Forall_cons; [simpl; tauto|]); apply List.Forall_nil ].
Qed.

(** C1, with the epoch field as the script writes it.  In an epoch that
    runs to its end, when [epoch % save_epoch == save_epoch - 1] exactly one
    checkpoint is written, to the path made of the save directory, the model
    name, the dataset name and the epoch index; it holds [epoch + 1], the
    state of the model and the state of the optimizer, and is the file found
    at that path afterwards.  In any other epoch no checkpoint is written and
    the files are as before. *)
Theorem checkpoint_written_when_due ld save_dir save_name save_epoch use_test
  test_interval epoch (fr : frame) :
  shuffle_permutes ->
  dl_dataset (ld_train ld) <> [] -> dl_dataset (ld_val ld) <> [] ->
  save_epoch <> 0 ->
  (use_test = true -> test_interval <> 0 /\ dl_dataset (ld_test ld) <> []) ->
  let path := checkpoint_path save_dir save_name epoch in
  exists fr' before after,
    epoch_body ld save_dir save_name save_epoch use_test test_interval epoch fr
    = (fr', Ok tt)
    /\ log fr' = log fr ++ before
                 ++ (if save_due save_epoch epoch
                     then [EvSave path {| ck_epoch := epoch + 1;
                                          ck_state_dict := model fr';
                                          ck_opt_dict := optimizer fr' |}]
                     else [])
                 ++ after
    /\ Forall not_save before /\ Forall not_save after
    /\ files fr' = (if save_due save_epoch epoch
                    then <[path := {| ck_epoch := epoch + 1;
                                      ck_state_dict := model fr';
                                      ck_opt_dict := optimizer fr' |}]> (files fr)
                    else files fr).
Proof.
  intros Hperm Htrain Hval Hse Htest path.
  destruct (epoch_body_run ld save_dir save_name save_epoch use_test test_interval
              epoch fr Hperm Htrain Hval Hse Htest)
    as (fr' & m & Hrun & Hlog & Hfiles & Hm & Ho).
  fold path in Hlog, Hfiles. unfold checkpoint_of in Hlog, Hfiles.
  rewrite <- Hm, <- Ho in Hlog, Hfiles.
  exists fr',
    (phase_events train (List.length (batches epoch (ld_train ld)))
                  (phase_metrics ld epoch train fr) epoch
     ++ phase_events val (List.length (batches epoch (ld_val ld)))
                     (phase_metrics ld epoch val (fst (run_phase ld epoch train fr)))
                     epoch),
    (if test_due use_test test_interval epoch
     then test_events (List.length (batches epoch (ld_test ld))) m epoch
     else []).
  split; [exact Hrun|].
  split; [|split; [|split; [|exact Hfiles]]].
  - rewrite Hlog, <- !app_assoc. reflexivity.
  - apply Forall_app. split; apply phase_events_not_save.
  - destruct (test_due use_test test_interval epoch);
      [apply test_events_not_save|constructor].
Qed.

(** ** The averages of a pass *)

Lemma run_pass_run ld epoch p (fr : frame) :
  shuffle_permutes ->
  dl_dataset (pass_loader ld p) <> [] ->
  let bs := batches epoch (pass_loader ld p) in
  let tot := spec_totals (pass_body p) bs (pass_start p fr) 0%Q 0%Q in
  let n := inject_Z (dataset_len (pass_loader ld p)) in
  exists fr',
    run_pass ld epoch p fr = (fr', Ok tt)
    /\ log fr' = log fr ++ pass_events p (List.length bs)
                                       (rnd (fst tot / n)%Q, rnd (snd tot / n)%Q) epoch.
Proof.
  intros Hperm Hne bs tot n.
  pose proof (dataset_len_nonzero _ Hne) as Hsize.
  pose proof (batches_nonempty epoch _ Hperm Hne) as Hbs.
  destruct p as [ph|]; simpl in *.
  - destruct (run_phase_run ld epoch ph fr Hsize Hbs) as (fr' & Hrun & Hlog & _).
    exists fr'. split; [exact Hrun|exact Hlog].
  - destruct (test_pass_run ld epoch fr Hsize Hbs) as (fr' & Hrun & Hlog & _).
    exists fr'. split; [exact Hrun|exact Hlog].
Qed.

Lemma pass_body_loss p b (fr : frame) :
  running_loss (fst (pass_body p b fr))
  = rnd (running_loss fr
         + rnd (batch_loss fr b * inject_Z (Z.of_nat (List.length b))))%Q.
Proof. destruct p; [apply trainval_batch_loss|apply test_batch_loss]. Qed.

Lemma pass_body_corrects p b (fr : frame) :
  running_corrects (fst (pass_body p b fr))
  = Tensor32 (rnd32 (number_value (running_corrects fr)
                     + inject_Z (batch_correct fr b)))%Q.
Proof. destruct p; [apply trainval_batch_corrects|apply test_batch_corrects]. Qed.

(** C5. A pass over a non-empty dataset returns, and the two metrics it
    writes are the running loss and the running count of correct
    predictions, each divided by the number of examples of the dataset; the
    two running sums start from zero whatever the accumulators held before,
    and each batch adds its loss times its size to the first and its count of
    predictions equal to the label to the second. *)
Theorem phase_runner_averages ld epoch p (fr : frame) :
  shuffle_permutes ->
  dl_dataset (pass_loader ld p) <> [] ->
  let bs := batches epoch (pass_loader ld p) in
  let tot := spec_totals (pass_body p) bs (pass_start p fr) 0%Q 0%Q in
  let n := inject_Z (dataset_len (pass_loader ld p)) in
  (exists fr',
     run_pass ld epoch p fr = (fr', Ok tt)
     /\ log fr' = log fr ++ pass_events p (List.length bs)
                                        (rnd (fst tot / n)%Q, rnd (snd tot / n)%Q) epoch)
  /\ running_loss (pass_start p fr) = 0%Q
  /\ running_corrects (pass_start p fr) = PyFloat 0%Q
  /\ forall b fr0,
       running_loss (fst (pass_body p b fr0))
       = rnd (running_loss fr0
              + rnd (batch_loss fr0 b * inject_Z (Z.of_nat (List.length b))))%Q
       /\ running_corrects (fst (pass_body p b fr0))
          = Tensor32 (rnd32 (number_value (running_corrects fr0)
                             + inject_Z (batch_correct fr0 b)))%Q.
Proof.
  intros Hperm Hne bs tot n.
  split; [apply (run_pass_run ld epoch p fr Hperm Hne)|].
  split; [destruct p as [[]|]; reflexivity|].
  split; [destruct p as [[]|]; reflexivity|].
  intros b fr0. split; [apply pass_body_loss|apply pass_body_corrects].
Qed.

(** ** A pass over an empty dataset *)

Lemma pass_tail_empty (body : list (Input * Z) -> M frame unit) (evs : list event)
  bs tag_loss tag_acc epoch (fr0 : frame) :
  (forall b fr, snd (body b fr) = Ok tt) ->
  (forall b fr, log (fst (body b fr)) = log fr ++ evs) ->
  let out :=
    bind (for_each bs body) (fun _ =>
    bind (epoch_metrics 0) (fun m =>
    bind (emit (EvScalar tag_loss (fst m) epoch)) (fun _ =>
          emit (EvScalar tag_acc (snd m) epoch)))) fr0 in
  snd out = Raise ZeroDivisionError
  /\ log (fst out) = log fr0 ++ List.concat (List.map (fun _ => evs) bs).
Proof.
  intros Hok Hlog out. unfold out.
  pose proof (loop_ok body Hok bs fr0) as Hr.
  pose proof (loop_log body evs Hok Hlog bs fr0) as Hl.
  unfold bind. destruct (for_each bs body fr0) as [fr1 r].
  simpl in Hr, Hl. subst r. split; [reflexivity|exact Hl].
Qed.

Lemma dataset_len_empty (dl : DataLoader Input) :
  dl_dataset dl = [] -> dataset_len dl = 0.
Proof. unfold dataset_len. intros ->. reflexivity. Qed.

Lemma run_pass_empty ld epoch p (fr : frame) :
  dl_dataset (pass_loader ld p) = [] ->
  snd (run_pass ld epoch p fr) = Raise ZeroDivisionError
  /\ exists evs, log (fst (run_pass ld epoch p fr)) = log fr ++ evs
                 /\ Forall not_scalar evs.
Proof.
  intros Hempty. apply dataset_len_empty in Hempty.
  destruct p as [ph|]; simpl in *.
  - destruct (pass_tail_empty (trainval_batch ph) (batch_events ph)
                (batches epoch (trainval_loaders ld ph)) (loss_tag ph) (acc_tag ph)
                epoch (loop_start ph fr)
                (trainval_batch_ok ph) (trainval_batch_log ph)) as [Hr Hl].
    assert (Heq : run_phase ld epoch ph fr
                  = bind (for_each (batches epoch (trainval_loaders ld ph))
                                   (trainval_batch ph)) (fun _ =>
                    bind (epoch_metrics 0) (fun m =>
                    bind (emit (EvScalar (loss_tag ph) (fst m) epoch)) (fun _ =>
                          emit (EvScalar (acc_tag ph) (snd m) epoch))))
                      (loop_start ph fr)).
    { unfold run_phase, trainval_sizes. rewrite Hempty. destruct ph; reflexivity. }
    rewrite Heq. split; [exact Hr|].
    eexists. rewrite Hl, loop_start_log, <- app_assoc. split; [reflexivity|].
    apply Forall_app. split.
    + destruct ph; repeat (apply List.Forall_cons; [exact I|]); apply List.Forall_nil.
    + rewrite map_const. apply Forall_concat_repeat.
      destruct ph; repeat (apply List.Forall_cons; [exact I|]); apply List.Forall_nil.
  - destruct (pass_tail_empty test_batch [EvForward false]
                (batches epoch (ld_test ld)) "data/test_loss_epoch"
                "data/test_acc_epoch" epoch (test_start fr)
                test_batch_ok test_batch_log) as [Hr Hl].
    assert (Heq : test_pass ld epoch fr
                  = bind (for_each (batches epoch (ld_test ld)) test_batch) (fun _ =>
                    bind (epoch_metrics 0) (fun m =>
                    bind (emit (EvScalar "data/test_loss_epoch" (fst m) epoch)) (fun _ =>
                          emit (EvScalar "data/test_acc_epoch" (snd m) epoch))))
                      (test_start fr)).
    { unfold test_pass, test_size. rewrite Hempty. reflexivity. }
    rewrite Heq. split; [exact Hr|].
    eexists. rewrite Hl, test_start_log, <- app_assoc. split; [reflexivity|].
    apply Forall_app. split.
    + repeat (apply List.Forall_cons; [exact I|]); apply List.Forall_nil.
    + rewrite map_const. apply Forall_concat_repeat.
      repeat (apply List.Forall_cons; [exact I|]); apply List.Forall_nil.
Qed.

(** C9, as the script behaves.  A pass over an empty dataset divides the
    running loss by zero: it raises [ZeroDivisionError] at the average loss,
    and writes no metric. *)
Theorem empty_pass_raises ld epoch p (fr : frame) :
  dl_dataset (pass_loader ld p) = [] ->
  snd (run_pass ld epoch p fr) = Raise ZeroDivisionError
  /\ exists evs, log (fst (run_pass ld epoch p fr)) = log fr ++ evs
                 /\ Forall not_scalar evs.
Proof. apply run_pass_empty. Qed.

(** ** Bounds on the metrics *)

Lemma count_equal_bounds (preds labels : list Z) :
  0 <= count_equal preds labels <= Z.of_nat (List.length labels).
Proof.
  unfold count_equal. split; [lia|].
  apply inj_le.
  etransitivity; [apply List.filter_length_le|].
  rewrite length_combine. lia.
Qed.

Lemma batch_correct_bounds (fr : frame) b :
  0 <= batch_correct fr b <= Z.of_nat (List.length b).
Proof.
  unfold batch_correct.
  pose proof (count_equal_bounds (predictions (batch_outputs fr b)) (List.map snd b)) as H.
  rewrite length_map in H. exact H.
Qed.

Lemma chunks_fuel_concat {A} (n fuel : nat) (l : list A) :
  (0 < n)%nat -> (List.length l <= fuel)%nat ->
  List.concat (chunks_fuel fuel n l) = l.
Proof.
  intros Hn. revert l. induction fuel as [|fuel IH]; intros l Hl.
  - destruct l; [reflexivity|simpl in Hl; lia].
  - destruct l as [|x l]; [reflexivity|].
    change (chunks_fuel (S fuel) n (x :: l))
      with (List.firstn n (x :: l) :: chunks_fuel fuel n (List.skipn n (x :: l))).
    rewrite concat_cons, IH; [apply firstn_skipn|].
    rewrite length_skipn. simpl in *. lia.
Qed.

Lemma chunks_concat {A} (n : nat) (l : list A) :
  (0 < n)%nat -> List.concat (chunks n l) = l.
Proof. intros Hn. apply chunks_fuel_concat; [exact Hn|reflexivity]. Qed.

(** The batches of a pass hold as many examples as the dataset. *)
Lemma batches_total epoch (dl : DataLoader Input) :
  shuffle_permutes ->
  List.length (List.concat (batches epoch dl)) = List.length (dl_dataset dl).
Proof.
  intros Hperm. unfold batches. rewrite chunks_concat by lia.
  destruct (dl_shuffle dl); [|reflexivity].
  symmetry. apply Permutation_length. apply Hperm.
Qed.

Lemma monotone_compat (f : Q -> Q) (x y : Q) :
  monotone f -> (x == y)%Q -> (f x == f y)%Q.
Proof.
  intros Hf Hxy. apply Qle_antisym; apply Hf; rewrite Hxy; apply Qle_refl.
Qed.

Lemma round_nonneg (f : Q -> Q) (x : Q) :
  monotone f -> exact_upto f 1 -> (0 <= x)%Q -> (0 <= f x)%Q.
Proof.
  intros Hf Hex Hx.
  assert (H0 : (f 0 == 0)%Q) by (apply (Hex 0); lia).
  rewrite <- H0. apply Hf. exact Hx.
Qed.

Lemma round_le_one (f : Q -> Q) (x : Q) :
  monotone f -> exact_upto f 1 -> (x <= 1)%Q -> (f x <= 1)%Q.
Proof.
  intros Hf Hex Hx.
  assert (H1 : (f 1 == 1)%Q) by (apply (Hex 1); lia).
  rewrite <- H1. apply Hf. exact Hx.
Qed.

Section Bounds.

Hypothesis rnd_monotone : monotone rnd.
Hypothesis rnd_exact : exact_upto rnd 1.
Hypothesis rnd32_monotone : monotone rnd32.
Hypothesis criterion_nonneg : forall outputs labels, (0 <= criterion outputs labels)%Q.

Lemma spec_totals_bounds (body : list (Input * Z) -> M frame unit) (N : Z) bs :
  exact_upto rnd32 N ->
  forall (fr : frame) (L C : Q) (c : Z),
    (0 <= L)%Q -> (C == inject_Z c)%Q -> 0 <= c ->
    c + Z.of_nat (List.length (List.concat bs)) <= N ->
    (0 <= fst (spec_totals body bs fr L C))%Q
    /\ exists c', (snd (spec_totals body bs fr L C) == inject_Z c')%Q
                  /\ 0 <= c' <= c + Z.of_nat (List.length (List.concat bs)).
Proof.
  intros Hex. induction bs as [|b bs IH]; intros fr L C c HL HC Hc HN.
  - simpl. split; [exact HL|]. exists c. split; [exact HC|lia].
  - simpl in HN. rewrite length_app in HN.
    pose proof (batch_correct_bounds fr b) as Hk.
    set (k := batch_correct fr b) in *.
    assert (HC' : (rnd32 (C + inject_Z k) == inject_Z (c + k))%Q).
    { rewrite <- (Hex (c + k)) by lia.
      apply monotone_compat; [exact rnd32_monotone|].
      rewrite HC, inject_Z_plus. reflexivity. }
    assert (HL' : (0 <= rnd (L + rnd (batch_loss fr b
                                      * inject_Z (Z.of_nat (List.length b)))))%Q).
    { apply round_nonneg; try assumption.
      assert (0 <= rnd (batch_loss fr b * inject_Z (Z.of_nat (List.length b))))%Q.
      { apply round_nonneg; try assumption.
        apply Qmult_le_0_compat; [apply criterion_nonneg|].
        change 0%Q with (inject_Z 0). rewrite <- Zle_Qle. lia. }
      lra. }
    destruct (IH (fst (body b fr)) _ _ (c + k) HL' HC' ltac:(lia) ltac:(lia))
      as (H1 & c' & H2 & H3).
    simpl. split; [exact H1|]. exists c'. split; [exact H2|].
    rewrite length_app. lia.
Qed.

(** The two averages of a pass over [N > 0] examples, from sums within
    bounds. *)
Lemma averages_bounds (N : Z) (L C : Q) (c : Z) :
  0 < N -> (0 <= L)%Q -> (C == inject_Z c)%Q -> 0 <= c <= N ->
  (0 <= rnd (L / inject_Z N))%Q
  /\ (0 <= rnd (C / inject_Z N))%Q /\ (rnd (C / inject_Z N) <= 1)%Q.
Proof.
  intros HN HL HC Hc.
  assert (HNq : (0 < inject_Z N)%Q).
  { change 0%Q with (inject_Z 0). rewrite <- Zlt_Qlt. exact HN. }
  assert (HCq : (0 <= C)%Q /\ (C <= inject_Z N)%Q).
  { rewrite HC. split.
    - change 0%Q with (inject_Z 0). rewrite <- Zle_Qle. lia.
    - rewrite <- Zle_Qle. lia. }
  split; [|split].
  - apply round_nonneg; try assumption.
    apply Qle_shift_div_l; [exact HNq|]. lra.
  - apply round_nonneg; try assumption.
    apply Qle_shift_div_l; [exact HNq|]. lra.
  - apply round_le_one; try assumption.
    apply Qle_shift_div_r; [exact HNq|]. lra.
Qed.

End Bounds.

(** C7. Take rounding monotone and exact on 0 and 1 in float64, monotone
    and exact on the integers up to the size of the dataset in float32, and a
    criterion that never returns a negative loss.  Then a pass over a
    non-empty dataset returns, and the two metrics it writes are an average
    loss that is not negative and an accuracy between 0 and 1.  (That a batch
    adds at most its size to the count of correct predictions is proved,
    not assumed.) *)
Theorem metrics_within_bounds ld epoch p (fr : frame) :
  shuffle_permutes ->
  monotone rnd -> exact_upto rnd 1 ->
  monotone rnd32 -> exact_upto rnd32 (dataset_len (pass_loader ld p)) ->
  (forall outputs labels, (0 <= criterion outputs labels)%Q) ->
  dl_dataset (pass_loader ld p) <> [] ->
  exists fr' loss acc,
    run_pass ld epoch p fr = (fr', Ok tt)
    /\ log fr' = log fr ++ pass_events p
                             (List.length (batches epoch (pass_loader ld p)))
                             (loss, acc) epoch
    /\ (0 <= loss)%Q /\ (0 <= acc)%Q /\ (acc <= 1)%Q.
Proof.
  intros Hperm Hmono Hex Hmono32 Hex32 Hcrit Hne.
  destruct (run_pass_run ld epoch p fr Hperm Hne) as (fr' & Hrun & Hlog).
  eexists fr', _, _. split; [exact Hrun|]. split; [exact Hlog|].
  pose proof (batches_total epoch (pass_loader ld p) Hperm) as Htot.
  assert (HN : 0 < dataset_len (pass_loader ld p)).
  { pose proof (dataset_len_nonzero _ Hne). unfold dataset_len in *. lia. }
  destruct (spec_totals_bounds Hmono Hex Hmono32 Hcrit (pass_body p)
              (dataset_len (pass_loader ld p)) (batches epoch (pass_loader ld p))
              Hex32 (pass_start p fr) 0%Q 0%Q 0)
    as (HL & c & HC & Hc).
  - apply Qle_refl.
  - reflexivity.
  - lia.
  - unfold dataset_len. rewrite Htot. lia.
  - apply (averages_bounds Hmono Hex _ _ _ c HN HL HC).
    unfold dataset_len. rewrite Htot in Hc. lia.
Qed.

(** ** The loop over the epochs *)

Lemma range_In (a b e : Z) : In e (Py.range a b) <-> a <= e < b.
Proof.
  unfold Py.range. rewrite in_map_iff. split.
  - intros (i & <- & Hi). apply in_seq in Hi. lia.
  - intros He. exists (Z.to_nat (e - a)). split; [lia|].
    apply in_seq. lia.
Qed.

Lemma train_epochs_app (l1 l2 : list event) :
  train_epochs (l1 ++ l2) = train_epochs l1 ++ train_epochs l2.
Proof.
  induction l1 as [|e l1 IH]; [reflexivity|].
  destruct e; simpl; try exact IH.
  destruct (String.eqb tag "data/train_loss_epoch"); simpl; rewrite IH; reflexivity.
Qed.

Lemma train_epochs_batches ph n :
  train_epochs (List.concat (List.repeat (batch_events ph) n)) = [].
Proof.
  induction n as [|n IH]; [reflexivity|].
  simpl. rewrite train_epochs_app, IH. destruct ph; reflexivity.
Qed.

Lemma train_epochs_phase ph n m epoch :
  train_epochs (phase_events ph n m epoch)
  = match ph with train => [epoch] | val => [] end.
Proof.
  unfold phase_events. rewrite !train_epochs_app, train_epochs_batches.
  destruct ph; reflexivity.
Qed.

Lemma train_epochs_test n m epoch : train_epochs (test_events n m epoch) = [].
Proof.
  unfold test_events. rewrite !train_epochs_app.
  assert (H : train_epochs (List.concat (List.repeat [EvForward false] n)) = []).
  { induction n as [|k IH]; [reflexivity|exact IH]. }
  rewrite H. reflexivity.
Qed.

(** The epochs of a list run one after the other, each to its end. *)
Lemma epochs_run ld save_dir save_name save_epoch use_test test_interval
  (es : list Z) (fr : frame) :
  shuffle_permutes ->
  dl_dataset (ld_train ld) <> [] -> dl_dataset (ld_val ld) <> [] ->
  save_epoch <> 0 ->
  (use_test = true -> test_interval <> 0 /\ dl_dataset (ld_test ld) <> []) ->
  exists fr' evs,
    for_each es (epoch_body ld save_dir save_name save_epoch use_test test_interval) fr
    = (fr', Ok tt)
    /\ log fr' = log fr ++ evs
    /\ train_epochs evs = es.
Proof.
  intros Hperm Htrain Hval Hse Htest. revert fr.
  induction es as [|e es IH]; intros fr.
  - exists fr, []. rewrite app_nil_r. repeat split.
  - destruct (epoch_body_run ld save_dir save_name save_epoch use_test test_interval
                e fr Hperm Htrain Hval Hse Htest)
      as (fr1 & m & Hrun & Hlog & _).
    destruct (IH fr1) as (fr' & evs & Hrest & Hlog' & Hsteps).
    eexists fr', _. split; [|split].
    + simpl. unfold bind. rewrite Hrun. exact Hrest.
    + rewrite Hlog', Hlog, <- app_assoc. reflexivity.
    + rewrite !train_epochs_app, !train_epochs_phase, Hsteps.
      assert (Hs : forall ck : checkpoint Params OptState,
                 train_epochs (if save_due save_epoch e
                               then [EvSave (checkpoint_path save_dir save_name e) ck]
                               else []) = []).
      { intros ck. destruct (save_due save_epoch e); reflexivity. }
      assert (Ht : train_epochs
                     (if test_due use_test test_interval e
                      then test_events (List.length (batches e (ld_test ld))) m e
                      else []) = []).
      { destruct (test_due use_test test_interval e);
          [apply train_epochs_test|reflexivity]. }
      rewrite Hs, Ht. reflexivity.
Qed.

Lemma bind_emit {A} (e : event) (k : unit -> M frame A) (fr : frame) :
  bind (emit e) k fr = k tt (set_log (log fr ++ [e]) fr).
Proof. reflexivity. Qed.

Lemma bind_ret {A B} (a : A) (k : A -> M frame B) (fr : frame) :
  bind (ret a) k fr = k a fr.
Proof. reflexivity. Qed.

Lemma bind_run {A B} (m : M frame A) (k : A -> M frame B) (fr fr' : frame) (a : A) :
  m fr = (fr', Ok a) -> bind m k fr = k a fr'.
Proof. intros H. unfold bind. rewrite H. reflexivity. Qed.

Lemma bind_raise {A B} (m : M frame A) (k : A -> M frame B) (fr fr' : frame) e :
  m fr = (fr', Raise e) -> bind m k fr = (fr', Raise e).
Proof. intros H. unfold bind. rewrite H. reflexivity. Qed.

Lemma load_checkpoint_run path ck (fr : frame) :
  files fr !! path = Some ck ->
  load_checkpoint path fr
  = (restored ck (set_log (log fr ++ [EvLoad path]) fr), Ok tt).
Proof.
  intros Hfile. unfold load_checkpoint. rewrite bind_emit.
  unfold bind, gets, modify. simpl. rewrite Hfile. reflexivity.
Qed.

Lemma load_checkpoint_missing path (fr : frame) :
  files fr !! path = None ->
  load_checkpoint path fr
  = (set_log (log fr ++ [EvLoad path]) fr, Raise FileNotFoundError).
Proof.
  intros Hfile. unfold load_checkpoint. rewrite bind_emit.
  unfold bind, gets. simpl. rewrite Hfile. reflexivity.
Qed.

Lemma log_set_log v (fr : frame) : log (set_log v fr) = v.
Proof. reflexivity. Qed.

Lemma set_log_set_log v v' (fr : frame) : set_log v (set_log v' fr) = set_log v fr.
Proof. reflexivity. Qed.

Lemma log_restored ck (fr : frame) : log (restored ck fr) = log fr.
Proof. reflexivity. Qed.

Lemma set_log_restored v ck (fr : frame) :
  set_log v (restored ck fr) = restored ck (set_log v fr).
Proof. reflexivity. Qed.

Lemma make_loaders_run cfg dataset_arg (fr : frame) :
  VideoDataset dataset_arg "train" <> [] ->
  make_loaders cfg dataset_arg fr
  = (set_log (log fr ++ [EvNew (RLoader train_dataloader);
                         EvNew (RLoader val_dataloader);
                         EvNew (RLoader test_dataloader)]) fr,
     Ok (loaders_of cfg dataset_arg)).
Proof.
  intros Htrain. unfold make_loaders, new_DataLoader, loaders_of.
  destruct (VideoDataset dataset_arg "train") as [|x l] eqn:E; [congruence|].
  unfold bind, lift, emit, modify, ret. simpl.
  rewrite <- !app_assoc. reflexivity.
Qed.

Lemma make_loaders_empty cfg dataset_arg (fr : frame) :
  VideoDataset dataset_arg "train" = [] ->
  make_loaders cfg dataset_arg fr = (fr, Raise ValueError).
Proof.
  intros Htrain. unfold make_loaders, new_DataLoader. rewrite Htrain. reflexivity.
Qed.

Lemma train_loop_fresh cfg env dataset_arg save_dir num_epochs save_epoch use_test
  test_interval (fr0 : frame) :
  VideoDataset dataset_arg "train" <> [] ->
  resume_epoch cfg = 0 ->
  train_loop cfg env dataset_arg save_dir num_epochs save_epoch use_test
             test_interval fr0
  = bind (epochs_loop cfg dataset_arg save_dir num_epochs save_epoch use_test
                      test_interval)
         (fun _ => emit EvClose)
         (set_log (log fr0 ++ setup_events env save_dir) fr0).
Proof.
  intros Htrain Hres. unfold train_loop, epochs_loop.
  replace (resume_epoch cfg =? 0) with true by (symmetry; apply Z.eqb_eq; exact Hres).
  rewrite bind_ret, bind_emit.
  rewrite (bind_run _ _ _ _ _ (make_loaders_run cfg dataset_arg _ Htrain)).
  rewrite !log_set_log, !set_log_set_log, <- !app_assoc.
  reflexivity.
Qed.

Lemma train_loop_resumed cfg env dataset_arg save_dir num_epochs save_epoch use_test
  test_interval (fr0 : frame) ck :
  VideoDataset dataset_arg "train" <> [] ->
  resume_epoch cfg <> 0 ->
  files fr0 !! checkpoint_path save_dir (saveName cfg) (resume_epoch cfg - 1) = Some ck ->
  train_loop cfg env dataset_arg save_dir num_epochs save_epoch use_test
             test_interval fr0
  = bind (epochs_loop cfg dataset_arg save_dir num_epochs save_epoch use_test
                      test_interval)
         (fun _ => emit EvClose)
         (set_log (log fr0
                   ++ EvLoad (checkpoint_path save_dir (saveName cfg)
                                              (resume_epoch cfg - 1))
                      :: setup_events env save_dir)
                  (restored ck fr0)).
Proof.
  intros Htrain Hres Hfile. unfold train_loop, epochs_loop.
  apply Z.eqb_neq in Hres. rewrite Hres.
  rewrite (bind_run _ _ _ _ _ (load_checkpoint_run _ ck fr0 Hfile)).
  rewrite bind_emit.
  rewrite (bind_run _ _ _ _ _ (make_loaders_run cfg dataset_arg _ Htrain)).
  repeat rewrite ?log_set_log, ?log_restored, ?set_log_restored, ?set_log_set_log.
  rewrite <- !app_assoc. reflexivity.
Qed.

Lemma train_loop_missing cfg env dataset_arg save_dir num_epochs save_epoch use_test
  test_interval (fr0 : frame) :
  resume_epoch cfg <> 0 ->
  files fr0 !! checkpoint_path save_dir (saveName cfg) (resume_epoch cfg - 1) = None ->
  train_loop cfg env dataset_arg save_dir num_epochs save_epoch use_test
             test_interval fr0
  = (set_log (log fr0
              ++ [EvLoad (checkpoint_path save_dir (saveName cfg)
                                          (resume_epoch cfg - 1))]) fr0,
     Raise FileNotFoundError).
Proof.
  intros Hres Hfile. unfold train_loop.
  apply Z.eqb_neq in Hres. rewrite Hres.
  apply bind_raise. apply load_checkpoint_missing. exact Hfile.
Qed.

(** C4. The loop over the epochs runs the epochs [resume_epoch], ...,
    [num_epochs - 1], each once and in this order: these are the steps at
    which a training loss is written.  When [resume_epoch > 0] and the
    checkpoint of epoch [resume_epoch - 1] is on disk, the loop starts in a
    frame whose model and optimizer hold the two states of that checkpoint,
    the load being logged before anything the loop does (without the file the
    run ends there with [FileNotFoundError]); when [resume_epoch == 0]
    nothing is loaded. *)
Theorem epochs_and_resume cfg env dataset_arg save_dir num_epochs save_epoch
  use_test test_interval (fr0 : frame) :
  shuffle_permutes ->
  VideoDataset dataset_arg "train" <> [] -> VideoDataset dataset_arg "val" <> [] ->
  save_epoch <> 0 ->
  (use_test = true -> test_interval <> 0 /\ VideoDataset dataset_arg "test" <> []) ->
  let path := checkpoint_path save_dir (saveName cfg) (resume_epoch cfg - 1) in
  let loop := epochs_loop cfg dataset_arg save_dir num_epochs save_epoch use_test
                          test_interval in
  let run := train_loop cfg env dataset_arg save_dir num_epochs save_epoch use_test
                        test_interval fr0 in
  (forall fr, exists fr' evs,
     loop fr = (fr', Ok tt) /\ log fr' = log fr ++ evs
     /\ train_epochs evs = Py.range (resume_epoch cfg) num_epochs)
  /\ (forall e, In e (Py.range (resume_epoch cfg) num_epochs)
                <-> resume_epoch cfg <= e < num_epochs)
  /\ (0 < resume_epoch cfg ->
      forall ck, files fr0 !! path = Some ck ->
        run = bind loop (fun _ => emit EvClose)
                (set_log (log fr0 ++ EvLoad path :: setup_events env save_dir)
                         (restored ck fr0)))
  /\ (0 < resume_epoch cfg -> files fr0 !! path = None ->
      run = (set_log (log fr0 ++ [EvLoad path]) fr0, Raise FileNotFoundError))
  /\ (resume_epoch cfg = 0 ->
      run = bind loop (fun _ => emit EvClose)
              (set_log (log fr0 ++ setup_events env save_dir) fr0)).
Proof.
  intros Hperm Htrain Hval Hse Htest path loop run.
  split; [|split; [|split; [|split]]].
  - intros fr. apply epochs_run; assumption.
  - intros e. apply range_In.
  - intros Hres ck Hfile. apply train_loop_resumed; [exact Htrain|lia|exact Hfile].
  - intros Hres Hfile. apply train_loop_missing; [lia|exact Hfile].
  - intros Hres. apply train_loop_fresh; [exact Htrain|exact Hres].
Qed.

(** ** Unknown names *)

Lemma model_of_unknown (name : string) :
  name <> "cct_3d"%string -> name <> "simple_vit_3d"%string ->
  name <> "vit_3d"%string -> name <> "vivit"%string ->
  model_of name = None.
Proof.
  intros H1 H2 H3 H4. unfold model_of.
  apply String.eqb_neq in H1, H2, H3, H4.
  rewrite H1, H2, H3, H4. reflexivity.
Qed.

Lemma num_classes_unknown cfg :
  dataset cfg <> "hmdb51"%string -> dataset cfg <> "ucf101"%string ->
  num_classes cfg = Raise NotImplementedError.
Proof.
  intros H1 H2. unfold num_classes.
  apply String.eqb_neq in H1, H2. rewrite H1, H2. reflexivity.
Qed.

(** C8. With a dataset name other than [hmdb51] and [ucf101], or a model
    name other than the four architectures, the script ends with an exception
    and leaves the world as it found it: nothing was constructed, neither
    model nor criterion, optimizer, scheduler, writer or data loader.  The
    exception is [NotImplementedError] for an unknown dataset, and for an
    unknown model whenever the module level got through. *)
Theorem unknown_name_is_fatal cfg env (w : world Params OptState) :
  (dataset cfg <> "hmdb51"%string /\ dataset cfg <> "ucf101"%string)
  \/ (modelName cfg <> "cct_3d"%string /\ modelName cfg <> "simple_vit_3d"%string
      /\ modelName cfg <> "vit_3d"%string /\ modelName cfg <> "vivit"%string) ->
  exists e,
    main cfg env w = (w, Raise e)
    /\ (dataset cfg <> "hmdb51"%string -> dataset cfg <> "ucf101"%string ->
        e = NotImplementedError)
    /\ (forall g, module_level cfg env = Ok g -> e = NotImplementedError).
Proof.
  intros Hunknown. unfold main.
  destruct (module_level cfg env) as [g|e] eqn:Emod.
  - destruct Hunknown as [[H1 H2]|(H1 & H2 & H3 & H4)].
    + unfold module_level in Emod. rewrite (num_classes_unknown cfg H1 H2) in Emod.
      discriminate.
    + exists NotImplementedError. unfold train_model.
      rewrite (model_of_unknown _ H1 H2 H3 H4).
      split; [reflexivity|]. split; reflexivity.
  - exists e. split; [reflexivity|]. split; [|discriminate].
    intros H1 H2. unfold module_level in Emod.
    rewrite (num_classes_unknown cfg H1 H2) in Emod. simpl in Emod. congruence.
Qed.

End DriverFacts.

(** ** Softmax and the predicted class *)

Section SoftmaxFacts.

Context {Params OptState Grads SchedState Input : Type}.
Context {R : Runtime Params OptState Grads SchedState Input}.

#[local] Abbreviation frame := (frame Params OptState Grads SchedState).

Local Open Scope list_scope.
Local Open Scope Z_scope.

Lemma Forall2_of_nth {A} (P : A -> A -> Prop) (d : A) (l1 l2 : list A) :
  List.length l1 = List.length l2 ->
  (forall k, (k < List.length l1)%nat -> P (List.nth k l1 d) (List.nth k l2 d)) ->
  Forall2 P l1 l2.
Proof.
  revert l2. induction l1 as [|x l1 IH]; intros [|y l2] Hlen Hnth;
    try discriminate; [constructor|].
  constructor.
  - apply (Hnth 0%nat). simpl. lia.
  - apply IH; [simpl in Hlen; lia|].
    intros k Hk. apply (Hnth (S k)). simpl. lia.
Qed.

Lemma same_order_of_nth (l1 l2 : list Q) :
  List.length l1 = List.length l2 ->
  (forall i j, (i < List.length l1)%nat -> (j < List.length l1)%nat ->
     ((List.nth i l1 0 < List.nth j l1 0)%Q
      <-> (List.nth i l2 0 < List.nth j l2 0)%Q)) ->
  same_order l1 l2.
Proof.
  revert l2. induction l1 as [|x l1 IH]; intros [|y l2] Hlen Hnth;
    try discriminate; [exact I|].
  simpl in Hlen. split.
  - apply (Forall2_of_nth _ 0%Q); [lia|].
    intros k Hk. apply (Hnth 0%nat (S k)); simpl; lia.
  - apply IH; [lia|].
    intros i j Hi Hj. apply (Hnth (S i) (S j)); simpl; lia.
Qed.

Lemma Qle_bool_of_lt (a b x y : Q) :
  ((a < x)%Q <-> (b < y)%Q) -> Qle_bool x a = Qle_bool y b.
Proof.
  intros H.
  destruct (Qle_bool x a) eqn:E1, (Qle_bool y b) eqn:E2; try reflexivity.
  - apply Qle_bool_iff in E1.
    assert (~ (y <= b)%Q) as Hn by (rewrite <- Qle_bool_iff, E2; discriminate).
    apply Qnot_le_lt in Hn. apply H in Hn. lra.
  - apply Qle_bool_iff in E2.
    assert (~ (x <= a)%Q) as Hn by (rewrite <- Qle_bool_iff, E1; discriminate).
    apply Qnot_le_lt in Hn. apply H in Hn. lra.
Qed.

Lemma argmax_from_same_order (r1 r2 : list Q) :
  forall (bi i : nat) (b1 b2 : Q),
    Forall2 (fun a b => (b1 < a)%Q <-> (b2 < b)%Q) r1 r2 ->
    same_order r1 r2 ->
    argmax_from bi b1 i r1 = argmax_from bi b2 i r2.
Proof.
  revert r2. induction r1 as [|x r1 IH]; intros [|y r2] bi i b1 b2 Hb Hs;
    inversion Hb; subst; [reflexivity|].
  destruct Hs as [Hxy Hs]. simpl.
  rewrite (Qle_bool_of_lt b1 b2 x y) by assumption.
  destruct (Qle_bool y b2); apply IH; assumption.
Qed.

Lemma argmax_same_order (l1 l2 : list Q) :
  same_order l1 l2 -> argmax l1 = argmax l2.
Proof.
  destruct l1 as [|x r1], l2 as [|y r2]; simpl; try tauto.
  intros [Hxy Hs]. f_equal. apply argmax_from_same_order; assumption.
Qed.

(** Under a strictly monotone softmax the predicted classes are those of
    the raw scores. *)
Lemma predictions_raw (outputs : list (list Q)) :
  softmax_strictly_monotone ->
  predictions outputs = List.map argmax outputs.
Proof.
  intros Hsm. unfold predictions. rewrite map_map. apply map_ext.
  intros row. destruct (Hsm row) as [Hlen Hord].
  symmetry. apply argmax_same_order. apply same_order_of_nth; [symmetry; exact Hlen|].
  exact Hord.
Qed.

Lemma predictions_without (outputs : list (list Q)) :
  predictions (R := without_softmax) outputs = List.map argmax outputs.
Proof. unfold predictions. simpl. rewrite map_id. reflexivity. Qed.

Lemma trainval_batch_without ph b (fr : frame) :
  softmax_strictly_monotone ->
  trainval_batch (R := without_softmax) ph b fr = trainval_batch ph b fr.
Proof.
  intros Hsm. unfold trainval_batch.
  apply bind_ext. intros _ s1.
  destruct ph.
  - apply bind_ext. intros outputs s2.
    rewrite predictions_without, (predictions_raw outputs Hsm). reflexivity.
  - apply bind_ext. intros outputs s2.
    rewrite predictions_without, (predictions_raw outputs Hsm). reflexivity.
Qed.

Lemma test_batch_without b (fr : frame) :
  softmax_strictly_monotone ->
  test_batch (R := without_softmax) b fr = test_batch b fr.
Proof.
  intros Hsm. unfold test_batch.
  apply bind_ext. intros outputs s2.
  rewrite predictions_without, (predictions_raw outputs Hsm). reflexivity.
Qed.

Lemma run_phase_without ld epoch ph (fr : frame) :
  softmax_strictly_monotone ->
  run_phase (R := without_softmax) ld epoch ph fr = run_phase ld epoch ph fr.
Proof.
  intros Hsm. unfold run_phase.
  apply bind_ext. intros _ s1.
  apply bind_ext. intros _ s2.
  apply bind_ext. intros _ s3.
  unfold bind at 1 3.
  rewrite (for_each_ext _ (trainval_batch ph))
    by (intros x s'; apply trainval_batch_without; exact Hsm).
  reflexivity.
Qed.

Lemma test_pass_without ld epoch (fr : frame) :
  softmax_strictly_monotone ->
  test_pass (R := without_softmax) ld epoch fr = test_pass ld epoch fr.
Proof.
  intros Hsm. unfold test_pass.
  apply bind_ext. intros _ s1.
  apply bind_ext. intros _ s2.
  apply bind_ext. intros _ s3.
  unfold bind at 1 3.
  rewrite (for_each_ext _ test_batch)
    by (intros x s'; apply test_batch_without; exact Hsm).
  reflexivity.
Qed.

(** With a softmax that is strictly monotone on every row, as the exact
    softmax is, an epoch run with the softmax step left out does exactly
    what the epoch does. *)
Lemma epoch_body_without ld save_dir save_name save_epoch use_test
  test_interval epoch (fr : frame) :
  softmax_strictly_monotone ->
  epoch_body (R := without_softmax) ld save_dir save_name save_epoch use_test
             test_interval epoch fr
  = epoch_body ld save_dir save_name save_epoch use_test test_interval epoch fr.
Proof.
  intros Hsm.
  unfold epoch_body. unfold bind at 1 3.
  rewrite (for_each_ext _ (run_phase ld epoch))
    by (intros x s'; apply run_phase_without; exact Hsm).
  destruct (for_each [train; val] (run_phase ld epoch) fr) as [s1 [[]|e]];
    [|reflexivity].
  apply bind_ext. intros _ s2.
  unfold test_decision. destruct use_test; [|reflexivity].
  apply bind_ext. intros r s3.
  destruct (r =? test_interval - 1); [|reflexivity].
  apply test_pass_without. exact Hsm.
Qed.






End SoftmaxFacts.

(** * The script on the small runtime *)

Lemma toy_shuffle_permutes : shuffle_permutes (R := toy).
Proof. intros e l. apply Permutation_rev. Qed.

Lemma toy_rnd_monotone : monotone (rnd (Runtime := toy)).
Proof. intros x y H. simpl. rewrite !Qred_correct. exact H. Qed.

Lemma toy_rnd32_monotone : monotone (rnd32 (Runtime := toy)).
Proof. intros x y H. simpl. rewrite !Qred_correct. exact H. Qed.

Lemma toy_rnd_exact (n : Z) : exact_upto (rnd (Runtime := toy)) n.
Proof. intros k _. simpl. apply Qred_correct. Qed.

Lemma toy_rnd32_exact (n : Z) : exact_upto (rnd32 (Runtime := toy)) n.
Proof. intros k _. simpl. apply Qred_correct. Qed.

Lemma toy_criterion_nonneg (outputs : list (list Q)) (labels : list Z) :
  (0 <= criterion (Runtime := toy) outputs labels)%Q.
Proof.
  simpl. unfold toy_criterion. apply Qle_shift_div_l; [reflexivity|].
  rewrite Qmult_0_l. change 0%Q with (inject_Z 0). rewrite <- Zle_Qle. lia.
Qed.

Lemma toy_softmax_monotone : softmax_strictly_monotone (R := toy).
Proof.
  intros row. simpl. unfold toy_softmax. split; [apply length_map|].
  intros i j Hi Hj.
  rewrite !(nth_indep (List.map _ row) 0%Q (0 - 1)%Q)
    by (rewrite length_map; assumption).
  rewrite !(map_nth (fun x => (x - 1)%Q)). split; intros H; lra.
Qed.

(** Epoch 1 of the scenario (a checkpoint every second epoch): one
    checkpoint, holding 2. *)
Lemma checkpoint_written_when_due_witness :
  exists fr' before after,
    epoch_body (R := toy) toy_loaders "/run" "simple_vit_3d-ucf101" 2 true 3 1 toy_frame
    = (fr', Ok tt)
    /\ log fr' = (log toy_frame ++ before
                  ++ [EvSave "/run/models/simple_vit_3d-ucf101_epoch-1.pth.tar"
                             {| ck_epoch := 2; ck_state_dict := model fr';
                                ck_opt_dict := optimizer fr' |}]
                  ++ after)%list
    /\ Forall not_save before /\ Forall not_save after
    /\ files fr' = <["/run/models/simple_vit_3d-ucf101_epoch-1.pth.tar" :=
                       {| ck_epoch := 2; ck_state_dict := model fr';
                          ck_opt_dict := optimizer fr' |}]> (files toy_frame).
Proof.
  apply (checkpoint_written_when_due (R := toy) toy_loaders "/run"
           "simple_vit_3d-ucf101" 2 true 3 1 toy_frame toy_shuffle_permutes).
  - discriminate.
  - discriminate.
  - discriminate.
  - intros _. split; discriminate.
Defined.

(** The checkpoint of epoch index 1 does not hold 1. *)
Lemma checkpoint_epoch_field_counterexample :
  save_due 2 1 = true
  /\ exists path ck,
       In (EvSave path ck)
          (log (fst (epoch_body (R := toy) toy_loaders "/run" "simple_vit_3d-ucf101"
                                2 true 3 1 toy_frame)))
       /\ ck_epoch ck <> 1.
Proof.
  split; [reflexivity|].
  exists "/run/models/simple_vit_3d-ucf101_epoch-1.pth.tar",
         {| ck_epoch := 2; ck_state_dict := 2; ck_opt_dict := 2 |}.
  split; [|discriminate].
  vm_compute. tauto.
Qed.

(** The three epochs of the scenario, and a run resumed at epoch 2 from the
    checkpoint of epoch 1. *)
Lemma epochs_and_resume_witness :
  (exists fr' evs,
     epochs_loop (R := toy) scenario "ucf101" "/run" 3 2 true 3 toy_frame = (fr', Ok tt)
     /\ log fr' = (log toy_frame ++ evs)%list
     /\ train_epochs evs = [0; 1; 2])
  /\ train_loop (R := toy) (resumed scenario 2) empty_env "ucf101" "/run" 3 2 true 3
                toy_frame_resuming
     = bind (epochs_loop (R := toy) (resumed scenario 2) "ucf101" "/run" 3 2 true 3)
            (fun _ => emit EvClose)
            (set_log (log toy_frame_resuming
                      ++ EvLoad "/run/models/simple_vit_3d-ucf101_epoch-1.pth.tar"
                         :: setup_events empty_env "/run")%list
                     (restored toy_checkpoint toy_frame_resuming)).
Proof.
  split.
  - apply (epochs_and_resume (R := toy) scenario empty_env "ucf101" "/run" 3 2 true 3
             toy_frame toy_shuffle_permutes).
    + discriminate.
    + discriminate.
    + discriminate.
    + intros _. split; discriminate.
  - apply (epochs_and_resume (R := toy) (resumed scenario 2) empty_env "ucf101" "/run"
             3 2 true 3 toy_frame_resuming toy_shuffle_permutes).
    + discriminate.
    + discriminate.
    + discriminate.
    + intros _. split; discriminate.
    + reflexivity.
    + apply lookup_insert_eq.
Defined.

(** The validation pass of the scenario: two examples in one batch. *)
Lemma phase_runner_averages_witness :
  exists fr',
    run_pass (R := toy) toy_loaders 0 (PhasePass val) toy_frame = (fr', Ok tt)
    /\ log fr' = (log toy_frame
                  ++ [EvEval; EvIter val_dataloader; EvZeroGrad; EvForward false;
                      EvScalar "data/val_loss_epoch" (1 # 2) 0;
                      EvScalar "data/val_acc_epoch" (1 # 2) 0])%list.
Proof.
  refine (proj1 (phase_runner_averages (R := toy) toy_loaders 0 (PhasePass val)
                   toy_frame toy_shuffle_permutes _)).
  discriminate.
Defined.

Lemma metrics_within_bounds_witness :
  exists fr' loss acc,
    run_pass (R := toy) toy_loaders 0 (PhasePass train) toy_frame = (fr', Ok tt)
    /\ log fr' = (log toy_frame
                  ++ pass_events (PhasePass train) 2 (loss, acc) 0)%list
    /\ (0 <= loss)%Q /\ (0 <= acc)%Q /\ (acc <= 1)%Q.
Proof.
  apply (metrics_within_bounds (R := toy) toy_loaders 0 (PhasePass train) toy_frame
           toy_shuffle_permutes toy_rnd_monotone (toy_rnd_exact 1) toy_rnd32_monotone
           (toy_rnd32_exact _) toy_criterion_nonneg).
  discriminate.
Defined.

(** An unknown dataset, and an unknown model. *)
Lemma unknown_name_is_fatal_witness :
  (exists e,
     main (R := toy)
          {| nEpochs := 3; resume_epoch := 0; useTest := true; nTestInterval := 3;
             snapshot := 2; lr := 1 # 1000; batch_size := 2;
             dataset := "kinetics"; modelName := "simple_vit_3d" |}
          empty_env empty_world
     = (empty_world, Raise e))
  /\ (exists e,
        main (R := toy)
             {| nEpochs := 3; resume_epoch := 0; useTest := true; nTestInterval := 3;
                snapshot := 2; lr := 1 # 1000; batch_size := 2;
                dataset := "ucf101"; modelName := "C3D" |}
             empty_env empty_world
        = (empty_world, Raise e)).
Proof.
  split.
  - destruct (unknown_name_is_fatal (R := toy)
                {| nEpochs := 3; resume_epoch := 0; useTest := true;
                   nTestInterval := 3; snapshot := 2; lr := 1 # 1000;
                   batch_size := 2; dataset := "kinetics";
                   modelName := "simple_vit_3d" |}
                empty_env empty_world) as (e & He & _).
    + left. split; discriminate.
    + exists e. exact He.
  - destruct (unknown_name_is_fatal (R := toy)
                {| nEpochs := 3; resume_epoch := 0; useTest := true;
                   nTestInterval := 3; snapshot := 2; lr := 1 # 1000;
                   batch_size := 2; dataset := "ucf101"; modelName := "C3D" |}
                empty_env empty_world) as (e & He & _).
    + right. repeat split; discriminate.
    + exists e. exact He.
Defined.

(** A validation pass over no examples. *)
Lemma empty_pass_raises_witness :
  snd (run_pass (R := toy) empty_loaders 0 (PhasePass val) toy_frame)
  = Raise ZeroDivisionError
  /\ exists evs,
       log (fst (run_pass (R := toy) empty_loaders 0 (PhasePass val) toy_frame))
       = (log toy_frame ++ evs)%list
       /\ Forall not_scalar evs.
Proof.
  apply (empty_pass_raises (R := toy) empty_loaders 0 (PhasePass val) toy_frame).
  reflexivity.
Defined.

(** The pass over no examples neither returns nor writes a metric: it ends
    with the exception of a division by zero. *)
Lemma empty_pass_counterexample :
  (forall fr',
     run_pass (R := toy) empty_loaders 0 (PhasePass val) toy_frame <> (fr', Ok tt))
  /\ snd (run_pass (R := toy) empty_loaders 0 (PhasePass val) toy_frame)
     = Raise ZeroDivisionError.
Proof.
  assert (H : snd (run_pass (R := toy) empty_loaders 0 (PhasePass val) toy_frame)
              = Raise ZeroDivisionError) by (vm_compute; reflexivity).
  split; [|exact H].
  intros fr' Heq. rewrite Heq in H. discriminate H.
Qed.

(** The scenario from start to end: the three epochs run, one checkpoint is
    on disk afterwards, that of epoch index 1. *)
Example scenario_runs :
  snd (main (R := toy) scenario empty_env empty_world) = Ok tt
  /\ train_epochs (w_log (fst (main (R := toy) scenario empty_env empty_world)))
     = [0; 1; 2]
  /\ List.map fst (map_to_list (w_files (fst (main (R := toy) scenario empty_env
                                                  empty_world))))
     = ["/home/u/proj/run/run_0/models/simple_vit_3d-ucf101_epoch-1.pth.tar"].
Proof. vm_compute. repeat split; reflexivity. Qed.

(** * Further properties *)

(** ** The run identifier on other directory contents *)























(** ** The names of the checkpoint files *)

Lemma str_inj (a b : Z) : Py.str a = Py.str b -> a = b.
Proof.
  unfold Py.str. intros H.
  assert (Hnn : forall z, Z.to_int z <> Decimal.Pos Decimal.Nil
                          /\ Z.to_int z <> Decimal.Neg Decimal.Nil).
  { intros [|p|p]; simpl; split; try discriminate;
      intros [= E]; exact (DecimalPos.Unsigned.to_uint_nonnil p E). }
  apply DecimalZ.to_int_inj.
  assert (E : Some (Z.to_int a) = Some (Z.to_int b)).
  { rewrite <- (NilZero.isi (Z.to_int a)) by apply Hnn.
    rewrite <- (NilZero.isi (Z.to_int b)) by apply Hnn.
    rewrite H. reflexivity. }
  injection E as E. exact E.
Qed.

Lemma append_length (a b : string) :
  String.length (a ++ b) = (String.length a + String.length b)%nat.
Proof.
  induction a as [|c a IH]; [reflexivity|].
  rewrite append_cons. simpl. rewrite IH. reflexivity.
Qed.

Lemma append_inv_tail (a b t : string) : a ++ t = b ++ t -> a = b.
Proof.
  revert b. induction a as [|c a IH]; intros [|d b] H.
  - reflexivity.
  - apply (f_equal String.length) in H. rewrite append_nil_l, append_cons in H.
    simpl in H. rewrite append_length in H. lia.
  - apply (f_equal String.length) in H. rewrite append_nil_l, append_cons in H.
    simpl in H. rewrite append_length in H. lia.
  - rewrite !append_cons in H. injection H as -> H. f_equal. apply IH. exact H.
Qed.

Lemma prefix_nil (s : string) : String.prefix "" s = true.
Proof. destruct s; reflexivity. Qed.

Lemma startswith_slash_app (sn x y : string) :
  Py.startswith "/" (sn ++ String "_" x) = Py.startswith "/" (sn ++ String "_" y).
Proof.
  unfold Py.startswith. destruct sn as [|c sn]; [reflexivity|].
  rewrite !append_cons.
  change (String.prefix "/" (String c (sn ++ String "_" x)))
    with (if ascii_dec "/" c then String.prefix "" (sn ++ String "_" x) else false).
  change (String.prefix "/" (String c (sn ++ String "_" y)))
    with (if ascii_dec "/" c then String.prefix "" (sn ++ String "_" y) else false).
  rewrite !prefix_nil. reflexivity.
Qed.

Lemma join2_inj (a sn x y : string) :
  Py.join2 a (sn ++ String "_" x) = Py.join2 a (sn ++ String "_" y) -> x = y.
Proof.
  unfold Py.join2. rewrite (startswith_slash_app sn x y).
  destruct (Py.startswith "/" (sn ++ String "_" y)).
  - intros H. apply String.app_inj in H. congruence.
  - destruct (String.eqb a "" || Py.endswith_slash a)%bool; intros H.
    + apply String.app_inj in H. apply String.app_inj in H. congruence.
    + apply String.app_inj in H. apply (String.app_inj "/") in H.
      apply String.app_inj in H. congruence.
Qed.

Lemma checkpoint_path_inj (save_dir save_name : string) (e1 e2 : Z) :
  checkpoint_path save_dir save_name e1 = checkpoint_path save_dir save_name e2 ->
  e1 = e2.
Proof.
  intros Heq. unfold checkpoint_path, Py.join in Heq. simpl in Heq.
  change (save_name ++ "_epoch-" ++ Py.str e1 ++ ".pth.tar")
    with (save_name ++ String "_" ("epoch-" ++ Py.str e1 ++ ".pth.tar")) in Heq.
  change (save_name ++ "_epoch-" ++ Py.str e2 ++ ".pth.tar")
    with (save_name ++ String "_" ("epoch-" ++ Py.str e2 ++ ".pth.tar")) in Heq.
  apply join2_inj in Heq. apply String.app_inj in Heq.
  apply append_inv_tail in Heq. apply str_inj. exact Heq.
Qed.

(** X3. The checkpoints of two different epochs have different paths, so
    a checkpoint is never replaced by that of another epoch. *)
Theorem checkpoint_paths_differ (save_dir save_name : string) (e1 e2 : Z) :
  e1 <> e2 ->
  checkpoint_path save_dir save_name e1 <> checkpoint_path save_dir save_name e2.
Proof.
  intros Hne Heq. apply Hne. apply (checkpoint_path_inj save_dir save_name). exact Heq.
Qed.

Lemma checkpoint_paths_differ_witness :
  9 <> 19
  /\ checkpoint_path "/run" "simple_vit_3d-ucf101" 9
     <> checkpoint_path "/run" "simple_vit_3d-ucf101" 19.
Proof.
  split; [discriminate|].
  apply (checkpoint_paths_differ "/run" "simple_vit_3d-ucf101" 9 19). discriminate.
Defined.

(** ** The whole run: what is logged and what is written *)

Lemma steps_for_each_in {S A} (Rel : S -> S -> Prop) {Rel_pre : PreOrder Rel}
  (body : A -> M S unit) (l : list A) :
  (forall x, In x l -> steps Rel (body x)) -> steps Rel (for_each l body).
Proof.
  intros Hb. induction l as [|x l IH]; simpl.
  - apply steps_ret; assumption.
  - apply steps_bind; [assumption|apply Hb; left; reflexivity|].
    intros _. apply IH. intros y Hy. apply Hb. right. exact Hy.
Qed.

Lemma for_each_app {S A} (body : A -> M S unit) (l1 l2 : list A) (s : S) :
  for_each (l1 ++ l2)%list body s
  = bind (for_each l1 body) (fun _ => for_each l2 body) s.
Proof.
  revert s. induction l1 as [|x l1 IH]; intros s; [reflexivity|].
  simpl. unfold bind in *. destruct (body x s) as [s' [[]|e]]; [apply IH|reflexivity].
Qed.

Lemma save_due_never (save_epoch epoch : Z) :
  save_epoch < 0 -> save_due save_epoch epoch = false.
Proof.
  intros Hs. unfold save_due. apply Z.eqb_neq.
  pose proof (Z.mod_neg_bound epoch save_epoch Hs). lia.
Qed.

Lemma save_due_early (save_epoch epoch : Z) :
  0 <= epoch -> epoch + 1 < save_epoch -> save_due save_epoch epoch = false.
Proof.
  intros H0 Hs. unfold save_due. apply Z.eqb_neq.
  rewrite Z.mod_small by lia. lia.
Qed.

Lemma save_due_next (save_epoch epoch : Z) :
  save_epoch <> 0 -> save_due save_epoch epoch = true ->
  (epoch + 1) mod save_epoch = 0.
Proof.
  intros Hs Hdue. unfold save_due in Hdue. apply Z.eqb_eq in Hdue.
  pose proof (Z.div_mod epoch save_epoch Hs) as Hdm.
  replace (epoch + 1) with ((epoch / save_epoch + 1) * save_epoch) by lia.
  apply Z_mod_mult.
Qed.

(** Composite statements are taken apart; [Hq] settles an assignment that
    leaves log and files alone, [He] a call that is neither a save nor the
    closing of the writer. *)
Ltac frame_steps Hq He :=
  unfold epoch_body, test_decision, test_pass, load_checkpoint, run_phase,
    epoch_metrics, reset_running, test_batch, trainval_batch, accumulate,
    optimizer_step_, loss_backward, model_call, optimizer_zero_grad, model_eval,
    model_train, scheduler_step_;
  repeat match goal with
         | |- PreOrder _ => typeclasses eauto
         | |- forall _, steps _ _ => intros ?
         | |- steps _ (bind _ _) => apply steps_bind
         | |- steps _ (for_each _ _) => apply steps_for_each
         | |- steps _ (ret _) => apply steps_ret
         | |- steps _ (gets _) => apply steps_gets
         | |- steps _ (lift _) => apply steps_lift
         | |- steps _ (raise _) => apply steps_raise
         | |- steps _ (emit _) => apply He; exact I
         | |- steps _ (match ?x with _ => _ end) => destruct x
         | |- steps _ (modify _) => apply Hq; intros ?; reflexivity
         end.

(** A component of the frame that no assignment of a statement touches. *)
Ltac field_steps :=
  unfold test_decision, test_pass, run_phase, epoch_metrics, reset_running,
    model_eval, test_batch, trainval_batch, accumulate, model_call,
    optimizer_zero_grad, loss_backward, optimizer_step_, emit;
  repeat match goal with
         | |- PreOrder _ => typeclasses eauto
         | |- forall _, steps _ _ => intros ?
         | |- steps _ (bind _ _) => apply steps_bind
         | |- steps _ (for_each _ _) => apply steps_for_each
         | |- steps _ (ret _) => apply steps_ret
         | |- steps _ (gets _) => apply steps_gets
         | |- steps _ (lift _) => apply steps_lift
         | |- steps _ (match ?x with _ => _ end) => destruct x
         | |- steps (same _) (modify _) => apply steps_modify; intros ?; reflexivity
         end.

Section RunFacts.

Context {Params OptState Grads SchedState Input : Type}.
Context {R : Runtime Params OptState Grads SchedState Input}.

#[local] Abbreviation frame := (frame Params OptState Grads SchedState).
#[local] Abbreviation event := (event Params OptState).
#[local] Abbreviation world := (world Params OptState).
#[local] Abbreviation logged := (@logged Params OptState Grads SchedState).
#[local] Abbreviation not_save := (@not_save Params OptState).
#[local] Abbreviation not_close := (@not_close Params OptState).
#[local] Abbreviation save_well_formed := (@save_well_formed Params OptState).
#[local] Abbreviation close_events := (@close_events Params OptState).
#[local] Abbreviation phase_events := (@phase_events Params OptState).
#[local] Abbreviation test_events := (@test_events Params OptState).
#[local] Abbreviation setup_events := (@setup_events Params OptState).
#[local] Abbreviation no_checkpoint := (@no_checkpoint Params OptState Grads SchedState).
#[local] Abbreviation calls := (@calls Params OptState).
#[local] Abbreviation is_call := (@is_call Params OptState).
#[local] Abbreviation prelude_events := (@prelude_events Params OptState).
#[local] Abbreviation batch_events := (@batch_events Params OptState).
#[local] Abbreviation test_event := (@test_event Params OptState).

Local Open Scope list_scope.
Local Open Scope Z_scope.

#[local] Existing Instance logged_pre.
#[local] Existing Instance same_pre.

#[local] Instance no_checkpoint_pre : PreOrder no_checkpoint.
Proof.
  split.
  - intros fr. split; reflexivity.
  - intros a b c [F1 L1] [F2 L2]. split; [congruence|].
    transitivity b; assumption.
Qed.

(** A relation between frames that every statement respects which writes
    no file, saves no checkpoint and does not close the writer. *)
Section Frame.

Variable Rel : frame -> frame -> Prop.
Context {Rel_pre : PreOrder Rel}.
Hypothesis Rel_quiet : forall f : frame -> frame,
  (forall fr, log (f fr) = log fr) -> (forall fr, files (f fr) = files fr) ->
  steps Rel (modify f).
Hypothesis Rel_emit : forall e, not_save e -> not_close e -> steps Rel (emit e).

Lemma run_phase_steps ld epoch ph : steps Rel (run_phase ld epoch ph).
Proof. frame_steps Rel_quiet Rel_emit. Qed.

Lemma test_decision_steps ld use_test test_interval epoch :
  steps Rel (test_decision ld use_test test_interval epoch).
Proof. frame_steps Rel_quiet Rel_emit. Qed.

Lemma load_checkpoint_steps path : steps Rel (load_checkpoint path).
Proof. frame_steps Rel_quiet Rel_emit. Qed.

Lemma make_loaders_steps cfg dataset_arg : steps Rel (make_loaders cfg dataset_arg).
Proof. unfold make_loaders. frame_steps Rel_quiet Rel_emit. Qed.

Lemma epochs_steps ld save_dir save_name save_epoch use_test test_interval es :
  (forall e, In e es ->
     steps Rel (checkpoint_decision save_dir save_name save_epoch e)) ->
  steps Rel
        (for_each es (epoch_body ld save_dir save_name save_epoch use_test
                                 test_interval)).
Proof.
  intros Hck. apply steps_for_each_in; [typeclasses eauto|].
  intros e He. unfold epoch_body.
  apply steps_bind; [typeclasses eauto| |intros _].
  - apply steps_for_each; [typeclasses eauto|]. intros ph. apply run_phase_steps.
  - apply steps_bind; [typeclasses eauto| |intros _].
    + apply Hck. exact He.
    + apply test_decision_steps.
Qed.

(** Lines 152-273: all of [train_model] before the closing of the writer,
    followed by [k]. *)
Lemma before_close_steps cfg env dataset_arg save_dir num_epochs save_epoch
  use_test test_interval (k : M frame unit) :
  (forall e, resume_epoch cfg <= e < num_epochs ->
     steps Rel (checkpoint_decision save_dir (saveName cfg) save_epoch e)) ->
  steps Rel k ->
  steps Rel
    ((if Z.eqb (resume_epoch cfg) 0 then ret tt
      else load_checkpoint (checkpoint_path save_dir (saveName cfg)
                                            (resume_epoch cfg - 1))) ;;
     emit (EvNew (RWriter (Py.join save_dir ["models"; stamp env]))) ;;
     ld <- make_loaders cfg dataset_arg ;;
     for_each (Py.range (resume_epoch cfg) num_epochs)
              (epoch_body ld save_dir (saveName cfg) save_epoch use_test
                          test_interval) ;;
     k)%py.
Proof.
  intros Hck Hk.
  apply steps_bind; [typeclasses eauto| |intros _].
  { destruct (resume_epoch cfg =? 0);
      [apply steps_ret; typeclasses eauto|apply load_checkpoint_steps]. }
  apply steps_bind; [typeclasses eauto|apply Rel_emit; exact I|intros _].
  apply steps_bind; [typeclasses eauto|apply make_loaders_steps|intros ld].
  apply steps_bind; [typeclasses eauto| |intros _; exact Hk].
  apply epochs_steps. intros e He. apply Hck. apply range_In. exact He.
Qed.

End Frame.

Lemma no_checkpoint_quiet (f : frame -> frame) :
  (forall fr, log (f fr) = log fr) -> (forall fr, files (f fr) = files fr) ->
  steps no_checkpoint (modify f).
Proof.
  intros Hl Hf fr. split; [apply Hf|]. apply (logged_quiet not_save f Hl).
Qed.

Lemma no_checkpoint_emit (e : event) :
  not_save e -> steps no_checkpoint (emit e).
Proof.
  intros He fr. split; [reflexivity|]. apply (logged_emit not_save e He).
Qed.

Lemma logged_quiet' (P : event -> Prop) (f : frame -> frame) :
  (forall fr, log (f fr) = log fr) -> (forall fr, files (f fr) = files fr) ->
  steps (logged P) (modify f).
Proof. intros Hl _. apply logged_quiet. exact Hl. Qed.

Lemma checkpoint_decision_skip save_dir save_name save_epoch epoch (fr : frame) :
  save_epoch = 0 \/ save_due save_epoch epoch = false ->
  fst (checkpoint_decision save_dir save_name save_epoch epoch fr) = fr.
Proof.
  intros H. unfold checkpoint_decision, Py.mod_, bind, lift.
  destruct (save_epoch =? 0) eqn:Hs; [reflexivity|].
  destruct H as [H|H]; [apply Z.eqb_neq in Hs; contradiction|].
  unfold save_due in H. rewrite H. reflexivity.
Qed.

Lemma checkpoint_decision_not_close save_dir save_name save_epoch epoch :
  steps (logged not_close) (checkpoint_decision save_dir save_name save_epoch epoch).
Proof.
  intros fr. unfold checkpoint_decision, Py.mod_, bind, lift.
  destruct (save_epoch =? 0); [simpl; reflexivity|].
  destruct (epoch mod save_epoch =? save_epoch - 1); [|simpl; reflexivity].
  eexists [_]. split; [reflexivity|].
  apply List.Forall_cons; [exact I|apply List.Forall_nil].
Qed.

Lemma checkpoint_decision_well_formed save_dir save_name save_epoch epoch :
  steps (logged (save_well_formed save_dir save_name save_epoch))
        (checkpoint_decision save_dir save_name save_epoch epoch).
Proof.
  intros fr. destruct (Z.eq_dec save_epoch 0) as [Hs|Hs].
  - rewrite checkpoint_decision_skip by (left; exact Hs). reflexivity.
  - rewrite checkpoint_decision_run by exact Hs.
    destruct (save_due save_epoch epoch) eqn:Hdue; [|simpl; reflexivity].
    eexists [_]. split; [reflexivity|].
    apply List.Forall_cons; [|apply List.Forall_nil].
    simpl. split; [apply save_due_next; assumption|].
    f_equal. lia.
Qed.

(** From [train_loop] to [train_model]: the frame is built on the world the
    function finds, and what it logs is added to the log of that world. *)
Lemma train_model_logged (P : event -> Prop) cfg env dataset_arg save_dir n_classes
  lr_arg num_epochs save_epoch use_test test_interval (w : world) :
  (forall e, not_save e -> not_close e -> P e) ->
  (forall fr, logged P fr (fst (train_loop cfg env dataset_arg save_dir num_epochs
                                           save_epoch use_test test_interval fr))) ->
  exists evs,
    w_log (fst (train_model cfg env dataset_arg save_dir n_classes lr_arg num_epochs
                            save_epoch use_test test_interval w))
    = w_log w ++ evs
    /\ Forall P evs.
Proof.
  intros HP Hloop. unfold train_model.
  destruct (model_of (modelName cfg)) as [a|].
  - destruct (Hloop (initial_frame w a n_classes lr_arg)) as (evs & Hl & Hf).
    eexists (_ ++ evs). simpl. rewrite Hl. simpl. rewrite <- app_assoc.
    split; [reflexivity|].
    apply Forall_app. split; [|exact Hf].
    repeat (apply List.Forall_cons; [apply HP; exact I|]). apply List.Forall_nil.
  - exists []. simpl. rewrite app_nil_r. split; [reflexivity|apply List.Forall_nil].
Qed.

(** X4. Every checkpoint [train_model] writes holds an epoch number that is
    a multiple of [save_epoch], and lies at the path named after the epoch
    before it; this holds for every configuration and whether the run
    returns or raises. *)
Theorem saved_epochs_are_multiples cfg env dataset_arg save_dir n_classes lr_arg
  num_epochs save_epoch use_test test_interval (w : world) :
  exists evs,
    w_log (fst (train_model cfg env dataset_arg save_dir n_classes lr_arg num_epochs
                            save_epoch use_test test_interval w))
    = w_log w ++ evs
    /\ Forall (save_well_formed save_dir (saveName cfg) save_epoch) evs.
Proof.
  assert (HP : forall e : event, not_save e -> not_close e ->
                 save_well_formed save_dir (saveName cfg) save_epoch e).
  { intros e Hs _. destruct e; try exact I. destruct Hs. }
  apply train_model_logged; [exact HP|].
  intros fr. unfold train_loop.
  apply (before_close_steps (logged (save_well_formed save_dir (saveName cfg) save_epoch))
           (logged_quiet' _)
           (fun e Hs Hc => logged_emit _ e (HP e Hs Hc))).
  - intros e _. apply checkpoint_decision_well_formed.
  - apply logged_emit. exact I.
Qed.

Lemma train_loop_no_checkpoint cfg env dataset_arg save_dir num_epochs save_epoch
  use_test test_interval :
  save_epoch <= 0 \/ (0 <= resume_epoch cfg /\ num_epochs < save_epoch) ->
  steps no_checkpoint
        (train_loop cfg env dataset_arg save_dir num_epochs save_epoch use_test
                    test_interval).
Proof.
  intros H. unfold train_loop.
  apply (before_close_steps no_checkpoint no_checkpoint_quiet
           (fun e Hs _ => no_checkpoint_emit e Hs)).
  - intros e He fr. rewrite checkpoint_decision_skip; [reflexivity|].
    destruct H as [H|[H0 H]].
    + destruct (Z.eq_dec save_epoch 0) as [Hs|Hs]; [left; exact Hs|].
      right. apply save_due_never. lia.
    + right. apply save_due_early; lia.
  - apply no_checkpoint_emit. exact I.
Qed.

(** X5. A run whose last epoch comes before the first due one writes no
    checkpoint at all: with [0 <= resume_epoch] and [nEpochs < snapshot] (as
    in the shipped constants, 20 and 50), or with [snapshot <= 0], the files
    are afterwards as the script found them and no save was logged, whether
    the script returns or raises. *)
Theorem no_checkpoint_before_first_snapshot cfg env (w : world) :
  snapshot cfg <= 0 \/ (0 <= resume_epoch cfg /\ nEpochs cfg < snapshot cfg) ->
  w_files (fst (main cfg env w)) = w_files w
  /\ exists evs, w_log (fst (main cfg env w)) = w_log w ++ evs /\ Forall not_save evs.
Proof.
  intros H. unfold main.
  destruct (module_level cfg env) as [g|e].
  2: { split; [reflexivity|]. exists []. simpl. rewrite app_nil_r.
       split; [reflexivity|apply List.Forall_nil]. }
  unfold train_model. destruct (model_of (modelName cfg)) as [a|].
  2: { split; [reflexivity|]. exists []. simpl. rewrite app_nil_r.
       split; [reflexivity|apply List.Forall_nil]. }
  destruct (train_loop_no_checkpoint cfg env (dataset cfg) (g_save_dir g) (nEpochs cfg)
              (snapshot cfg) (useTest cfg) (nTestInterval cfg) H
              (initial_frame w a (g_num_classes g) (lr cfg)))
    as [Hf (evs & Hl & Hall)].
  simpl. split; [exact Hf|].
  eexists (_ ++ evs). rewrite Hl. simpl. rewrite <- app_assoc.
  split; [reflexivity|].
  apply Forall_app. split; [|exact Hall].
  repeat (apply List.Forall_cons; [exact I|]). apply List.Forall_nil.
Qed.

Lemma closes_bind {A} (m : M frame A) (k : A -> M frame unit) :
  steps (logged not_close) m ->
  (forall a fr, exists evs,
     log (fst (k a fr)) = log fr ++ evs ++ close_events (snd (k a fr))
     /\ Forall not_close evs) ->
  forall fr, exists evs,
    log (fst (bind m k fr)) = log fr ++ evs ++ close_events (snd (bind m k fr))
    /\ Forall not_close evs.
Proof.
  intros Hm Hk fr. specialize (Hm fr). unfold bind.
  destruct (m fr) as [fr1 [a|e]]; simpl in Hm; destruct Hm as (evs1 & Hl1 & Hf1).
  - destruct (Hk a fr1) as (evs2 & Hl2 & Hf2).
    exists (evs1 ++ evs2). rewrite Hl2, Hl1, <- !app_assoc.
    split; [reflexivity|]. apply Forall_app. split; assumption.
  - exists evs1. simpl. rewrite app_nil_r. split; assumption.
Qed.

Lemma train_loop_closes cfg env dataset_arg save_dir num_epochs save_epoch use_test
  test_interval (fr : frame) :
  exists evs,
    log (fst (train_loop cfg env dataset_arg save_dir num_epochs save_epoch use_test
                         test_interval fr))
    = log fr ++ evs
      ++ close_events (snd (train_loop cfg env dataset_arg save_dir num_epochs
                                       save_epoch use_test test_interval fr))
    /\ Forall not_close evs.
Proof.
  assert (Hq : forall f : frame -> frame,
             (forall fr, log (f fr) = log fr) -> (forall fr, files (f fr) = files fr) ->
             steps (logged not_close) (modify f)) by apply logged_quiet'.
  assert (He : forall e : event, not_save e -> not_close e ->
               steps (logged not_close) (emit e)).
  { intros e _ Hc. apply logged_emit. exact Hc. }
  revert fr. unfold train_loop.
  apply closes_bind.
  { destruct (resume_epoch cfg =? 0);
      [apply steps_ret; typeclasses eauto
      |apply (load_checkpoint_steps (logged not_close) Hq He)]. }
  intros _.
  apply closes_bind; [apply He; exact I|intros _].
  apply closes_bind; [apply (make_loaders_steps (logged not_close) He)|intros ld].
  apply closes_bind.
  { apply (epochs_steps (logged not_close) Hq He).
    intros e _. apply checkpoint_decision_not_close. }
  intros _ fr. exists []. split; [reflexivity|apply List.Forall_nil].
Qed.

(** X6. The writer is closed when the script returns and only then: the
    closing is the last call logged by a run that returns, and a run that
    ends with an exception, whichever it is, never closes the writer. *)
Theorem writer_closed_iff_returns cfg env (w : world) :
  exists evs,
    w_log (fst (main cfg env w))
    = w_log w ++ evs
      ++ match snd (main cfg env w) with
         | Ok _ => [EvClose]
         | Raise _ => []
         end
    /\ Forall not_close evs.
Proof.
  unfold main.
  destruct (module_level cfg env) as [g|e].
  2: { exists []. simpl. rewrite app_nil_r. split; [reflexivity|apply List.Forall_nil]. }
  unfold train_model. destruct (model_of (modelName cfg)) as [a|].
  2: { exists []. simpl. rewrite app_nil_r. split; [reflexivity|apply List.Forall_nil]. }
  destruct (train_loop_closes cfg env (dataset cfg) (g_save_dir g) (nEpochs cfg)
              (snapshot cfg) (useTest cfg) (nTestInterval cfg)
              (initial_frame w a (g_num_classes g) (lr cfg)))
    as (evs & Hl & Hall).
  exists ([EvNew (RModel a); EvNew RCriterion; EvNew ROptimizer; EvNew RScheduler]
          ++ evs).
  cbn [fst snd world_of w_log]. rewrite Hl. unfold close_events.
  change (log (initial_frame w a (g_num_classes g) (lr cfg)))
    with (w_log w ++ [EvNew (RModel a); EvNew RCriterion; EvNew ROptimizer;
                      EvNew RScheduler]).
  rewrite <- !app_assoc.
  split; [reflexivity|].
  apply Forall_app. split; [|exact Hall].
  repeat (apply List.Forall_cons; [exact I|]). apply List.Forall_nil.
Qed.

Lemma range_cons (a b : Z) : a < b -> Py.range a b = a :: Py.range (a + 1) b.
Proof.
  intros Hab. unfold Py.range.
  replace (Z.to_nat (b - a)) with (S (Z.to_nat (b - (a + 1)))) by lia.
  rewrite <- cons_seq, List.map_cons. f_equal; [lia|].
  rewrite <- seq_shift, List.map_map. apply List.map_ext. intros i. lia.
Qed.

Lemma range_empty (a b : Z) : b <= a -> Py.range a b = [].
Proof.
  intros Hab. unfold Py.range.
  replace (Z.to_nat (b - a)) with 0%nat by lia. reflexivity.
Qed.

(** The two phases of an epoch, up to the decision on the checkpoint. *)
Lemma phases_run ld epoch (fr : frame) :
  shuffle_permutes ->
  dl_dataset (ld_train ld) <> [] -> dl_dataset (ld_val ld) <> [] ->
  let fr1 := fst (run_phase ld epoch train fr) in
  let fr2 := fst (run_phase ld epoch val fr1) in
  for_each [train; val] (run_phase ld epoch) fr = (fr2, Ok tt)
  /\ log fr2 = log fr
       ++ phase_events train (List.length (batches epoch (ld_train ld)))
                       (phase_metrics ld epoch train fr) epoch
       ++ phase_events val (List.length (batches epoch (ld_val ld)))
                       (phase_metrics ld epoch val fr1) epoch
  /\ files fr2 = files fr
  /\ model fr2 = model fr1 /\ optimizer fr2 = optimizer fr1.
Proof.
  intros Hperm Htrain Hval fr1 fr2.
  destruct (run_phase_run ld epoch train fr (dataset_len_nonzero _ Htrain)
              (batches_nonempty epoch _ Hperm Htrain)) as (f1 & H1 & L1 & _).
  assert (E1 : fr1 = f1) by (unfold fr1; rewrite H1; reflexivity).
  destruct (run_phase_run ld epoch val f1 (dataset_len_nonzero _ Hval)
              (batches_nonempty epoch _ Hperm Hval)) as (f2 & H2 & L2 & _).
  assert (E2 : fr2 = f2) by (unfold fr2; rewrite E1, H2; reflexivity).
  pose proof (run_phase_keeps_files ld epoch train fr) as F1.
  pose proof (run_phase_keeps_files ld epoch val f1) as F2.
  unfold same in F1, F2. rewrite H1 in F1. rewrite H2 in F2. simpl in F1, F2.
  destruct (val_phase_evaluation_only ld epoch f1) as (M2 & O2 & _).
  unfold same in M2, O2. rewrite H2 in M2, O2. simpl in M2, O2.
  rewrite E2, E1.
  split; [|split; [|split; [|split]]].
  - simpl. unfold bind at 1. rewrite H1. unfold bind at 1. rewrite H2. reflexivity.
  - rewrite L2, L1, <- !app_assoc. reflexivity.
  - rewrite F2, F1. reflexivity.
  - exact M2.
  - exact O2.
Qed.

(** An exception in the first epoch ends the run. *)
Lemma first_epoch_raises cfg dataset_arg save_dir num_epochs save_epoch use_test
  test_interval (fr fr' : frame) (x : exn) :
  resume_epoch cfg < num_epochs ->
  epoch_body (loaders_of cfg dataset_arg) save_dir (saveName cfg) save_epoch
             use_test test_interval (resume_epoch cfg) fr
  = (fr', Raise x) ->
  bind (epochs_loop cfg dataset_arg save_dir num_epochs save_epoch use_test
                    test_interval)
       (fun _ => emit EvClose) fr
  = (fr', Raise x).
Proof.
  intros Hlt Hraise. apply bind_raise. unfold epochs_loop.
  rewrite range_cons by exact Hlt. simpl. apply bind_raise. exact Hraise.
Qed.

(** X7. With [save_epoch = 0] a run from scratch with at least one epoch to
    do trains and validates its first epoch, writes the four metrics of it,
    and then ends with [ZeroDivisionError] at the decision on the checkpoint:
    no checkpoint is written and the test pass is not reached. *)
Theorem zero_snapshot_is_fatal cfg env dataset_arg save_dir num_epochs use_test
  test_interval (fr0 : frame) :
  shuffle_permutes ->
  VideoDataset dataset_arg "train" <> [] -> VideoDataset dataset_arg "val" <> [] ->
  resume_epoch cfg = 0 -> 0 < num_epochs ->
  let ld := loaders_of cfg dataset_arg in
  exists fr' m_train m_val,
    train_loop cfg env dataset_arg save_dir num_epochs 0 use_test test_interval fr0
    = (fr', Raise ZeroDivisionError)
    /\ log fr' = log fr0 ++ setup_events env save_dir
         ++ phase_events train (List.length (batches 0 (ld_train ld))) m_train 0
         ++ phase_events val (List.length (batches 0 (ld_val ld))) m_val 0
    /\ files fr' = files fr0.
Proof.
  intros Hperm Htrain Hval Hres Hn ld.
  rewrite train_loop_fresh by assumption.
  set (fr := set_log (log fr0 ++ setup_events env save_dir) fr0).
  destruct (phases_run ld 0 fr Hperm Htrain Hval) as (Hrun & Hlog & Hfiles & _).
  set (fr2 := fst (run_phase ld 0 val (fst (run_phase ld 0 train fr)))) in *.
  exists fr2, (phase_metrics ld 0 train fr),
    (phase_metrics ld 0 val (fst (run_phase ld 0 train fr))).
  split; [|split; [|exact Hfiles]].
  - apply first_epoch_raises; [lia|]. rewrite Hres. unfold epoch_body.
    rewrite (bind_run _ _ _ _ _ Hrun). reflexivity.
  - rewrite Hlog. unfold fr. rewrite log_set_log, <- !app_assoc. reflexivity.
Qed.

(** X8. With [useTest] and [test_interval = 0] a run from scratch with at
    least one epoch to do ends with [ZeroDivisionError] at the end of its
    first epoch, after the decision on the checkpoint: the checkpoint of
    that epoch, when it is due, has been written. *)
Theorem zero_test_interval_is_fatal cfg env dataset_arg save_dir num_epochs
  save_epoch (fr0 : frame) :
  shuffle_permutes ->
  VideoDataset dataset_arg "train" <> [] -> VideoDataset dataset_arg "val" <> [] ->
  resume_epoch cfg = 0 -> 0 < num_epochs -> save_epoch <> 0 ->
  let ld := loaders_of cfg dataset_arg in
  let path := checkpoint_path save_dir (saveName cfg) 0 in
  exists fr' m_train m_val,
    train_loop cfg env dataset_arg save_dir num_epochs save_epoch true 0 fr0
    = (fr', Raise ZeroDivisionError)
    /\ log fr' = log fr0 ++ setup_events env save_dir
         ++ phase_events train (List.length (batches 0 (ld_train ld))) m_train 0
         ++ phase_events val (List.length (batches 0 (ld_val ld))) m_val 0
         ++ (if save_due save_epoch 0 then [EvSave path (checkpoint_of 0 fr')] else [])
    /\ files fr' = (if save_due save_epoch 0
                    then <[path := checkpoint_of 0 fr']> (files fr0)
                    else files fr0).
Proof.
  intros Hperm Htrain Hval Hres Hn Hse ld path.
  rewrite train_loop_fresh by assumption.
  set (fr := set_log (log fr0 ++ setup_events env save_dir) fr0).
  destruct (phases_run ld 0 fr Hperm Htrain Hval) as (Hrun & Hlog & Hfiles & _).
  set (fr2 := fst (run_phase ld 0 val (fst (run_phase ld 0 train fr)))) in *.
  pose proof (checkpoint_decision_run save_dir (saveName cfg) save_epoch 0 fr2 Hse)
    as Hck.
  fold path in Hck.
  set (fr3 := fst (checkpoint_decision save_dir (saveName cfg) save_epoch 0 fr2)).
  assert (C3 : checkpoint_of 0 fr3 = checkpoint_of 0 fr2).
  { unfold fr3. rewrite Hck. destruct (save_due save_epoch 0); reflexivity. }
  assert (L3 : log fr3 = log fr2 ++ (if save_due save_epoch 0
                                     then [EvSave path (checkpoint_of 0 fr2)]
                                     else [])).
  { unfold fr3. rewrite Hck. destruct (save_due save_epoch 0); simpl;
      [reflexivity|rewrite app_nil_r; reflexivity]. }
  assert (F3 : files fr3 = (if save_due save_epoch 0
                            then <[path := checkpoint_of 0 fr2]> (files fr2)
                            else files fr2)).
  { unfold fr3. rewrite Hck. destruct (save_due save_epoch 0); reflexivity. }
  exists fr3, (phase_metrics ld 0 train fr),
    (phase_metrics ld 0 val (fst (run_phase ld 0 train fr))).
  rewrite C3.
  split; [|split].
  - apply first_epoch_raises; [lia|]. rewrite Hres. unfold epoch_body.
    rewrite (bind_run _ _ _ _ _ Hrun).
    unfold bind at 1. unfold fr3. rewrite Hck. reflexivity.
  - rewrite L3, Hlog. unfold fr. rewrite log_set_log, <- !app_assoc. reflexivity.
  - rewrite F3, Hfiles. reflexivity.
Qed.

Lemma val_batch_keeps {X} (f : frame -> X) b :
  (forall v fr, f (set_log v fr) = f fr) ->
  (forall v fr, f (set_grads v fr) = f fr) ->
  (forall v fr, f (set_running_loss v fr) = f fr) ->
  (forall v fr, f (set_running_corrects v fr) = f fr) ->
  steps (same f) (trainval_batch val b) /\ steps (same f) (test_batch b).
Proof.
  intros Hlog Hgrads Hloss Hcor.
  split; field_steps; apply steps_modify; intros fr; unfold same;
    first [apply Hlog|apply Hgrads|apply Hloss|apply Hcor].
Qed.

Lemma spec_totals_evaluation (body : list (Input * Z) -> M frame unit) bs :
  (forall b, steps (same model) (body b)) ->
  (forall b, steps (same training) (body b)) ->
  forall (fr : frame) (L C : Q),
    training fr = false ->
    spec_totals body bs fr L C = eval_totals (model fr) bs L C.
Proof.
  intros Hmodel Hmode. induction bs as [|b bs IH]; intros fr L C Hfr; [reflexivity|].
  simpl. rewrite IH by (rewrite (Hmode b fr); exact Hfr).
  rewrite (Hmodel b fr).
  unfold batch_loss, batch_correct, batch_outputs. rewrite Hfr. reflexivity.
Qed.

Lemma phase_metrics_val ld epoch (fr : frame) :
  phase_metrics ld epoch val fr = evaluate (model fr) epoch (ld_val ld).
Proof.
  unfold phase_metrics, evaluate.
  rewrite (spec_totals_evaluation (trainval_batch val)).
  - reflexivity.
  - intros b. apply (val_batch_keeps model b); reflexivity.
  - intros b. apply (val_batch_keeps training b); reflexivity.
  - reflexivity.
Qed.

Lemma test_metrics_evaluate ld epoch (fr : frame) :
  test_metrics ld epoch fr = evaluate (model fr) epoch (ld_test ld).
Proof.
  unfold test_metrics, evaluate.
  rewrite (spec_totals_evaluation test_batch).
  - reflexivity.
  - intros b. apply (val_batch_keeps model b); reflexivity.
  - intros b. apply (val_batch_keeps training b); reflexivity.
  - reflexivity.
Qed.

(** One epoch that runs to its end, from phase to phase. *)
Lemma epoch_body_stages ld save_dir save_name save_epoch use_test test_interval epoch
  (fr : frame) :
  shuffle_permutes ->
  dl_dataset (ld_train ld) <> [] -> dl_dataset (ld_val ld) <> [] ->
  save_epoch <> 0 ->
  (use_test = true -> test_interval <> 0 /\ dl_dataset (ld_test ld) <> []) ->
  let fr1 := fst (run_phase ld epoch train fr) in
  let path := checkpoint_path save_dir save_name epoch in
  exists fr',
    epoch_body ld save_dir save_name save_epoch use_test test_interval epoch fr
    = (fr', Ok tt)
    /\ log fr' = log fr
         ++ phase_events train (List.length (batches epoch (ld_train ld)))
                         (phase_metrics ld epoch train fr) epoch
         ++ phase_events val (List.length (batches epoch (ld_val ld)))
                         (evaluate (model fr1) epoch (ld_val ld)) epoch
         ++ (if save_due save_epoch epoch
             then [EvSave path (checkpoint_of epoch fr1)] else [])
         ++ (if test_due use_test test_interval epoch
             then test_events (List.length (batches epoch (ld_test ld)))
                              (evaluate (model fr1) epoch (ld_test ld)) epoch
             else [])
    /\ files fr' = (if save_due save_epoch epoch
                    then <[path := checkpoint_of epoch fr1]> (files fr)
                    else files fr)
    /\ model fr' = model fr1 /\ optimizer fr' = optimizer fr1
    /\ scheduler fr' = scheduler fr1.
Proof.
  intros Hperm Htrain Hval Hse Htest fr1 path.
  destruct (phases_run ld epoch fr Hperm Htrain Hval)
    as (Hrun & Hlog & Hfiles & M2 & O2).
  fold fr1 in Hrun, Hlog, Hfiles, M2, O2.
  set (fr2 := fst (run_phase ld epoch val fr1)) in *.
  assert (S2 : scheduler fr2 = scheduler fr1).
  { assert (H : steps (same scheduler) (run_phase ld epoch val)) by field_steps.
    apply H. }
  assert (C2 : checkpoint_of epoch fr2 = checkpoint_of epoch fr1).
  { unfold checkpoint_of. rewrite M2, O2. reflexivity. }
  pose proof (checkpoint_decision_run save_dir save_name save_epoch epoch fr2 Hse)
    as Hck.
  fold path in Hck. cbv zeta in Hck. rewrite C2 in Hck.
  set (fr3 := fst (checkpoint_decision save_dir save_name save_epoch epoch fr2)).
  assert (L3 : log fr3 = log fr2 ++ (if save_due save_epoch epoch
                                     then [EvSave path (checkpoint_of epoch fr1)]
                                     else [])).
  { unfold fr3. rewrite Hck. destruct (save_due save_epoch epoch); simpl;
      [reflexivity|rewrite app_nil_r; reflexivity]. }
  assert (F3 : files fr3 = (if save_due save_epoch epoch
                            then <[path := checkpoint_of epoch fr1]> (files fr2)
                            else files fr2)).
  { unfold fr3. rewrite Hck. destruct (save_due save_epoch epoch); reflexivity. }
  assert (M3 : model fr3 = model fr2 /\ optimizer fr3 = optimizer fr2
               /\ scheduler fr3 = scheduler fr2).
  { unfold fr3. rewrite Hck. destruct (save_due save_epoch epoch);
      repeat split; reflexivity. }
  destruct M3 as (M3 & O3 & S3).
  destruct (test_decision_run ld use_test test_interval epoch fr3 Hperm Htest)
    as (fr4 & H4 & L4).
  destruct (test_decision_evaluation_only ld use_test test_interval epoch fr3)
    as (M4 & O4 & F4 & _).
  unfold same in M4, O4, F4. rewrite H4 in M4, O4, F4. simpl in M4, O4, F4.
  assert (S4 : scheduler fr4 = scheduler fr3).
  { assert (H : steps (same scheduler) (test_decision ld use_test test_interval epoch))
      by field_steps.
    specialize (H fr3). rewrite H4 in H. exact H. }
  exists fr4.
  split; [|split; [|split; [|split; [|split]]]].
  - unfold epoch_body. rewrite (bind_run _ _ _ _ _ Hrun).
    unfold bind at 1. unfold fr3 in H4. rewrite Hck in H4 |- *. exact H4.
  - rewrite L4, L3, Hlog, test_metrics_evaluate, phase_metrics_val, M3, M2,
      <- !app_assoc.
    reflexivity.
  - rewrite F4, F3, Hfiles. reflexivity.
  - rewrite M4, M3, M2. reflexivity.
  - rewrite O4, O3, O2. reflexivity.
  - rewrite S4, S3, S2. reflexivity.
Qed.

(** X9. In an epoch that runs to its end, the validation metrics, the
    checkpoint and the test metrics all belong to the parameters the epoch
    ends with: the two validation metrics and the two test metrics are the
    averages of an evaluation (forward passes in evaluation mode only) of
    these parameters on the validation and on the test loader, and the
    checkpoint holds them. *)
Theorem metrics_evaluate_final_parameters ld save_dir save_name save_epoch use_test
  test_interval epoch (fr : frame) :
  shuffle_permutes ->
  dl_dataset (ld_train ld) <> [] -> dl_dataset (ld_val ld) <> [] ->
  save_epoch <> 0 ->
  (use_test = true -> test_interval <> 0 /\ dl_dataset (ld_test ld) <> []) ->
  exists fr' m_train,
    epoch_body ld save_dir save_name save_epoch use_test test_interval epoch fr
    = (fr', Ok tt)
    /\ log fr' = log fr
         ++ phase_events train (List.length (batches epoch (ld_train ld)))
                         m_train epoch
         ++ phase_events val (List.length (batches epoch (ld_val ld)))
                         (evaluate (model fr') epoch (ld_val ld)) epoch
         ++ (if save_due save_epoch epoch
             then [EvSave (checkpoint_path save_dir save_name epoch)
                          {| ck_epoch := epoch + 1; ck_state_dict := model fr';
                             ck_opt_dict := optimizer fr' |}]
             else [])
         ++ (if test_due use_test test_interval epoch
             then test_events (List.length (batches epoch (ld_test ld)))
                              (evaluate (model fr') epoch (ld_test ld)) epoch
             else []).
Proof.
  intros Hperm Htrain Hval Hse Htest.
  destruct (epoch_body_stages ld save_dir save_name save_epoch use_test test_interval
              epoch fr Hperm Htrain Hval Hse Htest)
    as (fr' & Hrun & Hlog & _ & Hm & Ho & _).
  exists fr', (phase_metrics ld epoch train fr).
  split; [exact Hrun|].
  rewrite Hlog, Hm, Ho. reflexivity.
Qed.

(** Once the model is in evaluation mode it stays there until [model.train()]
    is called. *)
#[local] Instance stays_eval_pre :
  PreOrder (fun fr fr' : frame => training fr = false -> training fr' = false).
Proof.
  split.
  - intros fr H. exact H.
  - intros a b c H1 H2 H. apply H2, H1, H.
Qed.

Lemma end_of_epoch_mode ld save_dir save_name save_epoch use_test test_interval epoch :
  steps (fun fr fr' : frame => training fr = false -> training fr' = false)
        (bind (checkpoint_decision save_dir save_name save_epoch epoch)
              (fun _ => test_decision ld use_test test_interval epoch)).
Proof.
  unfold checkpoint_decision, save_checkpoint.
  field_steps; apply steps_modify; intros fr H; first [exact H|reflexivity].
Qed.

Lemma val_phase_mode ld epoch (fr : frame) :
  trainval_sizes ld val <> 0 -> batches epoch (trainval_loaders ld val) <> [] ->
  training (fst (run_phase ld epoch val fr)) = false.
Proof.
  intros Hsize Hbs.
  destruct (run_phase_run ld epoch val fr Hsize Hbs) as (fr' & Hrun & _ & Hfr).
  rewrite Hrun. simpl fst. rewrite Hfr.
  change (training (set_log ?v ?f)) with (training f).
  assert (H : steps (same training)
                    (for_each (batches epoch (trainval_loaders ld val))
                              (trainval_batch val))).
  { apply steps_for_each; [typeclasses eauto|]. intros b.
    apply (val_batch_keeps training b); reflexivity. }
  rewrite (H (loop_start val fr)). reflexivity.
Qed.

Lemma epoch_body_mode ld save_dir save_name save_epoch use_test test_interval epoch
  (fr : frame) :
  shuffle_permutes ->
  dl_dataset (ld_train ld) <> [] -> dl_dataset (ld_val ld) <> [] ->
  training (fst (epoch_body ld save_dir save_name save_epoch use_test test_interval
                            epoch fr))
  = false.
Proof.
  intros Hperm Htrain Hval.
  destruct (phases_run ld epoch fr Hperm Htrain Hval) as (Hrun & _).
  unfold epoch_body. rewrite (bind_run _ _ _ _ _ Hrun).
  apply (end_of_epoch_mode ld save_dir save_name save_epoch use_test test_interval epoch).
  apply val_phase_mode.
  - apply (dataset_len_nonzero _ Hval).
  - apply (batches_nonempty epoch _ Hperm Hval).
Qed.

(** C2. In an epoch that runs to its end, when [useTest] holds and
    [epoch % test_interval == test_interval - 1] there is exactly one pass
    over the test loader: the model is switched to evaluation mode, the
    loader is iterated once, every forward pass runs without gradient
    tracking, and one test loss and one test accuracy are written for step
    [epoch].  The two metrics are the averages of an evaluation of the
    parameters the epoch ends with, that is, of forward passes in evaluation
    mode, and the model is in evaluation mode when the epoch ends.
    Otherwise the epoch iterates the test loader not at all and writes no
    test metric. *)
Theorem test_pass_when_due ld save_dir save_name save_epoch use_test
  test_interval epoch (fr : frame) :
  shuffle_permutes ->
  dl_dataset (ld_train ld) <> [] -> dl_dataset (ld_val ld) <> [] ->
  save_epoch <> 0 ->
  (use_test = true -> test_interval <> 0 /\ dl_dataset (ld_test ld) <> []) ->
  exists fr' before,
    epoch_body ld save_dir save_name save_epoch use_test test_interval epoch fr
    = (fr', Ok tt)
    /\ log fr' = log fr ++ before
                 ++ (if use_test && (epoch mod test_interval =? test_interval - 1)
                     then [EvEval; EvIter test_dataloader]
                          ++ List.repeat (EvForward false)
                                         (List.length (batches epoch (ld_test ld)))
                          ++ [EvScalar "data/test_loss_epoch"
                                       (fst (evaluate (model fr') epoch (ld_test ld)))
                                       epoch;
                              EvScalar "data/test_acc_epoch"
                                       (snd (evaluate (model fr') epoch (ld_test ld)))
                                       epoch]
                     else [])
    /\ Forall (fun e => ~ test_event e) before
    /\ training fr' = false.
Proof.
  intros Hperm Htrain Hval Hse Htest.
  destruct (epoch_body_stages ld save_dir save_name save_epoch use_test test_interval
              epoch fr Hperm Htrain Hval Hse Htest)
    as (fr' & Hrun & Hlog & _ & Hm & _).
  pose proof (epoch_body_mode ld save_dir save_name save_epoch use_test test_interval
                epoch fr Hperm Htrain Hval) as Hmode.
  rewrite Hrun in Hmode. simpl in Hmode.
  set (fr1 := fst (run_phase ld epoch train fr)) in *.
  exists fr',
    (phase_events train (List.length (batches epoch (ld_train ld)))
                  (phase_metrics ld epoch train fr) epoch
     ++ phase_events val (List.length (batches epoch (ld_val ld)))
                     (evaluate (model fr1) epoch (ld_val ld)) epoch
     ++ (if save_due save_epoch epoch
         then [EvSave (checkpoint_path save_dir save_name epoch)
                      (checkpoint_of epoch fr1)]
         else [])).
  split; [exact Hrun|]. split; [|split; [|exact Hmode]].
  - rewrite Hlog, Hm, <- !app_assoc. do 4 f_equal.
    unfold test_due, test_events.
    destruct (use_test && (epoch mod test_interval =? test_interval - 1));
      [|reflexivity].
    do 2 f_equal. apply concat_repeat_singleton.
  - apply Forall_app; split; [apply phase_events_not_test|].
    apply Forall_app; split; [apply phase_events_not_test|].
    destruct (save_due save_epoch epoch);
      [apply List.Forall_cons; [simpl; tauto|apply List.Forall_nil]
      |apply List.Forall_nil].
Qed.

Lemma calls_app c (l1 l2 : list event) :
  calls c (l1 ++ l2) = (calls c l1 + calls c l2)%nat.
Proof. unfold calls. rewrite List.filter_app, List.length_app. reflexivity. Qed.

Lemma calls_nil c : calls c [] = 0%nat.
Proof. reflexivity. Qed.

Lemma calls_cons c (e : event) (l : list event) :
  calls c (e :: l) = ((if is_call c e then 1 else 0) + calls c l)%nat.
Proof. unfold calls. simpl. destruct (is_call c e); reflexivity. Qed.

Lemma calls_repeat c (l : list event) (n : nat) :
  calls c (List.concat (List.repeat l n)) = (n * calls c l)%nat.
Proof.
  induction n as [|n IH]; [reflexivity|].
  simpl. rewrite calls_app, IH. reflexivity.
Qed.

Lemma calls_phase c ph n m epoch :
  calls c (phase_events ph n m epoch)
  = (calls c (prelude_events ph) + n * calls c (batch_events ph))%nat.
Proof.
  unfold phase_events. rewrite !calls_app, calls_repeat.
  assert (H : calls c [EvScalar (loss_tag ph) (fst m) epoch;
                       EvScalar (acc_tag ph) (snd m) epoch] = 0%nat)
    by (destruct c; reflexivity).
  rewrite H. lia.
Qed.

Lemma calls_test c n m epoch :
  calls c (test_events n m epoch) = (n * calls c [EvForward false])%nat.
Proof.
  unfold test_events. rewrite !calls_app, calls_repeat.
  assert (H1 : calls c [EvEval; EvIter test_dataloader] = 0%nat)
    by (destruct c; reflexivity).
  assert (H2 : calls c [EvScalar "data/test_loss_epoch" (fst m) epoch;
                        EvScalar "data/test_acc_epoch" (snd m) epoch] = 0%nat)
    by (destruct c; reflexivity).
  rewrite H1, H2. lia.
Qed.

Lemma calls_save c (b : bool) path (ck : checkpoint Params OptState) :
  calls c (if b then [EvSave path ck] else []) = 0%nat.
Proof. destruct b, c; reflexivity. Qed.

(** The training phase steps the scheduler once, before its batches. *)
Lemma train_phase_scheduler ld epoch (fr : frame) :
  trainval_sizes ld train <> 0 -> batches epoch (trainval_loaders ld train) <> [] ->
  scheduler (fst (run_phase ld epoch train fr))
  = fst (scheduler_step (scheduler fr) (optimizer fr)).
Proof.
  intros Hsize Hbs.
  destruct (run_phase_run ld epoch train fr Hsize Hbs) as (fr' & Hrun & _ & Hfr).
  rewrite Hrun. simpl fst. rewrite Hfr.
  change (scheduler (set_log ?v ?f)) with (scheduler f).
  assert (H : steps (same scheduler)
                    (for_each (batches epoch (trainval_loaders ld train))
                              (trainval_batch train))).
  { apply steps_for_each; [typeclasses eauto|]. intros b. field_steps. }
  rewrite (H (loop_start train fr)). reflexivity.
Qed.

(** X10. In an epoch that runs to its end the scheduler is stepped once,
    as the first call of the epoch and so before the first step of the
    optimizer; there is one forward pass with gradients, one backward pass
    and one optimizer step per training batch, gradients are cleared once
    per training and per validation batch and not in the test pass, and
    every forward pass of validation and test runs without gradients. *)
Theorem calls_of_an_epoch ld save_dir save_name save_epoch use_test test_interval
  epoch (fr : frame) :
  shuffle_permutes ->
  dl_dataset (ld_train ld) <> [] -> dl_dataset (ld_val ld) <> [] ->
  save_epoch <> 0 ->
  (use_test = true -> test_interval <> 0 /\ dl_dataset (ld_test ld) <> []) ->
  let nt := List.length (batches epoch (ld_train ld)) in
  let nv := List.length (batches epoch (ld_val ld)) in
  let ns := if test_due use_test test_interval epoch
            then List.length (batches epoch (ld_test ld)) else 0%nat in
  exists fr' evs,
    epoch_body ld save_dir save_name save_epoch use_test test_interval epoch fr
    = (fr', Ok tt)
    /\ log fr' = log fr ++ EvSchedulerStep :: evs
    /\ scheduler fr' = fst (scheduler_step (scheduler fr) (optimizer fr))
    /\ calls SchedulerStepCall evs = 0%nat
    /\ calls OptimizerStepCall evs = nt
    /\ calls BackwardCall evs = nt
    /\ calls GradForwardCall evs = nt
    /\ calls ZeroGradCall evs = (nt + nv)%nat
    /\ calls NoGradForwardCall evs = (nv + ns)%nat.
Proof.
  intros Hperm Htrain Hval Hse Htest nt nv ns.
  destruct (epoch_body_stages ld save_dir save_name save_epoch use_test test_interval
              epoch fr Hperm Htrain Hval Hse Htest)
    as (fr' & Hrun & Hlog & _ & _ & _ & Hsched).
  set (fr1 := fst (run_phase ld epoch train fr)) in *.
  fold nt nv in Hlog.
  set (T := phase_events train nt (phase_metrics ld epoch train fr) epoch) in *.
  set (V := phase_events val nv (evaluate (model fr1) epoch (ld_val ld)) epoch) in *.
  set (Sv := if save_due save_epoch epoch
            then [EvSave (checkpoint_path save_dir save_name epoch)
                         (checkpoint_of epoch fr1)]
            else []) in *.
  set (E := if test_due use_test test_interval epoch
            then test_events (List.length (batches epoch (ld_test ld)))
                             (evaluate (model fr1) epoch (ld_test ld)) epoch
            else []) in *.
  assert (HT : forall c, ((if is_call c (EvSchedulerStep : event) then 1 else 0)
                          + calls c (List.tl T)
                          = calls c (prelude_events train)
                            + nt * calls c (batch_events train))%nat).
  { intros c. rewrite <- (calls_phase c train nt (phase_metrics ld epoch train fr) epoch).
    destruct c; reflexivity. }
  assert (HV : forall c, calls c V
                         = (calls c (prelude_events val)
                            + nv * calls c (batch_events val))%nat).
  { intros c. apply calls_phase. }
  assert (HS : forall c, calls c Sv = 0%nat) by (intros c; apply calls_save).
  assert (HE : forall c, calls c E = (ns * calls c [EvForward false])%nat).
  { intros c. unfold E, ns. destruct (test_due use_test test_interval epoch);
      [apply calls_test|reflexivity]. }
  assert (Hall : forall c, ((if is_call c (EvSchedulerStep : event) then 1 else 0)
                            + calls c (List.tl T ++ V ++ Sv ++ E)
                            = calls c (prelude_events train)
                              + nt * calls c (batch_events train)
                              + calls c (prelude_events val)
                              + nv * calls c (batch_events val)
                              + ns * calls c [EvForward false])%nat).
  { intros c. rewrite !calls_app, HV, HS, HE. specialize (HT c). lia. }
  exists fr', (List.tl T ++ V ++ Sv ++ E).
  split; [exact Hrun|]. split; [exact Hlog|]. split.
  { rewrite Hsched. apply train_phase_scheduler.
    - apply (dataset_len_nonzero _ Htrain).
    - apply (batches_nonempty epoch _ Hperm Htrain). }
  clearbody nt nv ns T V Sv E.
  repeat split.
  - specialize (Hall SchedulerStepCall).
    simpl in Hall. rewrite ?calls_cons, ?calls_nil in Hall. simpl in Hall. lia.
  - specialize (Hall OptimizerStepCall).
    simpl in Hall. rewrite ?calls_cons, ?calls_nil in Hall. simpl in Hall. lia.
  - specialize (Hall BackwardCall).
    simpl in Hall. rewrite ?calls_cons, ?calls_nil in Hall. simpl in Hall. lia.
  - specialize (Hall GradForwardCall).
    simpl in Hall. rewrite ?calls_cons, ?calls_nil in Hall. simpl in Hall. lia.
  - specialize (Hall ZeroGradCall).
    simpl in Hall. rewrite ?calls_cons, ?calls_nil in Hall. simpl in Hall. lia.
  - specialize (Hall NoGradForwardCall).
    simpl in Hall. rewrite ?calls_cons, ?calls_nil in Hall. simpl in Hall. lia.
Qed.

(** The frame in which the loop over the epochs starts. *)
Lemma train_loop_starts cfg env dataset_arg save_dir num_epochs save_epoch use_test
  test_interval (fr0 : frame) :
  VideoDataset dataset_arg "train" <> [] ->
  resume_epoch cfg = 0
  \/ is_Some (files fr0 !! checkpoint_path save_dir (saveName cfg)
                                           (resume_epoch cfg - 1)) ->
  exists fr,
    train_loop cfg env dataset_arg save_dir num_epochs save_epoch use_test
               test_interval fr0
    = bind (epochs_loop cfg dataset_arg save_dir num_epochs save_epoch use_test
                        test_interval)
           (fun _ => emit EvClose) fr
    /\ files fr = files fr0
    /\ log fr = log fr0
         ++ (if resume_epoch cfg =? 0 then []
             else [EvLoad (checkpoint_path save_dir (saveName cfg)
                                           (resume_epoch cfg - 1))])
         ++ setup_events env save_dir.
Proof.
  intros Htrain H. destruct (Z.eq_dec (resume_epoch cfg) 0) as [Hres|Hres].
  - eexists. split; [apply train_loop_fresh; assumption|].
    split; [reflexivity|].
    apply Z.eqb_eq in Hres. rewrite Hres. reflexivity.
  - destruct H as [H|[ck Hck]]; [contradiction|].
    eexists. split; [apply (train_loop_resumed _ _ _ _ _ _ _ _ _ ck Htrain Hres Hck)|].
    split; [reflexivity|].
    apply Z.eqb_neq in Hres. rewrite Hres. reflexivity.
Qed.

(** X11. With no epoch left to train ([num_epochs <= resume_epoch]) and a
    training set that holds an example (the training loader cannot be built
    without one) the run returns at once: apart from the optional restore it
    constructs the writer and the loaders and closes the writer, iterates no
    loader, and leaves the files alone.  The validation and the test set
    need not hold an example for this. *)
Theorem nothing_left_to_train cfg env dataset_arg save_dir num_epochs save_epoch
  use_test test_interval (fr0 : frame) :
  VideoDataset dataset_arg "train" <> [] ->
  num_epochs <= resume_epoch cfg ->
  resume_epoch cfg = 0
  \/ is_Some (files fr0 !! checkpoint_path save_dir (saveName cfg)
                                           (resume_epoch cfg - 1)) ->
  exists fr',
    train_loop cfg env dataset_arg save_dir num_epochs save_epoch use_test
               test_interval fr0
    = (fr', Ok tt)
    /\ files fr' = files fr0
    /\ log fr' = log fr0
         ++ (if resume_epoch cfg =? 0 then []
             else [EvLoad (checkpoint_path save_dir (saveName cfg)
                                           (resume_epoch cfg - 1))])
         ++ setup_events env save_dir ++ [EvClose].
Proof.
  intros Htrain Hn H.
  destruct (train_loop_starts cfg env dataset_arg save_dir num_epochs save_epoch
              use_test test_interval fr0 Htrain H) as (fr & Hrun & Hfiles & Hlog).
  exists (set_log (log fr ++ [EvClose]) fr).
  split; [|split].
  - rewrite Hrun. unfold epochs_loop. rewrite range_empty by exact Hn. reflexivity.
  - exact Hfiles.
  - rewrite log_set_log, Hlog, <- !app_assoc. reflexivity.
Qed.

(** X14. A training set without examples ends the run where the training
    loader is built ([shuffle=True]): [ValueError], after the optional
    restore and the construction of the writer, before the other loaders
    are built and before any epoch; the files are left alone and the writer
    is not closed. *)
Theorem empty_training_set_is_fatal cfg env dataset_arg save_dir num_epochs
  save_epoch use_test test_interval (fr0 : frame) :
  VideoDataset dataset_arg "train" = [] ->
  resume_epoch cfg = 0
  \/ is_Some (files fr0 !! checkpoint_path save_dir (saveName cfg)
                                           (resume_epoch cfg - 1)) ->
  exists fr',
    train_loop cfg env dataset_arg save_dir num_epochs save_epoch use_test
               test_interval fr0
    = (fr', Raise ValueError)
    /\ files fr' = files fr0
    /\ log fr' = log fr0
         ++ (if resume_epoch cfg =? 0 then []
             else [EvLoad (checkpoint_path save_dir (saveName cfg)
                                           (resume_epoch cfg - 1))])
         ++ [EvNew (RWriter (Py.join save_dir ["models"; stamp env]))].
Proof.
  intros Htrain H. unfold train_loop.
  destruct (Z.eq_dec (resume_epoch cfg) 0) as [Hres|Hres].
  - replace (resume_epoch cfg =? 0) with true by (symmetry; apply Z.eqb_eq; exact Hres).
    rewrite bind_ret, bind_emit.
    eexists. split; [apply bind_raise; apply make_loaders_empty; exact Htrain|].
    split; reflexivity.
  - destruct H as [H|[ck Hck]]; [contradiction|].
    apply Z.eqb_neq in Hres. rewrite Hres.
    rewrite (bind_run _ _ _ _ _ (load_checkpoint_run _ ck fr0 Hck)), bind_emit.
    eexists. split; [apply bind_raise; apply make_loaders_empty; exact Htrain|].
    split; [reflexivity|].
    rewrite log_set_log, log_restored, log_set_log, <- !app_assoc. reflexivity.
Qed.

Lemma epochs_files ld save_dir save_name save_epoch use_test test_interval
  (es : list Z) (fr : frame) :
  shuffle_permutes ->
  dl_dataset (ld_train ld) <> [] -> dl_dataset (ld_val ld) <> [] ->
  save_epoch <> 0 ->
  (use_test = true -> test_interval <> 0 /\ dl_dataset (ld_test ld) <> []) ->
  exists fr',
    for_each es (epoch_body ld save_dir save_name save_epoch use_test test_interval) fr
    = (fr', Ok tt)
    /\ (forall e, In e es -> save_due save_epoch e = true ->
          exists ck, files fr' !! checkpoint_path save_dir save_name e = Some ck
                     /\ ck_epoch ck = e + 1)
    /\ (forall p,
          (forall e, In e es -> save_due save_epoch e = true ->
                     p <> checkpoint_path save_dir save_name e) ->
          files fr' !! p = files fr !! p).
Proof.
  intros Hperm Htrain Hval Hse Htest. revert fr.
  induction es as [|e0 es IH]; intros fr.
  - exists fr. split; [reflexivity|]. split; [intros e []|reflexivity].
  - destruct (epoch_body_run ld save_dir save_name save_epoch use_test test_interval
                e0 fr Hperm Htrain Hval Hse Htest)
      as (fr1 & m & Hrun & _ & Hfiles & _).
    destruct (IH fr1) as (fr' & Hrest & Hdue & Hother).
    exists fr'. split; [|split].
    + simpl. rewrite (bind_run _ _ _ _ _ Hrun). exact Hrest.
    + intros e He Hd. destruct (in_dec Z.eq_dec e es) as [Hin|Hnin].
      * apply Hdue; assumption.
      * destruct He as [<-|He]; [|contradiction].
        rewrite Hother.
        -- rewrite Hfiles, Hd, lookup_insert_eq. eexists. split; reflexivity.
        -- intros e' He' _ Heq. apply checkpoint_path_inj in Heq. subst e'.
           contradiction.
    + intros p Hp. rewrite Hother.
      * rewrite Hfiles. destruct (save_due save_epoch e0) eqn:Hd; [|reflexivity].
        apply lookup_insert_ne. intros Heq. apply (Hp e0); [left; reflexivity|exact Hd|].
        symmetry. exact Heq.
      * intros e He Hd. apply Hp; [right; exact He|exact Hd].
Qed.

(** X12. After a run that trains the epochs [resume_epoch], ...,
    [num_epochs - 1], every due epoch of this range has its checkpoint on
    disk, holding the epoch index plus one, and every other path holds what
    it held before the run. *)
Theorem due_checkpoints_on_disk cfg env dataset_arg save_dir num_epochs save_epoch
  use_test test_interval (fr0 : frame) :
  shuffle_permutes ->
  VideoDataset dataset_arg "train" <> [] -> VideoDataset dataset_arg "val" <> [] ->
  save_epoch <> 0 ->
  (use_test = true -> test_interval <> 0 /\ VideoDataset dataset_arg "test" <> []) ->
  resume_epoch cfg = 0
  \/ is_Some (files fr0 !! checkpoint_path save_dir (saveName cfg)
                                           (resume_epoch cfg - 1)) ->
  exists fr',
    train_loop cfg env dataset_arg save_dir num_epochs save_epoch use_test
               test_interval fr0
    = (fr', Ok tt)
    /\ (forall e, resume_epoch cfg <= e < num_epochs -> save_due save_epoch e = true ->
          exists ck,
            files fr' !! checkpoint_path save_dir (saveName cfg) e = Some ck
            /\ ck_epoch ck = e + 1)
    /\ (forall p,
          (forall e, resume_epoch cfg <= e < num_epochs ->
                     save_due save_epoch e = true ->
                     p <> checkpoint_path save_dir (saveName cfg) e) ->
          files fr' !! p = files fr0 !! p).
Proof.
  intros Hperm Htrain Hval Hse Htest H.
  destruct (train_loop_starts cfg env dataset_arg save_dir num_epochs save_epoch
              use_test test_interval fr0 Htrain H) as (fr & Hrun & Hfiles & _).
  destruct (epochs_files (loaders_of cfg dataset_arg) save_dir (saveName cfg)
              save_epoch use_test test_interval
              (Py.range (resume_epoch cfg) num_epochs) fr
              Hperm Htrain Hval Hse Htest)
    as (fr' & Hloop & Hdue & Hother).
  exists (set_log (log fr' ++ [EvClose]) fr').
  split; [|split].
  - rewrite Hrun. unfold epochs_loop. rewrite (bind_run _ _ _ _ _ Hloop). reflexivity.
  - intros e He Hd. apply Hdue; [apply range_In; exact He|exact Hd].
  - intros p Hp. change (files (set_log ?v ?f)) with (files f).
    rewrite Hother, Hfiles; [reflexivity|].
    intros e He. apply Hp. apply range_In. exact He.
Qed.

Lemma range_app (a c b : Z) :
  a <= c <= b -> Py.range a b = Py.range a c ++ Py.range c b.
Proof.
  intros H. remember (Z.to_nat (c - a)) as k eqn:Hk. revert a H Hk.
  induction k as [|k IH]; intros a H Hk.
  - assert (a = c) by lia. subst a. rewrite (range_empty c c) by lia. reflexivity.
  - rewrite (range_cons a b), (range_cons a c) by lia.
    rewrite (IH (a + 1)) by lia. reflexivity.
Qed.

Lemma range_snoc (a e : Z) : a <= e -> Py.range a (e + 1) = Py.range a e ++ [e].
Proof.
  intros H. rewrite (range_app a e (e + 1)) by lia.
  rewrite (range_cons e (e + 1)), (range_empty (e + 1) (e + 1)) by lia. reflexivity.
Qed.

(** X13. Save and resume at the level of the script.  A run from scratch
    writes, at the end of a due epoch [e], a checkpoint that is still on
    disk when the run has returned.  A second run of the script with
    [resume_epoch = e + 1], whose module level resolves the run directory of
    the first run, loads this checkpoint: its loop over the epochs starts
    with the parameters and the optimizer state the first run had at the end
    of epoch [e], and with the scheduler it has just built, the state of the
    scheduler not being part of a checkpoint. *)
Theorem save_then_resume cfg env env' g g' a (w : world) e :
  shuffle_permutes ->
  VideoDataset (dataset cfg) "train" <> [] -> VideoDataset (dataset cfg) "val" <> [] ->
  snapshot cfg <> 0 ->
  (useTest cfg = true ->
   nTestInterval cfg <> 0 /\ VideoDataset (dataset cfg) "test" <> []) ->
  resume_epoch cfg = 0 ->
  module_level cfg env = Ok g -> model_of (modelName cfg) = Some a ->
  0 <= e < nEpochs cfg -> save_due (snapshot cfg) e = true ->
  module_level (resumed cfg (e + 1)) env' = Ok g' ->
  g_save_dir g' = g_save_dir g ->
  let body := epoch_body (loaders_of cfg (dataset cfg)) (g_save_dir g) (saveName cfg)
                         (snapshot cfg) (useTest cfg) (nTestInterval cfg) in
  let fr0 := initial_frame w a (g_num_classes g) (lr cfg) in
  let fr_e := fst (for_each (Py.range 0 (e + 1)) body
                            (set_log (log fr0 ++ setup_events env (g_save_dir g)) fr0)) in
  let path := checkpoint_path (g_save_dir g) (saveName cfg) e in
  let w1 := fst (main cfg env w) in
  snd (main cfg env w) = Ok tt
  /\ w_files w1 !! path = Some (checkpoint_of e fr_e)
  /\ exists fr2,
       main (resumed cfg (e + 1)) env' w1
       = (world_of (fst (bind (epochs_loop (resumed cfg (e + 1)) (dataset cfg)
                                           (g_save_dir g) (nEpochs cfg) (snapshot cfg)
                                           (useTest cfg) (nTestInterval cfg))
                              (fun _ => emit EvClose) fr2)),
          snd (bind (epochs_loop (resumed cfg (e + 1)) (dataset cfg)
                                 (g_save_dir g) (nEpochs cfg) (snapshot cfg)
                                 (useTest cfg) (nTestInterval cfg))
                    (fun _ => emit EvClose) fr2))
       /\ model fr2 = model fr_e /\ optimizer fr2 = optimizer fr_e
       /\ scheduler fr2
          = fst (step_lr (adam (new_model a (g_num_classes g')) (lr cfg)))
       /\ files fr2 = w_files w1
       /\ log fr2 = w_log w1
            ++ [EvNew (RModel a); EvNew RCriterion; EvNew ROptimizer; EvNew RScheduler]
            ++ EvLoad path :: setup_events env' (g_save_dir g).
Proof.
  intros Hperm Htrain Hval Hse Htest Hres Hmod Hmodel He Hdue Hmod' Hdir
         body fr0 fr_e path w1.
  set (frS := set_log (log fr0 ++ setup_events env (g_save_dir g)) fr0) in *.
  (* the epochs before [e] *)
  destruct (epochs_files (loaders_of cfg (dataset cfg)) (g_save_dir g) (saveName cfg)
              (snapshot cfg) (useTest cfg) (nTestInterval cfg) (Py.range 0 e) frS
              Hperm Htrain Hval Hse Htest) as (frB & HB & _).
  fold body in HB.
  (* epoch [e] *)
  destruct (epoch_body_stages (loaders_of cfg (dataset cfg)) (g_save_dir g)
              (saveName cfg) (snapshot cfg) (useTest cfg) (nTestInterval cfg) e frB
              Hperm Htrain Hval Hse Htest)
    as (frE & HE & _ & HfilesE & HmE & HoE & _).
  fold body path in HE, HfilesE. rewrite Hdue in HfilesE.
  set (fr1 := fst (run_phase (loaders_of cfg (dataset cfg)) e train frB)) in *.
  assert (Hck : checkpoint_of e fr1 = checkpoint_of e frE).
  { unfold checkpoint_of. rewrite HmE, HoE. reflexivity. }
  rewrite Hck in HfilesE.
  assert (Hfr_e : for_each (Py.range 0 (e + 1)) body frS = (frE, Ok tt)).
  { rewrite range_snoc by lia. rewrite for_each_app, (bind_run _ _ _ _ _ HB).
    simpl. rewrite (bind_run _ _ _ _ _ HE). reflexivity. }
  assert (Efr_e : fr_e = frE) by (unfold fr_e; rewrite Hfr_e; reflexivity).
  (* the epochs after [e] *)
  destruct (epochs_files (loaders_of cfg (dataset cfg)) (g_save_dir g) (saveName cfg)
              (snapshot cfg) (useTest cfg) (nTestInterval cfg)
              (Py.range (e + 1) (nEpochs cfg)) frE
              Hperm Htrain Hval Hse Htest) as (frF & HF & _ & Hother).
  fold body in HF.
  assert (HfileF : files frF !! path = Some (checkpoint_of e frE)).
  { rewrite Hother.
    - rewrite HfilesE. apply lookup_insert_eq.
    - intros e' He' _ Heq. apply checkpoint_path_inj in Heq.
      apply range_In in He'. lia. }
  (* the first run *)
  assert (Hmain : main cfg env w
                  = (world_of (set_log (log frF ++ [EvClose]) frF), Ok tt)).
  { assert (Hloop1 : train_loop cfg env (dataset cfg) (g_save_dir g) (nEpochs cfg)
                                (snapshot cfg) (useTest cfg) (nTestInterval cfg) fr0
                     = (set_log (log frF ++ [EvClose]) frF, Ok tt)).
    { rewrite train_loop_fresh by assumption. fold frS.
      unfold epochs_loop. rewrite Hres. fold body.
      rewrite (range_app 0 (e + 1) (nEpochs cfg)) by lia.
      unfold bind at 1. rewrite for_each_app, (bind_run _ _ _ _ _ Hfr_e), HF.
      reflexivity. }
    unfold main. rewrite Hmod. unfold train_model. rewrite Hmodel.
    fold fr0. rewrite Hloop1. reflexivity. }
  assert (Hw1 : w1 = world_of (set_log (log frF ++ [EvClose]) frF))
    by (unfold w1; rewrite Hmain; reflexivity).
  split; [rewrite Hmain; reflexivity|].
  split; [rewrite Hw1, Efr_e; exact HfileF|].
  (* the second run *)
  set (fr0' := initial_frame w1 a (g_num_classes g') (lr cfg)).
  assert (Hfile' : files fr0' !! checkpoint_path (g_save_dir g)
                                  (saveName (resumed cfg (e + 1)))
                                  (resume_epoch (resumed cfg (e + 1)) - 1)
                   = Some (checkpoint_of e frE)).
  { change (saveName (resumed cfg (e + 1))) with (saveName cfg).
    change (resume_epoch (resumed cfg (e + 1))) with (e + 1).
    replace (e + 1 - 1) with e by lia.
    change (files fr0') with (w_files w1). rewrite Hw1. exact HfileF. }
  assert (Hne : resume_epoch (resumed cfg (e + 1)) <> 0).
  { change (resume_epoch (resumed cfg (e + 1))) with (e + 1). lia. }
  pose proof (train_loop_resumed (resumed cfg (e + 1)) env' (dataset cfg) (g_save_dir g)
                (nEpochs cfg) (snapshot cfg) (useTest cfg) (nTestInterval cfg) fr0'
                (checkpoint_of e frE) Htrain Hne Hfile') as Hloop.
  eexists. split.
  { unfold main. rewrite Hmod'. unfold train_model.
    change (modelName (resumed cfg (e + 1))) with (modelName cfg). rewrite Hmodel.
    change (dataset (resumed cfg (e + 1))) with (dataset cfg).
    change (lr (resumed cfg (e + 1))) with (lr cfg).
    change (nEpochs (resumed cfg (e + 1))) with (nEpochs cfg).
    change (snapshot (resumed cfg (e + 1))) with (snapshot cfg).
    change (useTest (resumed cfg (e + 1))) with (useTest cfg).
    change (nTestInterval (resumed cfg (e + 1))) with (nTestInterval cfg).
    rewrite Hdir. fold fr0'. rewrite Hloop. reflexivity. }
  rewrite Efr_e.
  change (saveName (resumed cfg (e + 1))) with (saveName cfg).
  change (resume_epoch (resumed cfg (e + 1))) with (e + 1).
  replace (e + 1 - 1) with e by lia. fold path.
  split; [reflexivity|]. split; [reflexivity|]. split; [reflexivity|].
  split; [reflexivity|].
  rewrite log_set_log. unfold fr0', initial_frame. cbn [log].
  rewrite <- !app_assoc. reflexivity.
Qed.


End RunFacts.

(** ** The further properties on the small runtime *)

Lemma files_set_files {Params OptState Grads SchedState : Type}
  (v : gmap string (checkpoint Params OptState))
  (fr : frame Params OptState Grads SchedState) :
  files (set_files v fr) = v.
Proof. reflexivity. Qed.

(** The shipped constants: twenty epochs, a checkpoint every fiftieth. *)
Lemma no_checkpoint_before_first_snapshot_witness :
  w_files (fst (main (R := toy) shipped empty_env empty_world)) = w_files empty_world
  /\ exists evs,
       w_log (fst (main (R := toy) shipped empty_env empty_world))
       = (w_log empty_world ++ evs)%list
       /\ Forall not_save evs.
Proof.
  apply (no_checkpoint_before_first_snapshot (R := toy) shipped empty_env empty_world).
  right. simpl. lia.
Defined.

(** The scenario with a checkpoint interval of zero. *)
Lemma zero_snapshot_is_fatal_witness :
  exists fr' m_train m_val,
    train_loop (R := toy) scenario empty_env "ucf101" "/run" 3 0 true 3 toy_frame
    = (fr', Raise ZeroDivisionError)
    /\ log fr' = (log toy_frame ++ setup_events empty_env "/run"
                  ++ phase_events train 2 m_train 0
                  ++ phase_events val 1 m_val 0)%list
    /\ files fr' = files toy_frame.
Proof.
  apply (zero_snapshot_is_fatal (R := toy) scenario empty_env "ucf101" "/run" 3 true 3
           toy_frame toy_shuffle_permutes).
  - discriminate.
  - discriminate.
  - reflexivity.
  - lia.
Defined.

(** The scenario with a checkpoint at every epoch and a test interval of
    zero: the checkpoint of epoch 0 is on disk when the run ends. *)
Lemma zero_test_interval_is_fatal_witness :
  exists fr' m_train m_val,
    train_loop (R := toy) scenario empty_env "ucf101" "/run" 3 1 true 0 toy_frame
    = (fr', Raise ZeroDivisionError)
    /\ log fr' = (log toy_frame ++ setup_events empty_env "/run"
                  ++ phase_events train 2 m_train 0
                  ++ phase_events val 1 m_val 0
                  ++ [EvSave "/run/models/simple_vit_3d-ucf101_epoch-0.pth.tar"
                             (checkpoint_of 0 fr')])%list
    /\ files fr' = <["/run/models/simple_vit_3d-ucf101_epoch-0.pth.tar" :=
                       checkpoint_of 0 fr']> (files toy_frame).
Proof.
  apply (zero_test_interval_is_fatal (R := toy) scenario empty_env "ucf101" "/run" 3 1
           toy_frame toy_shuffle_permutes).
  - discriminate.
  - discriminate.
  - reflexivity.
  - lia.
  - discriminate.
Defined.

(** Epoch 1 of the scenario: a checkpoint, no test pass. *)
Lemma metrics_evaluate_final_parameters_witness :
  exists fr' m_train,
    epoch_body (R := toy) toy_loaders "/run" "simple_vit_3d-ucf101" 2 true 3 1 toy_frame
    = (fr', Ok tt)
    /\ log fr' = (log toy_frame
                  ++ phase_events train 2 m_train 1
                  ++ phase_events val 1 (evaluate (model fr') 1 (ld_val toy_loaders)) 1
                  ++ [EvSave "/run/models/simple_vit_3d-ucf101_epoch-1.pth.tar"
                             {| ck_epoch := 2; ck_state_dict := model fr';
                                ck_opt_dict := optimizer fr' |}]
                  ++ [])%list.
Proof.
  apply (metrics_evaluate_final_parameters (R := toy) toy_loaders "/run"
           "simple_vit_3d-ucf101" 2 true 3 1 toy_frame toy_shuffle_permutes).
  - discriminate.
  - discriminate.
  - discriminate.
  - intros _. split; discriminate.
Defined.

(** Epoch 2 of the scenario: two training batches, one validation batch,
    one test batch. *)
Lemma calls_of_an_epoch_witness :
  exists fr' evs,
    epoch_body (R := toy) toy_loaders "/run" "simple_vit_3d-ucf101" 2 true 3 2 toy_frame
    = (fr', Ok tt)
    /\ log fr' = (log toy_frame ++ EvSchedulerStep :: evs)%list
    /\ scheduler fr' = 1
    /\ calls SchedulerStepCall evs = 0%nat
    /\ calls OptimizerStepCall evs = 2%nat
    /\ calls BackwardCall evs = 2%nat
    /\ calls GradForwardCall evs = 2%nat
    /\ calls ZeroGradCall evs = 3%nat
    /\ calls NoGradForwardCall evs = 2%nat.
Proof.
  apply (calls_of_an_epoch (R := toy) toy_loaders "/run" "simple_vit_3d-ucf101" 2 true
           3 2 toy_frame toy_shuffle_permutes).
  - discriminate.
  - discriminate.
  - discriminate.
  - intros _. split; discriminate.
Defined.

(** No epoch to train, on a dataset with training examples only. *)
Lemma nothing_left_to_train_witness :
  exists fr',
    train_loop (R := toy) scenario empty_env "train_only" "/run" 0 2 true 3 toy_frame
    = (fr', Ok tt)
    /\ files fr' = files toy_frame
    /\ log fr' = (log toy_frame ++ [] ++ setup_events empty_env "/run" ++ [EvClose])%list.
Proof.
  apply (nothing_left_to_train (R := toy) scenario empty_env "train_only" "/run" 0 2
           true 3 toy_frame).
  - discriminate.
  - simpl. lia.
  - left. reflexivity.
Defined.

(** A dataset without examples. *)
Lemma empty_training_set_is_fatal_witness :
  exists fr',
    train_loop (R := toy) scenario empty_env "hmdb51" "/run" 3 2 true 3 toy_frame
    = (fr', Raise ValueError)
    /\ files fr' = files toy_frame
    /\ log fr' = (log toy_frame ++ []
                  ++ [EvNew (RWriter "/run/models/Jan01_00-00-00_host")])%list.
Proof.
  apply (empty_training_set_is_fatal (R := toy) scenario empty_env "hmdb51" "/run" 3 2
           true 3 toy_frame).
  - reflexivity.
  - left. reflexivity.
Defined.

(** The three epochs of the scenario, a checkpoint every second epoch. *)
Lemma due_checkpoints_on_disk_witness :
  exists fr',
    train_loop (R := toy) scenario empty_env "ucf101" "/run" 3 2 true 3 toy_frame
    = (fr', Ok tt)
    /\ (forall e, 0 <= e < 3 -> save_due 2 e = true ->
          exists ck,
            files fr' !! checkpoint_path "/run" "simple_vit_3d-ucf101" e = Some ck
            /\ ck_epoch ck = e + 1)
    /\ (forall p,
          (forall e, 0 <= e < 3 -> save_due 2 e = true ->
                     p <> checkpoint_path "/run" "simple_vit_3d-ucf101" e) ->
          files fr' !! p = files toy_frame !! p).
Proof.
  apply (due_checkpoints_on_disk (R := toy) scenario empty_env "ucf101" "/run" 3 2 true
           3 toy_frame toy_shuffle_permutes).
  - discriminate.
  - discriminate.
  - discriminate.
  - intros _. split; discriminate.
  - left. reflexivity.
Defined.


(** Epoch 2 of the scenario (a test pass every third epoch). *)
Lemma test_pass_when_due_witness :
  exists fr' before,
    epoch_body (R := toy) toy_loaders "/run" "simple_vit_3d-ucf101" 2 true 3 2 toy_frame
    = (fr', Ok tt)
    /\ log fr' = (log toy_frame ++ before
                  ++ [EvEval; EvIter test_dataloader; EvForward false;
                      EvScalar "data/test_loss_epoch"
                               (fst (evaluate (model fr') 2 (ld_test toy_loaders))) 2;
                      EvScalar "data/test_acc_epoch"
                               (snd (evaluate (model fr') 2 (ld_test toy_loaders))) 2])%list
    /\ Forall (fun e => ~ test_event e) before
    /\ training fr' = false.
Proof.
  apply (test_pass_when_due (R := toy) toy_loaders "/run" "simple_vit_3d-ucf101"
           2 true 3 2 toy_frame toy_shuffle_permutes).
  - discriminate.
  - discriminate.
  - discriminate.
  - intros _. split; discriminate.
Defined.



(** The scenario run in a directory without runs, then resumed at epoch 2
    in the directory this run left. *)
Lemma save_then_resume_witness :
  let body := epoch_body (R := toy) (loaders_of (R := toy) scenario (dataset scenario))
                         (g_save_dir toy_globals) (saveName scenario)
                         (snapshot scenario) (useTest scenario)
                         (nTestInterval scenario) in
  let fr0 := initial_frame (R := toy) empty_world SimpleViT (g_num_classes toy_globals)
                           (lr scenario) in
  let fr_e := fst (for_each (Py.range 0 (1 + 1)) body
                            (set_log (log fr0
                                      ++ setup_events empty_env (g_save_dir toy_globals))%list
                                     fr0)) in
  let path := checkpoint_path (g_save_dir toy_globals) (saveName scenario) 1 in
  let w1 := fst (main (R := toy) scenario empty_env empty_world) in
  snd (main (R := toy) scenario empty_env empty_world) = Ok tt
  /\ w_files w1 !! path = Some (checkpoint_of 1 fr_e)
  /\ exists fr2,
       main (R := toy) (resumed scenario (1 + 1)) env_after_run_0 w1
       = (world_of (fst (bind (epochs_loop (R := toy) (resumed scenario (1 + 1))
                                           (dataset scenario) (g_save_dir toy_globals)
                                           (nEpochs scenario) (snapshot scenario)
                                           (useTest scenario) (nTestInterval scenario))
                              (fun _ => emit EvClose) fr2)),
          snd (bind (epochs_loop (R := toy) (resumed scenario (1 + 1))
                                 (dataset scenario) (g_save_dir toy_globals)
                                 (nEpochs scenario) (snapshot scenario)
                                 (useTest scenario) (nTestInterval scenario))
                    (fun _ => emit EvClose) fr2))
       /\ model fr2 = model fr_e /\ optimizer fr2 = optimizer fr_e
       /\ scheduler fr2
          = fst (step_lr (Runtime := toy)
                         (adam (Runtime := toy)
                               (new_model (Runtime := toy) SimpleViT
                                          (g_num_classes toy_globals))
                               (lr scenario)))
       /\ files fr2 = w_files w1
       /\ log fr2 = (w_log w1
                     ++ [EvNew (RModel SimpleViT); EvNew RCriterion; EvNew ROptimizer;
                         EvNew RScheduler]
                     ++ EvLoad path :: setup_events env_after_run_0
                                                    (g_save_dir toy_globals))%list.
Proof.
  apply (save_then_resume (R := toy) scenario empty_env env_after_run_0 toy_globals
           toy_globals SimpleViT empty_world 1 toy_shuffle_permutes).
  - discriminate.
  - discriminate.
  - discriminate.
  - intros _. split; discriminate.
  - reflexivity.
  - reflexivity.
  - reflexivity.
  - simpl. lia.
  - reflexivity.
  - reflexivity.
  - reflexivity.
Defined.

